(** * Order / payment lifecycle of the helmet store backend

    A shallow embedding of [controllers/orderController] (createOrder,
    verifyPayment, cancelOrder, validateCoupon) and of
    [services/paymentService] (createRazorpayOrder, verifyRazorpaySignature,
    fetchPaymentDetails), with the error mapping of
    [middleware/errorHandler].

    Modelling conventions.
    - The database is a record of tables; every table is a finite map
      keyed by the column the handlers address it with.
    - A handler is a state-and-error computation over the database.  A
      thrown error keeps every write already issued, except inside
      [transaction], which restores the database it started from.
    - A JavaScript number is an IEEE 754 binary64 value ([float]); sums,
      products, quotients and comparisons of amounts are the binary64
      ones.  A decimal column stands for the number [Number(column)]
      reads from it, and a number written to a decimal column is read
      back as written.  Integer columns (stock, quantity, usedCount,
      usageLimit) and instants in milliseconds are [Z].
    - One request observes one instant [now]; the values of
      [generateOrderNumber], of the database's id default and the replies
      of the payment gateway are inputs of the request ([Env]).
    - Requests run one at a time; interleavings of concurrent requests are
      outside this model. *)

From Stdlib Require Import ZArith QArith Qround Qabs Lia Lqa Ascii String.
From Stdlib Require Import Floats.PrimFloat.
From Stdlib Require Floats.FloatOps Floats.SpecFloat.
From Stdlib.Strings Require Import Byte.
From stdpp Require Import gmap strings list fin_maps pretty sorting.

Set Warnings "-inexact-float".
Local Open Scope string_scope.
Local Open Scope Z_scope.

(** ** Enumerations *)

Inductive PaymentMethod := COD | RAZORPAY.

Module PaymentStatus.
Inductive t := PENDING | PAID | FAILED | REFUNDED.
End PaymentStatus.

Module OrderStatus.
Inductive t :=
  PENDING | CONFIRMED | PROCESSING | SHIPPED | DELIVERED | CANCELLED | RETURNED.
End OrderStatus.

Inductive DiscountType := PERCENTAGE | FIXED.

#[global] Instance PaymentMethod_eq_dec : EqDecision PaymentMethod.
Proof. solve_decision. Defined.
#[global] Instance PaymentStatus_eq_dec : EqDecision PaymentStatus.t.
Proof. solve_decision. Defined.
#[global] Instance OrderStatus_eq_dec : EqDecision OrderStatus.t.
Proof. solve_decision. Defined.
#[global] Instance DiscountType_eq_dec : EqDecision DiscountType.
Proof. solve_decision. Defined.

(** ** Rows *)

Module Address.
Record t := mk { userId : string }.
End Address.

Module Product.
Record t := mk {
  name : string;
  price : float;
  discountPrice : option float;
  stock : Z }.
Definition addStock (d : Z) (p : t) : t :=
  mk (name p) (price p) (discountPrice p) (stock p + d).
End Product.

Module ProductVariant.
Record t := mk {
  size : string;
  color : string;
  additionalPrice : float;
  stock : Z }.
Definition addStock (d : Z) (v : t) : t :=
  mk (size v) (color v) (additionalPrice v) (stock v + d).
End ProductVariant.

Module CartItem.
Record t := mk {
  productId : string;
  variantId : option string;
  quantity : Z }.
End CartItem.

(** A cart with its items ([include: { items }]); the table is keyed by
    the owning user ([where: { userId }]). *)
Module Cart.
Record t := mk { items : list CartItem.t }.
Definition clear (c : t) : t := mk [].
End Cart.

Module Coupon.
Record t := mk {
  isActive : bool;
  usedCount : Z;
  usageLimit : Z;
  validFrom : Z;
  validUntil : Z;
  minPurchase : float;
  discountType : DiscountType;
  discountValue : float;
  maxDiscount : option float }.
Definition incrementUsed (c : t) : t :=
  mk (isActive c) (usedCount c + 1) (usageLimit c) (validFrom c)
     (validUntil c) (minPurchase c) (discountType c) (discountValue c)
     (maxDiscount c).
End Coupon.

Module OrderItem.
Record t := mk {
  productId : string;
  variantId : option string;
  productName : string;
  size : string;
  color : string;
  price : float;
  quantity : Z;
  subtotal : float }.
End OrderItem.

(** An order with its items ([include: { items: true }]).  The primary
    key [id] is the key of the row in the table. *)
Module Order.
Record t := mk {
  orderNumber : string;
  userId : string;
  addressId : string;
  subtotal : float;
  discount : float;
  shippingCharge : float;
  tax : float;
  total : float;
  paymentMethod : PaymentMethod;
  paymentStatus : PaymentStatus.t;
  orderStatus : OrderStatus.t;
  notes : option string;
  razorpayOrderId : option string;
  razorpayPaymentId : option string;
  razorpaySignature : option string;
  createdAt : Z;
  items : list OrderItem.t }.

Definition setStatus (ps : PaymentStatus.t) (os : OrderStatus.t) (o : t) : t :=
  mk (orderNumber o) (userId o) (addressId o) (subtotal o) (discount o)
     (shippingCharge o) (tax o) (total o) (paymentMethod o) ps os (notes o)
     (razorpayOrderId o) (razorpayPaymentId o) (razorpaySignature o)
     (createdAt o) (items o).

Definition setPaymentStatus (ps : PaymentStatus.t) (o : t) : t :=
  setStatus ps (orderStatus o) o.

Definition setRazorpayOrderId (g : string) (o : t) : t :=
  mk (orderNumber o) (userId o) (addressId o) (subtotal o) (discount o)
     (shippingCharge o) (tax o) (total o) (paymentMethod o) (paymentStatus o)
     (orderStatus o) (notes o) (Some g) (razorpayPaymentId o)
     (razorpaySignature o) (createdAt o) (items o).

Definition setPaid (paymentId signature : string) (o : t) : t :=
  mk (orderNumber o) (userId o) (addressId o) (subtotal o) (discount o)
     (shippingCharge o) (tax o) (total o) (paymentMethod o) PaymentStatus.PAID
     OrderStatus.CONFIRMED (notes o) (razorpayOrderId o) (Some paymentId)
     (Some signature) (createdAt o) (items o).
End Order.

(** ** The database

    Modelled from the spec: the ORM schema is not among the sources, so
    keys and uniqueness follow the spec's data model: one cart per user,
    coupon [code] unique, order [id] and [orderNumber] unique, money
    columns decimal (their precision is not stated: a row keeps the
    number written to it), stock and counters integer, [createdAt] set by
    the database at insertion. *)

Record Db := mkDb {
  addresses : gmap string Address.t;        (* by id *)
  carts : gmap string Cart.t;               (* by userId *)
  products : gmap string Product.t;         (* by id *)
  variants : gmap string ProductVariant.t;  (* by id *)
  coupons : gmap string Coupon.t;           (* by code *)
  orders : gmap string Order.t }.           (* by id *)

Definition setCarts (f : gmap string Cart.t → gmap string Cart.t) (db : Db) : Db :=
  mkDb (addresses db) (f (carts db)) (products db) (variants db) (coupons db) (orders db).
Definition setProducts (f : gmap string Product.t → gmap string Product.t) (db : Db) : Db :=
  mkDb (addresses db) (carts db) (f (products db)) (variants db) (coupons db) (orders db).
Definition setVariants
    (f : gmap string ProductVariant.t → gmap string ProductVariant.t) (db : Db) : Db :=
  mkDb (addresses db) (carts db) (products db) (f (variants db)) (coupons db) (orders db).
Definition setCoupons (f : gmap string Coupon.t → gmap string Coupon.t) (db : Db) : Db :=
  mkDb (addresses db) (carts db) (products db) (variants db) (f (coupons db)) (orders db).
Definition setOrders (f : gmap string Order.t → gmap string Order.t) (db : Db) : Db :=
  mkDb (addresses db) (carts db) (products db) (variants db) (coupons db) (f (orders db)).

(** ** Errors, as [errorHandler] sees them *)

Inductive Error :=
| AppError (message : string) (statusCode : Z)
| PrismaKnownError (code : string)
| PlainError (message : string).

Definition NotFoundError (resource : string) : Error :=
  AppError (String.append resource " not found") 404.

(** [handlePrismaError]: the application error a database error code
    stands for. *)
Definition handlePrismaError (code : string) : Error :=
  if decide (code = "P2002") then AppError "A record with this value already exists" 409
  else if decide (code = "P2025") then NotFoundError "Record"
  else if decide (code = "P2003")
  then AppError "Invalid reference. Related record does not exist." 400
  else if decide (code = "P2014") then AppError "Invalid relation specified." 400
  else if decide (code = "P2021") then AppError "Database table does not exist" 500
  else AppError "Database operation failed" 500.

(** [errorHandler]: the HTTP status a handler's error is answered with
    (any other error is a 500). *)
Definition errorHandler (err : Error) : Z :=
  match err with
  | AppError _ statusCode => statusCode
  | PrismaKnownError code =>
      match handlePrismaError code with
      | AppError _ statusCode => statusCode
      | _ => 500
      end
  | PlainError _ => 500
  end.

(** ** Handlers as state-and-error computations *)

Definition M (A : Type) : Type := Db → Db * (Error + A).

#[global] Instance M_ret : MRet M := λ A a db, (db, inr a).
#[global] Instance M_bind : MBind M := λ A B f m db,
  match m db with
  | (db', inr a) => f a db'
  | (db', inl e) => (db', inl e)
  end.

Definition throw {A} (e : Error) : M A := λ db, (db, inl e).
Definition gets {A} (f : Db → A) : M A := λ db, (db, inr (f db)).
Definition modify (f : Db → Db) : M unit := λ db, (f db, inr tt).

(** [prisma.$transaction(async tx => ...)]: all writes of the body, or
    none of them when the body throws. *)
Definition transaction {A} (body : M A) : M A := λ db,
  match body db with
  | (db', inr a) => (db', inr a)
  | (_, inl e) => (db, inl e)
  end.

(** [try { body } catch (error) { handler(error) }] *)
Definition tryCatch {A} (body : M A) (handler : Error → M A) : M A := λ db,
  match body db with
  | (db', inl e) => handler e db'
  | r => r
  end.

(** [for (const x of xs) { await f(x) }] *)
Fixpoint forEach {A} (f : A → M unit) (xs : list A) : M unit :=
  match xs with
  | [] => mret tt
  | x :: rest => f x ≫= λ _, forEach f rest
  end.

(** A reply sent with [res.status(s).json(data)]. *)
Record Reply (A : Type) := mkReply { status : Z; data : A }.
Arguments mkReply {A} _ _.
Arguments status {A} _.
Arguments data {A} _.

(** ** JavaScript numbers

    A number is an IEEE 754 binary64 value; the arithmetic operators and
    comparisons of the handlers are the kernel's primitive operations on
    [float] (round to nearest, ties to even). *)

Module Number.

(** The exact value of a finite number. *)
Definition value (x : float) : option Q :=
  match FloatOps.Prim2SF x with
  | SpecFloat.S754_zero _ => Some 0%Q
  | SpecFloat.S754_finite s m e =>
      Some (Qred (inject_Z (if s then Z.neg m else Z.pos m) * Qpower 2 e))
  | _ => None
  end.

(** The number nearest to an integer ([Number(n)] for an integer column). *)
Definition ofZ (n : Z) : float :=
  FloatOps.SF2Prim (SpecFloat.binary_normalize FloatOps.prec FloatOps.emax n 0 false).

(** The sign bit, set for negative numbers and for [-0]. *)
Definition negative (x : float) : bool := PrimFloat.get_sign x.

(** Truthiness: [0], [-0] and [NaN] are falsy. *)
Definition truthy (x : float) : bool := negb (PrimFloat.is_zero x || PrimFloat.is_nan x).

(** *** [Number::toString] (ECMA-262, 6.1.6.1.20), radix 10 *)

Definition pow10 (n : Z) : Q := Qpower 10 n.

(** The half-open or closed interval of the reals that round to the
    number of mantissa [m] and exponent [e]: up to half a gap on each
    side, the ends included when the mantissa is even. *)
Definition roundsTo (m : positive) (e : Z) (q : Q) : bool :=
  let v := (inject_Z (Z.pos m) * Qpower 2 e)%Q in
  let above := (Qpower 2 e / 2)%Q in
  let below :=
    if (Z.pos m =? 2 ^ 52) && (-1074 <? e) then (Qpower 2 e / 4)%Q else above in
  if Z.even (Z.pos m)
  then Qle_bool (v - below) q && Qle_bool q (v + above)
  else negb (Qle_bool q (v - below)) && negb (Qle_bool (v + above) q).

(** The integer [t] with [10^t <= v < 10^(t+1)], for [v > 0]. *)
Definition floorLog10 (v : Q) : Z :=
  let guess :=
    ((Z.log2 (Qnum v) - Z.log2 (Z.pos (Qden v))) * 30103) / 100000 in
  let t := guess - 1 in
  let t := if Qle_bool (pow10 (t + 1)) v then t + 1 else t in
  let t := if Qle_bool (pow10 (t + 1)) v then t + 1 else t in
  let t := if Qle_bool (pow10 (t + 1)) v then t + 1 else t in
  t.

(** The digits [s] and the position [n] of the decimal point of the
    shortest decimal [s * 10^(n-k)], [k] digits long, that rounds to the
    number; of two decimals of that length the nearer, and the even one
    when they are equally near. *)
Fixpoint shortest (fuel : nat) (k : Z) (m : positive) (e : Z) (t : Z) : Z * Z :=
  let v := (inject_Z (Z.pos m) * Qpower 2 e)%Q in
  let p := t - k + 1 in
  let lo := Qfloor (v / pow10 p) in
  let hi := lo + 1 in
  let qlo := (inject_Z lo * pow10 p)%Q in
  let qhi := (inject_Z hi * pow10 p)%Q in
  let pick (s : Z) := if s =? 10 ^ k then (10 ^ (k - 1), p + k + 1) else (s, p + k) in
  match fuel with
  | O => pick lo
  | S fuel =>
      match roundsTo m e qlo, roundsTo m e qhi with
      | true, true =>
          match Qcompare (v - qlo) (qhi - v) with
          | Lt => pick lo
          | Gt => pick hi
          | Eq => if Z.even lo then pick lo else pick hi
          end
      | true, false => pick lo
      | false, true => pick hi
      | false, false => shortest fuel (k + 1) m e t
      end
  end.

Definition digitsOf (n : Z) : string := pretty (Z.to_N n).

Definition zeros (n : Z) : string := String.concat "" (replicate (Z.to_nat n) "0").

Definition toStringPositive (m : positive) (e : Z) : string :=
  let v := (inject_Z (Z.pos m) * Qpower 2 e)%Q in
  let '(s, n) := shortest 17 1 m e (floorLog10 v) in
  let digits := digitsOf s in
  let k := Z.of_nat (String.length digits) in
  if (-6 <? n) && (n <=? 21) then
    if k <=? n then digits +:+ zeros (n - k)
    else if 0 <? n
    then substring 0 (Z.to_nat n) digits +:+ "." +:+
         substring (Z.to_nat n) (Z.to_nat (k - n)) digits
    else "0." +:+ zeros (- n) +:+ digits
  else
    let exponent :=
      (if 0 <=? n - 1 then "+" else "-") +:+ digitsOf (Z.abs (n - 1)) in
    if k =? 1 then digits +:+ "e" +:+ exponent
    else substring 0 1 digits +:+ "." +:+
         substring 1 (Z.to_nat (k - 1)) digits +:+ "e" +:+ exponent.

Definition toString (x : float) : string :=
  match FloatOps.Prim2SF x with
  | SpecFloat.S754_nan => "NaN"
  | SpecFloat.S754_zero _ => "0"
  | SpecFloat.S754_infinity s => if s then "-Infinity" else "Infinity"
  | SpecFloat.S754_finite s m e =>
      (if s then "-" else "") +:+ toStringPositive m e
  end.

End Number.

(** [Math.round]: the nearest integer, halves towards +infinity; a number
    that is an integer already, an infinity and [NaN] are returned as they
    are, and a result of zero keeps the sign of the argument. *)
Definition Math_round (x : float) : float :=
  match Number.value x with
  | Some q =>
      let n := Qfloor (q + (1 # 2)) in
      if Qeq_bool (inject_Z n) q then x
      else if n =? 0 then (if Number.negative x then (-0)%float else 0%float)
      else Number.ofZ n
  | None => x
  end.

(** [Math.min] of two numbers. *)
Definition Math_min (a b : float) : float :=
  if PrimFloat.is_nan a || PrimFloat.is_nan b then PrimFloat.nan
  else if (a <? b)%float then a
  else if (b <? a)%float then b
  else if Number.negative a then a else b.

Definition Math_abs (x : float) : float := PrimFloat.abs x.

(** ** JavaScript helpers *)

(** Truthiness of a string: only the empty string is falsy. *)
Definition truthy (s : string) : bool := negb (String.eqb s "").

(** Truthiness of an optional string ([undefined] and [null] are falsy). *)
Definition truthyOpt (s : option string) : bool :=
  match s with Some s => truthy s | None => false end.

Definition upperChar (c : ascii) : ascii :=
  let n := N_of_ascii c in
  if ((97 <=? n) && (n <=? 122))%N then ascii_of_N (n - 32) else c.

(** [String.prototype.toUpperCase] on ASCII text. *)
Fixpoint toUpperCase (s : string) : string :=
  match s with
  | EmptyString => EmptyString
  | String c rest => String (upperChar c) (toUpperCase rest)
  end.

(** [haystack.includes(needle)] *)
Fixpoint includes (needle haystack : string) : bool :=
  String.prefix needle haystack ||
  match haystack with
  | EmptyString => false
  | String _ rest => includes needle rest
  end.

(** ** What a request takes from outside the database *)

Record RazorpayOrderResult := mkRazorpayOrderResult {
  rzp_id : string;
  rzp_amount : float }.

Record Env := mkEnv {
  (** the clock, in milliseconds *)
  now : Z;
  (** the value of [generateOrderNumber()] (date and [Math.random]) *)
  generateOrderNumber : string;
  (** the primary key the database gives the new order *)
  newOrderId : string;
  RAZORPAY_KEY_ID : option string;
  RAZORPAY_KEY_SECRET : option string;
  (** [crypto.createHmac('sha256', secret).update(body).digest()] *)
  createHmac_sha256 : string → string → list byte;
  (** [razorpay.orders.create], given the amount in paise and the receipt:
      the gateway's order, or what the call throws, seen through its
      [message]: [Some] text for an [Error], [None] for a value without a
      [message] (the SDK rejects with a plain [{ statusCode, error }]) *)
  razorpay_orders_create : float → string → option string + RazorpayOrderResult;
  (** [razorpay.payments.fetch]: [Number(payment.amount)], the payment's
      amount in paise, or [None] when the call throws *)
  razorpay_payments_fetch : string → option float }.

(** ** Queries and writes of the ORM *)

Module prisma.

(** [update] of one row by its key: throws P2025 when the row is absent. *)
Definition updateRow {V} (tbl : Db → gmap string V)
    (set : (gmap string V → gmap string V) → Db → Db)
    (k : string) (f : V → V) : M unit := λ db,
  match tbl db !! k with
  | Some _ => (set (alter f k) db, inr tt)
  | None => (db, inl (PrismaKnownError "P2025"))
  end.

Definition product_update (id : string) (f : Product.t → Product.t) : M unit :=
  updateRow products setProducts id f.
Definition productVariant_update (id : string)
    (f : ProductVariant.t → ProductVariant.t) : M unit :=
  updateRow variants setVariants id f.
Definition coupon_update (code : string) (f : Coupon.t → Coupon.t) : M unit :=
  updateRow coupons setCoupons code f.
Definition order_update (id : string) (f : Order.t → Order.t) : M unit :=
  updateRow orders setOrders id f.

(** [order.updateMany({ where, data })] *)
Definition order_updateMany (where_ : Order.t → bool) (f : Order.t → Order.t)
    : M unit :=
  modify (setOrders (fmap (λ o, if where_ o then f o else o))).

(** The rows of [order] satisfying [where_]. *)
Definition order_findMany (where_ : Order.t → bool) (db : Db)
    : list (string * Order.t) :=
  filter (λ r, where_ r.2 = true) (map_to_list (orders db)).

(** Of a list of rows, one with the greatest [createdAt]
    ([orderBy: { createdAt: 'desc' }], first row). *)
Fixpoint latest (rows : list (string * Order.t)) : option (string * Order.t) :=
  match rows with
  | [] => None
  | r :: rest =>
      match latest rest with
      | Some r' =>
          if Order.createdAt r.2 <? Order.createdAt r'.2 then Some r' else Some r
      | None => Some r
      end
  end.

Definition order_findFirst_latest (where_ : Order.t → bool)
    : M (option (string * Order.t)) :=
  gets (λ db, latest (order_findMany where_ db)).

Definition order_findFirst (where_ : Order.t → bool)
    : M (option (string * Order.t)) :=
  gets (λ db, head (order_findMany where_ db)).

(** Modelled from the spec: the schema's unique constraints are not among
    the sources; the spec makes [orderNumber] globally unique, and [id]
    is the primary key.  [order.create] throws P2002 on a duplicate. *)
Definition order_create (id : string) (o : Order.t) : M (string * Order.t) := λ db,
  if bool_decide (is_Some (orders db !! id))
     || bool_decide (order_findMany
          (λ o', String.eqb (Order.orderNumber o') (Order.orderNumber o)) db ≠ [])
  then (db, inl (PrismaKnownError "P2002"))
  else (setOrders (insert id o) db, inr (id, o)).

(** [cartItem.deleteMany({ where: { cartId } })], for the cart of [userId]. *)
Definition cartItem_deleteMany (userId : string) : M unit :=
  modify (setCarts (alter Cart.clear userId)).

End prisma.

(** ** services/paymentService *)

#[global] Instance byte_eq_dec : EqDecision byte := Byte.byte_eq_dec.

(** Node's [Buffer] conversions for the ['hex'] encoding. *)
Module Buffer.

Definition unhex (c : ascii) : option N :=
  let n := N_of_ascii c in
  if ((48 <=? n) && (n <=? 57))%N then Some (n - 48)%N
  else if ((97 <=? n) && (n <=? 102))%N then Some (n - 87)%N
  else if ((65 <=? n) && (n <=? 70))%N then Some (n - 55)%N
  else None.

(** [Buffer.from(s, 'hex')]: two digits make a byte; decoding stops at
    the first pair that is not hexadecimal, and a trailing single
    character is dropped. *)
Fixpoint from_hex (s : string) : list byte :=
  match s with
  | String a (String b rest) =>
      match unhex a, unhex b with
      | Some hi, Some lo =>
          match Byte.of_N (16 * hi + lo) with
          | Some w => w :: from_hex rest
          | None => []
          end
      | _, _ => []
      end
  | _ => []
  end.

Definition hexDigit (n : N) : ascii :=
  ascii_of_N (if (n <? 10)%N then 48 + n else 87 + n).

(** [buf.toString('hex')] / [digest('hex')]: lower-case digits. *)
Fixpoint to_hex (bs : list byte) : string :=
  match bs with
  | [] => EmptyString
  | b :: rest =>
      let n := Byte.to_N b in
      String (hexDigit (n / 16)) (String (hexDigit (n mod 16)) (to_hex rest))
  end.

End Buffer.

(** [crypto.timingSafeEqual] on buffers of equal length. *)
Definition timingSafeEqual (a b : list byte) : bool := bool_decide (a = b).

(** [getRazorpayInstance] (config/razorpay): the message of the error it
    throws when a credential is missing.  The code keeps the instance it
    has built once; the model reads the credentials at every call, which
    is the same as long as they do not change while the server runs. *)
Definition getRazorpayInstance (env : Env) : option string :=
  if negb (truthyOpt (RAZORPAY_KEY_ID env)) || negb (truthyOpt (RAZORPAY_KEY_SECRET env))
  then Some "Razorpay credentials not configured"
  else None.

(** The [catch] block reads [error.message.includes]: on a thrown value
    without a [message] that read itself throws a [TypeError], which
    leaves the function in place of the two errors the block constructs. *)
Definition createRazorpayOrder (env : Env) (amount : float) (receipt : string)
    : Error + RazorpayOrderResult :=
  let attempt : option string + RazorpayOrderResult :=
    if (amount <=? 0)%float then inl (Some "Invalid amount")
    else match getRazorpayInstance env with
         | Some message => inl (Some message)
         | None =>
             let amountInPaise := Math_round (amount * 100)%float in
             razorpay_orders_create env amountInPaise receipt
         end in
  match attempt with
  | inr order => inr order
  | inl (Some message) =>
      if includes "Invalid" message
      then inl (PlainError "Invalid payment details")
      else inl (PlainError "Payment gateway error. Please try again.")
  | inl None =>
      inl (PlainError "Cannot read properties of undefined (reading 'includes')")
  end.

Definition verifyRazorpaySignature (env : Env)
    (orderId paymentId signature : string) : bool :=
  match RAZORPAY_KEY_SECRET env with
  | Some secret =>
      if truthy secret then
        let body := String.append orderId (String.append "|" paymentId) in
        let expectedSignature := Buffer.to_hex (createHmac_sha256 env secret body) in
        let expectedBuf := Buffer.from_hex expectedSignature in
        let signatureBuf := Buffer.from_hex signature in
        if negb (length expectedBuf =? length signatureBuf)%nat then false
        else timingSafeEqual expectedBuf signatureBuf
      else false
  | None => false
  end.

Definition fetchPaymentDetails (env : Env) (paymentId : string) : Error + float :=
  match getRazorpayInstance env with
  | Some _ => inl (PlainError "Could not fetch payment details")
  | None =>
      match razorpay_payments_fetch env paymentId with
      | Some amount => inr amount
      | None => inl (PlainError "Could not fetch payment details")
      end
  end.

(** ** controllers/orderController *)

Record AuthUser := mkAuthUser { userId : string; role : string }.

Definition liftE {A} (r : Error + A) : M A := λ db, (db, r).

Definition unless (ok : bool) (e : Error) : M unit :=
  if ok then mret tt else throw e.

(** A cart item with its [product] and [variant] relations loaded. *)
Record CartLine := mkCartLine {
  item : CartItem.t;
  product : Product.t;
  variant : option ProductVariant.t }.

Definition loadLine (db : Db) (it : CartItem.t) : option CartLine :=
  p ← products db !! CartItem.productId it;
  Some (mkCartLine it p (CartItem.variantId it ≫= λ v, variants db !! v)).

(** [prisma.cart.findUnique({ where: { userId }, include: { items: {
    include: { product, variant } } } })].  [product] is a required
    relation: a dangling reference makes the query itself fail. *)
Definition cart_findUnique (uid : string) : M (option (Cart.t * list CartLine)) := λ db,
  match carts db !! uid with
  | None => (db, inr None)
  | Some cart =>
      match mapM (loadLine db) (Cart.items cart) with
      | Some lines => (db, inr (Some (cart, lines)))
      | None => (db, inl (PlainError "Inconsistent query result"))
      end
  end.

(** [Number(item.product.discountPrice || item.product.price)]: a decimal
    column is an object, truthy whenever it is not null. *)
Definition listPrice (p : Product.t) : float :=
  match Product.discountPrice p with
  | Some d => d
  | None => Product.price p
  end.

Definition unitPrice (l : CartLine) : float :=
  match variant l with
  | Some v => (listPrice (product l) + ProductVariant.additionalPrice v)%float
  | None => listPrice (product l)
  end.

Definition orElse (s : option string) (default : string) : string :=
  match s with
  | Some s => if truthy s then s else default
  | None => default
  end.

(** One element of [orderItems] ([productImage] is left out: images play
    no part in totals, stock or status). *)
Definition orderItemOf (l : CartLine) : OrderItem.t :=
  let itemSubtotal := (unitPrice l * Number.ofZ (CartItem.quantity (item l)))%float in
  OrderItem.mk
    (CartItem.productId (item l))
    (CartItem.variantId (item l))
    (Product.name (product l))
    (orElse (ProductVariant.size <$> variant l) "Standard")
    (orElse (ProductVariant.color <$> variant l) "Default")
    (unitPrice l)
    (CartItem.quantity (item l))
    itemSubtotal.

(** [subtotal += itemSubtotal] over the cart, from 0. *)
Definition subtotalOf (orderItems : list OrderItem.t) : float :=
  foldl (λ acc i, (acc + OrderItem.subtotal i)%float) 0%float orderItems.

Record RazorpayOrderView := mkRazorpayOrderView {
  view_id : option string;
  view_amount : float }.

Record CreateOrderData := mkCreateOrderData {
  order : string * Order.t;
  razorpayOrder : option RazorpayOrderView }.

Module CreateOrderBody.
Record t := mk {
  addressId : string;
  paymentMethod : PaymentMethod;
  couponCode : option string;
  notes : option string }.
End CreateOrderBody.

(** The [where] of the search for a pending gateway order to reuse. *)
Definition isRecentPending (uid : string) (tenMinutesAgo : Z) (o : Order.t) : bool :=
  String.eqb (Order.userId o) uid
  && bool_decide (Order.paymentMethod o = RAZORPAY)
  && bool_decide (Order.paymentStatus o = PaymentStatus.PENDING)
  && bool_decide (Order.orderStatus o = OrderStatus.PENDING)
  && bool_decide (is_Some (Order.razorpayOrderId o))
  && (tenMinutesAgo <=? Order.createdAt o).

(** The [where] of the sweep of expired pending gateway orders. *)
Definition isExpiredPending (uid : string) (tenMinutesAgo : Z) (o : Order.t) : bool :=
  String.eqb (Order.userId o) uid
  && bool_decide (Order.paymentMethod o = RAZORPAY)
  && bool_decide (Order.paymentStatus o = PaymentStatus.PENDING)
  && bool_decide (Order.orderStatus o = OrderStatus.PENDING)
  && (Order.createdAt o <? tenMinutesAgo).

(** The gate of "Apply coupon if provided". *)
Definition couponApplies (now : Z) (subtotal : float) (coupon : Coupon.t) : bool :=
  Coupon.isActive coupon
  && (Coupon.usedCount coupon <? Coupon.usageLimit coupon)
  && (Coupon.validFrom coupon <=? now)
  && (now <=? Coupon.validUntil coupon)
  && (Coupon.minPurchase coupon <=? subtotal)%float.

(** The discount [createOrder] computes for a coupon that passed the gate. *)
Definition checkoutDiscount (subtotal : float) (coupon : Coupon.t) : float :=
  match Coupon.discountType coupon with
  | PERCENTAGE =>
      let discount := (subtotal * (Coupon.discountValue coupon / 100))%float in
      match Coupon.maxDiscount coupon with
      | Some cap => Math_min discount cap
      | None => discount
      end
  | FIXED => Coupon.discountValue coupon
  end.

(** "Apply coupon if provided": the discount, after incrementing the
    usage of a coupon that applies. *)
Definition applyCoupon (env : Env) (couponCode : option string) (subtotal : float)
    : M float :=
  match couponCode with
  | Some code =>
      if truthy code then
        coupon ← gets (λ db, coupons db !! code);
        match coupon with
        | Some coupon =>
            if couponApplies (now env) subtotal coupon then
              prisma.coupon_update code Coupon.incrementUsed;;
              mret (checkoutDiscount subtotal coupon)
            else mret 0%float
        | None => mret 0%float
        end
      else mret 0%float
  | None => mret 0%float
  end.

(** The stock writes for one purchased line: the variant's counter when
    the line has a variant, then the product's. *)
Definition deductLine (variantId : option string) (productId : string) (quantity : Z)
    : M unit :=
  (match variantId with
   | Some v =>
       if truthy v
       then prisma.productVariant_update v (ProductVariant.addStock (- quantity))
       else mret tt
   | None => mret tt
   end);;
  prisma.product_update productId (Product.addStock (- quantity)).

(** [createOrder] from "Calculate order totals" to the reply. *)
Definition placeOrder (env : Env) (user : AuthUser) (body : CreateOrderBody.t)
    (lines : list CartLine) : M (Reply CreateOrderData) :=
  let paymentMethod := CreateOrderBody.paymentMethod body in
  let orderItems := orderItemOf <$> lines in
  let subtotal := subtotalOf orderItems in
  discount ← applyCoupon env (CreateOrderBody.couponCode body) subtotal;
  let shippingCharge := if (999 <=? subtotal)%float then 0%float else 99%float in
  let tax := Math_round (subtotal * 0.18)%float in
  let total := (subtotal - discount + shippingCharge + tax)%float in
  let orderNumber := generateOrderNumber env in
  order ← transaction (
    newOrder ← prisma.order_create (newOrderId env)
      (Order.mk orderNumber (userId user)
         (CreateOrderBody.addressId body) subtotal discount shippingCharge tax total
         paymentMethod PaymentStatus.PENDING OrderStatus.PENDING
         (if truthyOpt (CreateOrderBody.notes body) then CreateOrderBody.notes body
          else None)
         None None None (now env) orderItems);
    (match paymentMethod with
     | COD =>
         forEach (λ l, deductLine (CartItem.variantId (item l))
                         (CartItem.productId (item l)) (CartItem.quantity (item l)))
           lines;;
         prisma.cartItem_deleteMany (userId user)
     | RAZORPAY => mret tt
     end);;
    mret newOrder);
  razorpayOrder ←
    match paymentMethod with
    | RAZORPAY =>
        razorpayOrder ← liftE (createRazorpayOrder env total orderNumber);
        prisma.order_update order.1
          (Order.setRazorpayOrderId (rzp_id razorpayOrder));;
        mret (Some razorpayOrder)
    | COD => mret None
    end;
  mret (mkReply 201
    (mkCreateOrderData order
       ((λ r, mkRazorpayOrderView (Some (rzp_id r)) (rzp_amount r)) <$> razorpayOrder))).

(** POST /api/orders.  The confirmation e-mail is sent without being
    awaited and touches neither the database nor the reply. *)
Definition createOrder (env : Env) (user : option AuthUser) (body : CreateOrderBody.t)
    : M (Reply CreateOrderData) :=
  match user with
  | None => throw (AppError "Not authenticated" 401)
  | Some user =>
      address ← gets (λ db, addresses db !! CreateOrderBody.addressId body);
      unless (match address with
              | Some a => String.eqb (Address.userId a) (userId user)
              | None => false
              end) (NotFoundError "Address");;
      cart ← cart_findUnique (userId user);
      match cart with
      | None | Some (_, []) => throw (AppError "Your cart is empty" 400)
      | Some (_, lines) =>
          match CreateOrderBody.paymentMethod body with
          | RAZORPAY =>
              let tenMinutesAgo := now env - 10 * 60 * 1000 in
              existingPendingOrder ←
                prisma.order_findFirst_latest (isRecentPending (userId user) tenMinutesAgo);
              match existingPendingOrder with
              | Some existing =>
                  mret (mkReply 200
                    (mkCreateOrderData existing
                       (Some (mkRazorpayOrderView (Order.razorpayOrderId existing.2)
                                (Math_round (Order.total existing.2 * 100)%float)))))
              | None =>
                  prisma.order_updateMany (isExpiredPending (userId user) tenMinutesAgo)
                    (Order.setStatus PaymentStatus.FAILED OrderStatus.CANCELLED);;
                  placeOrder env user body lines
              end
          | COD => placeOrder env user body lines
          end
      end
  end.

Module VerifyPaymentBody.
Record t := mk {
  razorpay_order_id : string;
  razorpay_payment_id : string;
  razorpay_signature : string }.
End VerifyPaymentBody.

Definition hasGatewayId (gid : string) (o : Order.t) : bool :=
  bool_decide (Order.razorpayOrderId o = Some gid).

(** POST /api/orders/verify-payment *)
Definition verifyPayment (env : Env) (user : option AuthUser) (body : VerifyPaymentBody.t)
    : M (Reply (string * Order.t)) :=
  let razorpay_order_id := VerifyPaymentBody.razorpay_order_id body in
  let razorpay_payment_id := VerifyPaymentBody.razorpay_payment_id body in
  let razorpay_signature := VerifyPaymentBody.razorpay_signature body in
  match user with
  | None => throw (AppError "Not authenticated" 401)
  | Some user =>
      unless (truthy razorpay_order_id && truthy razorpay_payment_id
              && truthy razorpay_signature)
        (AppError "Missing payment verification details" 400);;
      let isValid :=
        verifyRazorpaySignature env razorpay_order_id razorpay_payment_id
          razorpay_signature in
      (if isValid then mret tt
       else
         prisma.order_updateMany (hasGatewayId razorpay_order_id)
           (Order.setPaymentStatus PaymentStatus.FAILED);;
         throw (AppError "Payment verification failed" 400));;
      existingOrder ← prisma.order_findFirst (hasGatewayId razorpay_order_id);
      match existingOrder with
      | None => throw (NotFoundError "Order")
      | Some (orderId, existingOrder) =>
          unless (String.eqb (Order.userId existingOrder) (userId user))
            (AppError "You are not authorized to verify this payment" 403);;
          tryCatch (
            amount ← liftE (fetchPaymentDetails env razorpay_payment_id);
            let paidAmountInRupees := (amount / 100)%float in
            let orderTotal := Order.total existingOrder in
            if (0.01 <? Math_abs (paidAmountInRupees - orderTotal))%float then
              prisma.order_update orderId (Order.setPaymentStatus PaymentStatus.FAILED);;
              throw (AppError "Payment amount does not match order total" 400)
            else mret tt)
            (λ error,
               match error with
               | AppError _ _ => throw error
               | _ => throw (AppError "Could not verify payment amount" 500)
               end);;
          order ← transaction (
            prisma.order_update orderId
              (Order.setPaid razorpay_payment_id razorpay_signature);;
            let updatedOrder :=
              Order.setPaid razorpay_payment_id razorpay_signature existingOrder in
            forEach (λ i, deductLine (OrderItem.variantId i) (OrderItem.productId i)
                            (OrderItem.quantity i))
              (Order.items updatedOrder);;
            cart ← gets (λ db, carts db !! Order.userId existingOrder);
            (match cart with
             | Some _ => prisma.cartItem_deleteMany (Order.userId existingOrder)
             | None => mret tt
             end);;
            mret (orderId, updatedOrder));
          mret (mkReply 200 order)
      end
  end.

(** The stock writes of a cancellation for one order item: the product's
    counter, then the variant's when the item has one. *)
Definition restoreLine (i : OrderItem.t) : M unit :=
  prisma.product_update (OrderItem.productId i) (Product.addStock (OrderItem.quantity i));;
  match OrderItem.variantId i with
  | Some v =>
      if truthy v
      then prisma.productVariant_update v (ProductVariant.addStock (OrderItem.quantity i))
      else mret tt
  | None => mret tt
  end.

(** PUT /api/orders/:id/cancel *)
Definition cancelOrder (user : option AuthUser) (id : string) : M (Reply unit) :=
  match user with
  | None => throw (AppError "Not authenticated" 401)
  | Some user =>
      order ← gets (λ db, orders db !! id);
      match order with
      | None => throw (NotFoundError "Order")
      | Some order =>
          unless (String.eqb (Order.userId order) (userId user))
            (AppError "Access denied" 403);;
          unless (bool_decide (Order.orderStatus order = OrderStatus.PENDING)
                  || bool_decide (Order.orderStatus order = OrderStatus.CONFIRMED))
            (AppError "Order cannot be cancelled at this stage" 400);;
          transaction (
            forEach restoreLine (Order.items order);;
            prisma.order_update id
              (Order.setStatus
                 (if bool_decide (Order.paymentStatus order = PaymentStatus.PAID)
                  then PaymentStatus.REFUNDED
                  else Order.paymentStatus order)
                 OrderStatus.CANCELLED));;
          mret (mkReply 200 tt)
      end
  end.

Module ValidateCouponBody.
(** [couponCode] is [None] when the field is not a string; [subtotal]
    is the number in the field, [None] when the field is absent. *)
Record t := mk {
  couponCode : option string;
  subtotal : option float }.
End ValidateCouponBody.

Record CouponPreview := mkCouponPreview {
  preview_code : string;
  preview_discountType : DiscountType;
  preview_discountValue : float;
  preview_discount : float;
  preview_minPurchase : float;
  preview_maxDiscount : option float }.

(** POST /api/orders/validate-coupon *)
Definition validateCoupon (env : Env) (body : ValidateCouponBody.t)
    : M (Reply CouponPreview) :=
  match ValidateCouponBody.couponCode body with
  | None => throw (AppError "Coupon code is required" 400)
  | Some couponCode =>
      unless (truthy couponCode) (AppError "Coupon code is required" 400);;
      coupon ← gets (λ db, coupons db !! toUpperCase couponCode);
      match coupon with
      | None => throw (AppError "Invalid coupon code" 404)
      | Some coupon =>
          unless (Coupon.isActive coupon)
            (AppError "This coupon is no longer active" 400);;
          unless (negb (Coupon.usageLimit coupon <=? Coupon.usedCount coupon))
            (AppError "This coupon has reached its usage limit" 400);;
          unless (negb (now env <? Coupon.validFrom coupon))
            (AppError "This coupon is not yet valid" 400);;
          unless (negb (Coupon.validUntil coupon <? now env))
            (AppError "This coupon has expired" 400);;
          let orderSubtotal :=
            match ValidateCouponBody.subtotal body with
            | Some s => if Number.truthy s then s else 0%float
            | None => 0%float
            end in
          unless (negb ((0 <? orderSubtotal)%float
                        && (orderSubtotal <? Coupon.minPurchase coupon)%float))
            (AppError
               ("Minimum purchase of ₹" +:+ Number.toString (Coupon.minPurchase coupon)
                +:+ " required for this coupon") 400);;
          let discount :=
            if (0 <? orderSubtotal)%float then
              match Coupon.discountType coupon with
              | PERCENTAGE =>
                  let discount :=
                    (orderSubtotal * (Coupon.discountValue coupon / 100))%float in
                  match Coupon.maxDiscount coupon with
                  | Some cap => Math_min discount cap
                  | None => discount
                  end
              | FIXED => Coupon.discountValue coupon
              end
            else 0%float in
          mret (mkReply 200
            (mkCouponPreview (toUpperCase couponCode) (Coupon.discountType coupon)
               (Coupon.discountValue coupon) (Math_round discount)
               (Coupon.minPurchase coupon) (Coupon.maxDiscount coupon)))
      end
  end.

(** ** A concrete installation, for worked examples

    HMAC-SHA256 as Node's [crypto] computes it (FIPS 180-4, RFC 2104), on
    ASCII text; the seed coupons of [prisma/seed]; two customers. *)

Module Crypto.

Definition w32 (x : Z) : Z := Z.land x 0xFFFFFFFF.
Definition rotr (n x : Z) : Z := Z.lor (Z.shiftr x n) (w32 (Z.shiftl x (32 - n))).
Definition Ch (x y z : Z) : Z := Z.lxor (Z.land x y) (Z.land (Z.lxor x 0xFFFFFFFF) z).
Definition Maj (x y z : Z) : Z :=
  Z.lxor (Z.lxor (Z.land x y) (Z.land x z)) (Z.land y z).
Definition Sigma0 (x : Z) : Z := Z.lxor (Z.lxor (rotr 2 x) (rotr 13 x)) (rotr 22 x).
Definition Sigma1 (x : Z) : Z := Z.lxor (Z.lxor (rotr 6 x) (rotr 11 x)) (rotr 25 x).
Definition sigma0 (x : Z) : Z := Z.lxor (Z.lxor (rotr 7 x) (rotr 18 x)) (Z.shiftr x 3).
Definition sigma1 (x : Z) : Z := Z.lxor (Z.lxor (rotr 17 x) (rotr 19 x)) (Z.shiftr x 10).

(** The first 64 primes. *)
Definition primes : list Z :=
  filter (λ n, forallb (λ d, negb (n mod d =? 0) || (n <=? d)) (seqZ 2 16)) (seqZ 2 310).

(** The integer cube root, by bisection on the bits of the root. *)
Fixpoint cbrtBits (fuel : nat) (n root bit : Z) : Z :=
  match fuel with
  | O => root
  | S fuel =>
      let next := root + bit in
      cbrtBits fuel n (if next * next * next <=? n then next else root) (bit / 2)
  end.

(** The round constants: the first 32 bits of the fractional parts of the
    cube roots of the first 64 primes. *)
Definition K : list Z :=
  (λ p, w32 (cbrtBits 36 (p * 2 ^ 96) 0 (2 ^ 35))) <$> primes.

(** The initial hash value: the same of the square roots of the first 8
    primes. *)
Definition H0 : list Z :=
  (λ p, w32 (Z.sqrt (p * 2 ^ 64))) <$> take 8 primes.

(** Big-endian words of a block of bytes. *)
Fixpoint words (bs : list Z) : list Z :=
  match bs with
  | a :: b :: c :: d :: rest =>
      (Z.shiftl a 24 + Z.shiftl b 16 + Z.shiftl c 8 + d) :: words rest
  | _ => []
  end.

(** The message schedule, most recent word first. *)
Fixpoint schedule (n : nat) (w : list Z) : list Z :=
  match n with
  | O => w
  | S n =>
      schedule n
        (w32 (sigma1 (nth 1 w 0) + nth 6 w 0 + sigma0 (nth 14 w 0) + nth 15 w 0) :: w)
  end.

Definition round (s : list Z) (kw : Z * Z) : list Z :=
  match s with
  | [a; b; c; d; e; f; g; h] =>
      let t1 := h + Sigma1 e + Ch e f g + fst kw + snd kw in
      let t2 := Sigma0 a + Maj a b c in
      [w32 (t1 + t2); a; b; c; w32 (d + t1); e; f; g]
  | _ => s
  end.

Definition compress (h : list Z) (block : list Z) : list Z :=
  let w := rev (schedule 48 (rev (words block))) in
  let s := fold_left round (combine K w) h in
  map (λ p, w32 (fst p + snd p)) (combine h s).

Fixpoint blocks (n : nat) (h : list Z) (bs : list Z) : list Z :=
  match n with
  | O => h
  | S n => blocks n (compress h (firstn 64 bs)) (skipn 64 bs)
  end.

Definition be (n : nat) (x : Z) : list Z :=
  map (λ i, Z.land (Z.shiftr x (8 * Z.of_nat i)) 0xFF) (rev (seq 0 n)).

Definition pad (bs : list Z) : list Z :=
  let len := Z.of_nat (length bs) in
  let zeros := Z.to_nat ((55 - len) mod 64) in
  (bs ++ [0x80] ++ repeat 0 zeros ++ be 8 (8 * len))%list.

Definition sha256 (bs : list Z) : list Z :=
  let p := pad bs in
  flat_map (be 4) (blocks (length p / 64) H0 p).

Definition hmac_sha256 (key msg : list Z) : list Z :=
  let key := if 64 <? Z.of_nat (length key) then sha256 key else key in
  let key := (key ++ repeat 0 (64 - length key))%list in
  sha256 (map (Z.lxor 0x5c) key ++ sha256 (map (Z.lxor 0x36) key ++ msg))%list.

Definition bytesOf (s : string) : list Z :=
  map (λ c, Z.of_N (N_of_ascii c)) (list_ascii_of_string s).

Definition toBytes (zs : list Z) : list byte :=
  flat_map (λ z, match Byte.of_N (Z.to_N z) with Some b => [b] | None => [] end) zs.

Definition createHmac_sha256 (secret body : string) : list byte :=
  toBytes (hmac_sha256 (bytesOf secret) (bytesOf body)).
End Crypto.

Module Sample.

Definition alice : AuthUser := mkAuthUser "user-alice" "CUSTOMER".
Definition bob : AuthUser := mkAuthUser "user-bob" "CUSTOMER".
Definition carol : AuthUser := mkAuthUser "user-carol" "CUSTOMER".

(** 2026-02-08T00:00:00Z *)
Definition today : Z := 1770508800000.

(** The coupons WELCOME10 and HELMET20 of the seed. *)
Definition WELCOME10 : Coupon.t :=
  Coupon.mk true 0 1000 1704067200000 1830211200000 1000 PERCENTAGE 10
    (Some 500%float).
Definition HELMET20 : Coupon.t :=
  Coupon.mk true 0 500 1704067200000 1830211200000 2000 FIXED 200 None.

Definition helmet : Product.t := Product.mk "Street Helmet" 1299 (Some 1000%float) 5.
Definition helmetL : ProductVariant.t := ProductVariant.mk "L" "Matte Black" 0 3.
Definition visor : Product.t := Product.mk "Clear Visor" 500 None 10.

Definition db : Db :=
  mkDb
    (<["addr-alice" := Address.mk "user-alice"]>
       (<["addr-bob" := Address.mk "user-bob"]>
          (<["addr-carol" := Address.mk "user-carol"]> ∅)))
    (<["user-alice" := Cart.mk [CartItem.mk "helmet" (Some "helmet-L") 1]]>
       (<["user-bob" := Cart.mk [CartItem.mk "visor" None 1]]>
          (<["user-carol" := Cart.mk []]> ∅)))
    (<["helmet" := helmet]> (<["visor" := visor]> ∅))
    (<["helmet-L" := helmetL]> ∅)
    (<["WELCOME10" := WELCOME10]> (<["HELMET20" := HELMET20]> ∅))
    ∅.

(** A gateway that accepts every order and reports, for the payment
    ["pay_1080"], 108000 paise, and for ["pay_1"], 100 paise. *)
Definition env : Env :=
  mkEnv today "HLM-20260208-A1B2" "order-1" (Some "rzp_test_key")
    (Some "test_secret") Crypto.createHmac_sha256
    (λ amountInPaise _, inr (mkRazorpayOrderResult "order_rzp_1" amountInPaise))
    (λ paymentId,
       if String.eqb paymentId "pay_1080" then Some 108000%float
       else if String.eqb paymentId "pay_1" then Some 100%float
       else None).

Definition at_ (t : Z) (e : Env) : Env :=
  mkEnv t (generateOrderNumber e) (newOrderId e) (RAZORPAY_KEY_ID e)
    (RAZORPAY_KEY_SECRET e) (createHmac_sha256 e) (razorpay_orders_create e)
    (razorpay_payments_fetch e).

(** Alice's checkout request. *)
Definition checkout (m : PaymentMethod) (couponCode : option string)
    : CreateOrderBody.t :=
  CreateOrderBody.mk "addr-alice" m couponCode None.

(** The signature the gateway issues for a payment of an order. *)
Definition sign (orderId paymentId : string) : string :=
  Buffer.to_hex
    (Crypto.createHmac_sha256 "test_secret"
       (String.append orderId (String.append "|" paymentId))).

(** The database after Alice checked out through the gateway with
    WELCOME10: her order of 1080 is pending under the gateway id
    ["order_rzp_1"], her cart and the stock are as before. *)
Definition dbPending : Db :=
  (createOrder env (Some alice) (checkout RAZORPAY (Some "WELCOME10")) db).1.

Definition payment (paymentId signature : string) : VerifyPaymentBody.t :=
  VerifyPaymentBody.mk "order_rzp_1" paymentId signature.

(** An order of Bob that already carries the number the next call of
    [generateOrderNumber] returns. *)
Definition bobOrder : Order.t :=
  Order.mk "HLM-20260208-A1B2" "user-bob" "addr-bob" 500 0 99 90 689 COD
    PaymentStatus.PENDING OrderStatus.PENDING None None None None today
    [OrderItem.mk "visor" None "Clear Visor" "Standard" "Default" 500 1 500].

Definition dbTaken : Db := setOrders (insert "order-0" bobOrder) db.

(** A gateway checkout of Alice that has been waiting for its payment for
    nine minutes. *)
Definition waitingOrder : Order.t :=
  Order.mk "HLM-20260208-W8W8" "user-alice" "addr-alice" 1000 0 0 180 1180 RAZORPAY
    PaymentStatus.PENDING OrderStatus.PENDING None (Some "order_rzp_0") None None
    (today - 9 * 60 * 1000)
    [OrderItem.mk "helmet" (Some "helmet-L") "Street Helmet" "L" "Matte Black" 1000 1 1000].

Definition dbWaiting : Db := setOrders (insert "order-0" waitingOrder) db.

(** Two more customers: Dave, with three items priced 155.41, 265.03 and
    579.56 in the cart, 1000.00 in all; Erin, with one decal of 25. *)
Definition dave : AuthUser := mkAuthUser "user-dave" "CUSTOMER".
Definition erin : AuthUser := mkAuthUser "user-erin" "CUSTOMER".

Definition dbFractional : Db :=
  setCarts
    (λ cs, <["user-dave" :=
               Cart.mk [CartItem.mk "gloves" None 1; CartItem.mk "jacket" None 1;
                        CartItem.mk "boots" None 1]]>
             (<["user-erin" := Cart.mk [CartItem.mk "decal" None 1]]> cs))
    (setProducts
       (λ ps, <["gloves" := Product.mk "Riding Gloves" 155.41 None 20]>
                (<["jacket" := Product.mk "Mesh Jacket" 265.03 None 20]>
                   (<["boots" := Product.mk "Touring Boots" 579.56 None 20]>
                      (<["decal" := Product.mk "Helmet Decal" 25 None 20]> ps))))
       (mkDb
          (<["addr-dave" := Address.mk "user-dave"]>
             (<["addr-erin" := Address.mk "user-erin"]> (addresses db)))
          (carts db) (products db) (variants db) (coupons db) (orders db))).

End Sample.

(** * Vocabulary of the properties *)

(** [same π] relates two databases that agree on the projection [π]. *)
Definition same {T} (π : Db → T) : relation Db := λ db db', π db' = π db.

Definition both (R1 R2 : relation Db) : relation Db := λ db db', R1 db db' ∧ R2 db db'.

(** Stock counters and carts. *)
Definition inventory : relation Db :=
  both (same products) (both (same variants) (same carts)).

(** Every table but [coupons]. *)
Definition exceptCoupons : relation Db :=
  both (same addresses) (both (same orders) inventory).

(** Every table but [orders]. *)
Definition exceptOrders : relation Db :=
  both (same addresses) (both (same coupons) inventory).

(** [m] relates the database it starts from to the one it leaves,
    whatever the outcome. *)
Definition keeps {A} (R : relation Db) (m : M A) : Prop :=
  ∀ db db' r, m db = (db', r) → R db db'.

(** Units of the lines [xs] that fall on the key [k]. *)
Definition unitsOf {A} (key : A → option string) (q : A → Z) (k : string)
    (xs : list A) : Z :=
  foldr (λ x acc, if bool_decide (key x = Some k) then q x + acc else acc) 0 xs.

(** The variant a line writes to: [if (item.variantId)]. *)
Definition variantKey (v : option string) : option string :=
  match v with
  | Some s => if truthy s then Some s else None
  | None => None
  end.

(** The writes [key x: add (q x)] of the lines [xs], one after the other. *)
Definition adjustAll {A V} (key : A → option string) (q : A → Z) (add : Z → V → V)
    (m : gmap string V) (xs : list A) : gmap string V :=
  foldl (λ m x, match key x with Some j => alter (add (q x)) j m | None => m end) m xs.

Definition ownsAddress (db : Db) (uid addressId : string) : Prop :=
  ∃ a, addresses db !! addressId = Some a ∧ Address.userId a = uid.

Definition cartIsEmpty (db : Db) (uid : string) : Prop :=
  match carts db !! uid with
  | Some cart => Cart.items cart = []
  | None => True
  end.

Definition orderNumberTaken (db : Db) (n : string) : Prop :=
  prisma.order_findMany (λ o, String.eqb (Order.orderNumber o) n) db ≠ [].

(** The coupon [createOrder] applies, if any. *)
Definition appliedCoupon (env : Env) (couponCode : option string) (subtotal : float)
    (db : Db) : option (string * Coupon.t) :=
  code ← couponCode;
  if truthy code then
    coupon ← coupons db !! code;
    if couponApplies (now env) subtotal coupon then Some (code, coupon) else None
  else None.

(** The sweep of expired pending gateway orders. *)
Definition sweepExpired (uid : string) (tenMinutesAgo : Z) (db : Db) : Db :=
  setOrders
    (fmap (λ o, if isExpiredPending uid tenMinutesAgo o
                then Order.setStatus PaymentStatus.FAILED OrderStatus.CANCELLED o
                else o)) db.

Definition tenMinutesBefore (t : Z) : Z := t - 10 * 60 * 1000.

(** The pending gateway order createOrder would hand back at [now]. *)
Definition reusableOrder (db : Db) (uid : string) (now : Z) : option (string * Order.t) :=
  prisma.latest (prisma.order_findMany (isRecentPending uid (tenMinutesBefore now)) db).

Definition reuseReply (existing : string * Order.t) : Reply CreateOrderData :=
  mkReply 200
    (mkCreateOrderData existing
       (Some (mkRazorpayOrderView (Order.razorpayOrderId existing.2)
                (Math_round (Order.total existing.2 * 100)%float)))).

(** The row [placeOrder] inserts, given the discount. *)
Definition draftOrder (env : Env) (user : AuthUser) (body : CreateOrderBody.t)
    (lines : list CartLine) (discount : float) : Order.t :=
  let orderItems := orderItemOf <$> lines in
  let subtotal := subtotalOf orderItems in
  let shippingCharge := if (999 <=? subtotal)%float then 0%float else 99%float in
  let tax := Math_round (subtotal * 0.18)%float in
  let total := (subtotal - discount + shippingCharge + tax)%float in
  Order.mk (generateOrderNumber env) (userId user) (CreateOrderBody.addressId body)
    subtotal discount shippingCharge tax total (CreateOrderBody.paymentMethod body)
    PaymentStatus.PENDING OrderStatus.PENDING
    (if truthyOpt (CreateOrderBody.notes body) then CreateOrderBody.notes body else None)
    None None None (now env) orderItems.

Definition deductCart (lines : list CartLine) : M unit :=
  forEach (λ l, deductLine (CartItem.variantId (item l)) (CartItem.productId (item l))
                  (CartItem.quantity (item l))) lines.

(** The discount [placeOrder] settles on. *)
Definition discountFor (env : Env) (body : CreateOrderBody.t) (lines : list CartLine)
    (db : Db) : float :=
  let subtotal := subtotalOf (orderItemOf <$> lines) in
  match appliedCoupon env (CreateOrderBody.couponCode body) subtotal db with
  | Some (_, coupon) => checkoutDiscount subtotal coupon
  | None => 0%float
  end.

(** The coupon table after [placeOrder] got past its coupon step. *)
Definition couponsAfter (env : Env) (body : CreateOrderBody.t) (lines : list CartLine)
    (db : Db) : gmap string Coupon.t :=
  match appliedCoupon env (CreateOrderBody.couponCode body)
          (subtotalOf (orderItemOf <$> lines)) db with
  | Some (code, _) => alter Coupon.incrementUsed code (coupons db)
  | None => coupons db
  end.

Definition cartProductKey (l : CartLine) : option string :=
  Some (CartItem.productId (item l)).
Definition cartVariantKey (l : CartLine) : option string :=
  variantKey (CartItem.variantId (item l)).
Definition cartUnits (l : CartLine) : Z := CartItem.quantity (item l).

(** The database [placeOrder] starts from: for a gateway order, after the
    sweep of expired pending orders. *)
Definition beforePlacing (env : Env) (uid : string) (m : PaymentMethod) (db : Db) : Db :=
  match m with
  | COD => db
  | RAZORPAY => sweepExpired uid (tenMinutesBefore (now env)) db
  end.

(** The number [r] stands for the integer [n]. *)
Definition isInteger (r : float) (n : Z) : Prop :=
  r = Number.ofZ n ∨ ∃ q, Number.value r = Some q ∧ (q == inject_Z n)%Q.

(** [r] is [x] rounded to the nearest integer, a half going up: whatever
    the value of [x], [r] is an integer no more than a half below it and
    less than a half above it. *)
Definition roundedHalfUp (x r : float) : Prop :=
  ∀ q, Number.value x = Some q →
    ∃ n, isInteger r n ∧ (inject_Z n - (1 # 2) <= q)%Q ∧ (q < inject_Z n + (1 # 2))%Q.

(** The amounts of an order, as binary64 arithmetic gives them: the total
    is the sum taken from left to right, each step rounded to the nearest
    number. *)
Definition totalsConsistent (o : Order.t) : Prop :=
  Order.total o
    = (Order.subtotal o - Order.discount o + Order.shippingCharge o + Order.tax o)%float
  ∧ Order.tax o = Math_round (Order.subtotal o * 0.18)%float
  ∧ roundedHalfUp (Order.subtotal o * 0.18)%float (Order.tax o)
  ∧ Order.shippingCharge o = (if (999 <=? Order.subtotal o)%float then 0 else 99)%float.

(** The amounts of an order satisfy the equation of C6 in the reals. *)
Definition totalsExact (o : Order.t) : Prop :=
  ∃ subtotal discount shippingCharge tax total,
    Number.value (Order.subtotal o) = Some subtotal
    ∧ Number.value (Order.discount o) = Some discount
    ∧ Number.value (Order.shippingCharge o) = Some shippingCharge
    ∧ Number.value (Order.tax o) = Some tax
    ∧ Number.value (Order.total o) = Some total
    ∧ (total == subtotal - discount + shippingCharge + tax)%Q.

(** The order a run of createOrder created, if it created one. *)
Definition createdOrder (r : Db * (Error + Reply CreateOrderData))
    : option (string * Order.t) :=
  match r.2 with
  | inr reply => if status reply =? 201 then Some (order (data reply)) else None
  | inl _ => None
  end.

(** The writes of a signature failure. *)
Definition failGatewayOrders (gid : string) (db : Db) : Db :=
  setOrders
    (fmap (λ o, if hasGatewayId gid o
                then Order.setPaymentStatus PaymentStatus.FAILED o else o)) db.

Definition deductOrder (o : Order.t) : M unit :=
  forEach (λ i, deductLine (OrderItem.variantId i) (OrderItem.productId i)
                  (OrderItem.quantity i)) (Order.items o).

(** The amount the gateway reports, in paise, is more than 0.01 away from
    the order's total: [Math.abs(amount / 100 - total) > 0.01]. *)
Definition amountMismatch (amount : float) (o : Order.t) : bool :=
  (0.01 <? Math_abs (amount / 100 - Order.total o))%float.

(** The digest the server expects for a payment. *)
Definition expectedDigest (env : Env) (secret orderId paymentId : string) : list byte :=
  createHmac_sha256 env secret (String.append orderId (String.append "|" paymentId)).

(** The body of a verification request carries its three fields. *)
Definition completeBody (body : VerifyPaymentBody.t) : Prop :=
  truthy (VerifyPaymentBody.razorpay_order_id body) = true
  ∧ truthy (VerifyPaymentBody.razorpay_payment_id body) = true
  ∧ truthy (VerifyPaymentBody.razorpay_signature body) = true.

(** The supplied signature is not the hexadecimal text of the expected
    digest. *)
Definition signatureDiffers (env : Env) (body : VerifyPaymentBody.t) : Prop :=
  ∀ secret, RAZORPAY_KEY_SECRET env = Some secret →
    VerifyPaymentBody.razorpay_signature body
    ≠ Buffer.to_hex
        (expectedDigest env secret (VerifyPaymentBody.razorpay_order_id body)
           (VerifyPaymentBody.razorpay_payment_id body)).

(** The supplied signature does not decode to the expected digest. *)
Definition signatureDecodesElsewhere (env : Env) (body : VerifyPaymentBody.t) : Prop :=
  ∀ secret, RAZORPAY_KEY_SECRET env = Some secret →
    Buffer.from_hex (VerifyPaymentBody.razorpay_signature body)
    ≠ expectedDigest env secret (VerifyPaymentBody.razorpay_order_id body)
        (VerifyPaymentBody.razorpay_payment_id body).

(** Every order of [db] under the gateway id [gid] is FAILED in [db']. *)
Definition gatewayOrdersFailed (gid : string) (db db' : Db) : Prop :=
  ∀ id o, orders db !! id = Some o → Order.razorpayOrderId o = Some gid →
    Order.paymentStatus <$> orders db' !! id = Some PaymentStatus.FAILED.

(** No order is PAID in [db'] that was not the same PAID row in [db]. *)
Definition nothingBecamePaid (db db' : Db) : Prop :=
  ∀ id o', orders db' !! id = Some o' → Order.paymentStatus o' = PaymentStatus.PAID →
    orders db !! id = Some o'.

(** The product row [p'] is the row [p] with [d] units added to its
    stock. *)
Definition productMoved (d : Z) (p p' : Product.t) : Prop :=
  Product.stock p' = Product.stock p + d
  ∧ Product.name p' = Product.name p
  ∧ Product.price p' = Product.price p
  ∧ Product.discountPrice p' = Product.discountPrice p.

(** The variant row [v'] is the row [v] with [d] units added to its
    stock. *)
Definition variantMoved (d : Z) (v v' : ProductVariant.t) : Prop :=
  ProductVariant.stock v' = ProductVariant.stock v + d
  ∧ ProductVariant.size v' = ProductVariant.size v
  ∧ ProductVariant.color v' = ProductVariant.color v
  ∧ ProductVariant.additionalPrice v' = ProductVariant.additionalPrice v.

(** The stock of [db'] is that of [db] with, for every product and every
    variant, the units of the lines [xs] that name it taken off: the same
    rows exist, and each differs from what it was in its stock alone. *)
Definition stockDeducted {A} (productKey variantKey : A → option string) (q : A → Z)
    (xs : list A) (db db' : Db) : Prop :=
  (∀ p, option_Forall2 (productMoved (- unitsOf productKey q p xs))
          (products db !! p) (products db' !! p))
  ∧ (∀ v, option_Forall2 (variantMoved (- unitsOf variantKey q v xs))
            (variants db !! v) (variants db' !! v)).

Definition cartItemProduct (i : CartItem.t) : option string := Some (CartItem.productId i).
Definition cartItemVariant (i : CartItem.t) : option string :=
  variantKey (CartItem.variantId i).
Definition orderItemProduct (i : OrderItem.t) : option string :=
  Some (OrderItem.productId i).
Definition orderItemVariant (i : OrderItem.t) : option string :=
  variantKey (OrderItem.variantId i).

(** The items of the cart of [uid] are deleted, nothing else in [carts]. *)
Definition cartCleared (uid : string) (db db' : Db) : Prop :=
  carts db' = alter (λ _, Cart.mk []) uid (carts db).

(** Every gate of verifyPayment let the request through. *)
Definition gatesPassed (env : Env) (user : AuthUser) (body : VerifyPaymentBody.t)
    (o : Order.t) : Prop :=
  completeBody body
  ∧ verifyRazorpaySignature env (VerifyPaymentBody.razorpay_order_id body)
      (VerifyPaymentBody.razorpay_payment_id body)
      (VerifyPaymentBody.razorpay_signature body) = true
  ∧ Order.razorpayOrderId o = Some (VerifyPaymentBody.razorpay_order_id body)
  ∧ Order.userId o = userId user
  ∧ ∃ amount,
      fetchPaymentDetails env (VerifyPaymentBody.razorpay_payment_id body) = inr amount
      ∧ amountMismatch amount o = false.

(** The subtotal createOrder computes for the cart of [uid]. *)
Definition cartSubtotal (db : Db) (uid : string) : float :=
  match cart_findUnique uid db with
  | (_, inr (Some (_, lines))) => subtotalOf (orderItemOf <$> lines)
  | _ => 0%float
  end.



(** The coupon row [c'] is the row [c] used once more. *)
Definition usedOnceMore (c c' : Coupon.t) : Prop :=
  Coupon.usedCount c' = Coupon.usedCount c + 1
  ∧ Coupon.isActive c' = Coupon.isActive c
  ∧ Coupon.usageLimit c' = Coupon.usageLimit c
  ∧ Coupon.validFrom c' = Coupon.validFrom c
  ∧ Coupon.validUntil c' = Coupon.validUntil c
  ∧ Coupon.minPurchase c' = Coupon.minPurchase c
  ∧ Coupon.discountType c' = Coupon.discountType c
  ∧ Coupon.discountValue c' = Coupon.discountValue c
  ∧ Coupon.maxDiscount c' = Coupon.maxDiscount c.

(** The usage of the coupon [code] went up by one from [db] to [db'], and
    no other coupon changed. *)
Definition usageIncremented (code : string) (db db' : Db) : Prop :=
  (∃ coupon coupon', coupons db !! code = Some coupon
                     ∧ coupons db' !! code = Some coupon'
                     ∧ usedOnceMore coupon coupon')
  ∧ ∀ other, other ≠ code → coupons db' !! other = coupons db !! other.

(** The request gets to the checkout proper: the address is the caller's,
    the cart loads with at least one line, and a gateway request finds no
    pending order to hand back. *)
Definition reachesCheckout (env : Env) (user : AuthUser) (body : CreateOrderBody.t)
    (db : Db) : Prop :=
  ownsAddress db (userId user) (CreateOrderBody.addressId body)
  ∧ (∃ cart lines, cart_findUnique (userId user) db = (db, inr (Some (cart, lines)))
                   ∧ lines ≠ [])
  ∧ (CreateOrderBody.paymentMethod body = RAZORPAY →
     reusableOrder db (userId user) (now env) = None).

(** The insertion of the order row is refused: its id or its order number
    is taken. *)
Definition orderConflict (env : Env) (db : Db) : Prop :=
  is_Some (orders db !! newOrderId env) ∨ orderNumberTaken db (generateOrderNumber env).

(** The order row of this call exists in [db'] and did not in [db]. *)
Definition orderRowCreated (env : Env) (db db' : Db) : Prop :=
  orders db !! newOrderId env = None ∧ is_Some (orders db' !! newOrderId env).

(** The stock of [db'] is that of [db] with the units of the lines [xs]
    added back. *)
Definition stockRestored {A} (productKey variantKey : A → option string) (q : A → Z)
    (xs : list A) (db db' : Db) : Prop :=
  (∀ p, option_Forall2 (productMoved (unitsOf productKey q p xs))
          (products db !! p) (products db' !! p))
  ∧ (∀ v, option_Forall2 (variantMoved (unitsOf variantKey q v xs))
            (variants db !! v) (variants db' !! v)).

Definition cancellable (o : Order.t) : bool :=
  bool_decide (Order.orderStatus o = OrderStatus.PENDING)
  || bool_decide (Order.orderStatus o = OrderStatus.CONFIRMED).

(** The row a cancellation leaves. *)
Definition cancelled (o : Order.t) : Order.t :=
  Order.setStatus
    (if bool_decide (Order.paymentStatus o = PaymentStatus.PAID)
     then PaymentStatus.REFUNDED else Order.paymentStatus o)
    OrderStatus.CANCELLED o.

(** The order row [o'] is the row [o] but for its payment status and its
    order status. *)
Definition sameDetails (o o' : Order.t) : Prop :=
  Order.orderNumber o' = Order.orderNumber o
  ∧ Order.userId o' = Order.userId o
  ∧ Order.addressId o' = Order.addressId o
  ∧ Order.subtotal o' = Order.subtotal o
  ∧ Order.discount o' = Order.discount o
  ∧ Order.shippingCharge o' = Order.shippingCharge o
  ∧ Order.tax o' = Order.tax o
  ∧ Order.total o' = Order.total o
  ∧ Order.paymentMethod o' = Order.paymentMethod o
  ∧ Order.notes o' = Order.notes o
  ∧ Order.razorpayOrderId o' = Order.razorpayOrderId o
  ∧ Order.razorpayPaymentId o' = Order.razorpayPaymentId o
  ∧ Order.razorpaySignature o' = Order.razorpaySignature o
  ∧ Order.createdAt o' = Order.createdAt o
  ∧ Order.items o' = Order.items o.

(** The order row [o'] is the row [o] but for its payment status. *)
Definition samePurchase (o o' : Order.t) : Prop :=
  sameDetails o o' ∧ Order.orderStatus o' = Order.orderStatus o.

(** The product and variant rows that the stock writes of the lines [xs]
    address all exist. *)
Definition rowsExist {A} (productKey variantKey : A → option string) (xs : list A)
    (db : Db) : Prop :=
  ∀ x, x ∈ xs →
    (∀ p, productKey x = Some p → is_Some (products db !! p))
    ∧ (∀ v, variantKey x = Some v → is_Some (variants db !! v)).

(** Two databases hold the same product and variant rows, whatever their
    contents. *)
Definition sameRows (db db' : Db) : Prop :=
  (∀ p, is_Some (products db' !! p) ↔ is_Some (products db !! p))
  ∧ (∀ v, is_Some (variants db' !! v) ↔ is_Some (variants db !! v)).

(** The order [verifyPayment] settles on for a gateway order id:
    [order.findFirst({ where: { razorpayOrderId } })]. *)
Definition gatewayOrder (db : Db) (gid : string) : option (string * Order.t) :=
  head (prisma.order_findMany (hasGatewayId gid) db).

(** The order row [o'] is the row [o] confirmed as paid by the payment
    [paymentId] under the signature [signature]. *)
Definition paidRow (paymentId signature : string) (o o' : Order.t) : Prop :=
  Order.paymentStatus o' = PaymentStatus.PAID
  ∧ Order.orderStatus o' = OrderStatus.CONFIRMED
  ∧ Order.razorpayPaymentId o' = Some paymentId
  ∧ Order.razorpaySignature o' = Some signature
  ∧ Order.razorpayOrderId o' = Order.razorpayOrderId o
  ∧ Order.userId o' = Order.userId o
  ∧ Order.total o' = Order.total o
  ∧ Order.items o' = Order.items o.

(** * The rest of the order and payment code

    The read endpoints of [controllers/orderController], the helpers the
    controllers of the same sources call, and the vocabulary of their
    properties. *)

(** ** Further installations, for worked examples *)

Module Scenario.

(** The installation of [Sample] with a gateway that cannot be reached:
    every call throws an [Error] of the network layer. *)
Definition envGatewayDown : Env :=
  mkEnv Sample.today "HLM-20260208-A1B2" "order-1" (Some "rzp_test_key")
    (Some "test_secret") Crypto.createHmac_sha256
    (λ _ _, inl (Some "connect ECONNREFUSED"))
    (λ _, None).

(** The installation of [Sample] with a gateway that rejects every order
    the way the SDK does, with an object that has no [message]. *)
Definition envGatewayRejects : Env :=
  mkEnv Sample.today "HLM-20260208-A1B2" "order-1" (Some "rzp_test_key")
    (Some "test_secret") Crypto.createHmac_sha256
    (λ _ _, inl None)
    (λ _, None).

(** The installation of [Sample] without the gateway's secret. *)
Definition envNoSecret : Env :=
  mkEnv Sample.today "HLM-20260208-A1B2" "order-1" (Some "rzp_test_key")
    None Crypto.createHmac_sha256
    (λ amountInPaise _, inr (mkRazorpayOrderResult "order_rzp_1" amountInPaise))
    (λ _, None).

(** The installation of [Sample] at its next draw of an order number. *)
Definition envNext : Env :=
  mkEnv Sample.today "HLM-20260208-C3D4" "order-1" (Some "rzp_test_key")
    (Some "test_secret") Crypto.createHmac_sha256
    (λ amountInPaise _, inr (mkRazorpayOrderResult "order_rzp_1" amountInPaise))
    (razorpay_payments_fetch Sample.env).

(** A gateway checkout Alice abandoned an hour ago. *)
Definition staleOrder : Order.t :=
  Order.mk "HLM-20260207-Z9Z9" "user-alice" "addr-alice" 1000 0 0 180 1180 RAZORPAY
    PaymentStatus.PENDING OrderStatus.PENDING None (Some "order_rzp_0") None None
    (Sample.today - 60 * 60 * 1000)
    [OrderItem.mk "helmet" (Some "helmet-L") "Street Helmet" "L" "Matte Black" 1000 1 1000].

Definition dbStale : Db := setOrders (insert "order-9" staleOrder) Sample.dbTaken.

(** [Sample.db] with the helmet and its variant sold out. *)
Definition dbSoldOut : Db :=
  setVariants (alter (ProductVariant.addStock (- 3)) "helmet-L")
    (setProducts (alter (Product.addStock (- 5)) "helmet") Sample.db).

(** An order of Bob for a visor and for a product whose row is gone. *)
Definition ghostOrder : Order.t :=
  Order.mk "HLM-20260208-G0G0" "user-bob" "addr-bob" 1000 0 0 180 1180 COD
    PaymentStatus.PENDING OrderStatus.PENDING None None None None Sample.today
    [OrderItem.mk "visor" None "Clear Visor" "Standard" "Default" 500 1 500;
     OrderItem.mk "ghost" None "Withdrawn Helmet" "Standard" "Default" 500 1 500].

Definition dbGhost : Db := setOrders (insert "order-7" ghostOrder) Sample.db.

Definition admin : AuthUser := mkAuthUser "user-admin" "ADMIN".

(** A delivered cash order of Alice for one visor, placed [daysAgo] days
    before [Sample.today]. *)
Definition pastOrder (number : string) (daysAgo : Z) : Order.t :=
  Order.mk number "user-alice" "addr-alice" 500 0 99 90 689 COD
    PaymentStatus.PAID OrderStatus.DELIVERED None None None None
    (Sample.today - daysAgo * 24 * 60 * 60 * 1000)
    [OrderItem.mk "visor" None "Clear Visor" "Standard" "Default" 500 1 500].

(** Three past orders of Alice beside the order of Bob. *)
Definition dbHistory : Db :=
  setOrders
    (λ os, <["order-a" := pastOrder "HLM-20260205-AAAA" 3]>
             (<["order-b" := pastOrder "HLM-20260206-BBBB" 2]>
                (<["order-c" := pastOrder "HLM-20260207-CCCC" 1]> os)))
    Sample.dbTaken.

End Scenario.

(** An error of the payment service, as createOrder lets it through: one
    of the two its [catch] block constructs, or the [TypeError] the block
    itself throws on a rejection without a [message]. *)
Definition isGatewayError (e : Error) : Prop :=
  e = PlainError "Invalid payment details"
  ∨ e = PlainError "Payment gateway error. Please try again."
  ∨ e = PlainError "Cannot read properties of undefined (reading 'includes')".

(** An order of [uid] that is a gateway order still pending and created
    before the instant [t]. *)
Definition expiredPending (uid : string) (t : Z) (o : Order.t) : Prop :=
  Order.userId o = uid
  ∧ Order.paymentMethod o = RAZORPAY
  ∧ Order.paymentStatus o = PaymentStatus.PENDING
  ∧ Order.orderStatus o = OrderStatus.PENDING
  ∧ Order.createdAt o < t.

(** At most one order carries the gateway order id [gid]. *)
Definition gatewayIdUnique (db : Db) (gid : string) : Prop :=
  ∀ id1 id2 o1 o2,
    orders db !! id1 = Some o1 → orders db !! id2 = Some o2 →
    Order.razorpayOrderId o1 = Some gid → Order.razorpayOrderId o2 = Some gid →
    id1 = id2.

(** The gates of the coupon preview that do not look at the subtotal. *)
Definition previewable (now : Z) (coupon : Coupon.t) : bool :=
  Coupon.isActive coupon
  && negb (Coupon.usageLimit coupon <=? Coupon.usedCount coupon)
  && negb (now <? Coupon.validFrom coupon)
  && negb (Coupon.validUntil coupon <? now).

(** The subtotal the preview works with: [subtotal ? Number(subtotal) : 0]. *)
Definition previewSubtotal (body : ValidateCouponBody.t) : float :=
  match ValidateCouponBody.subtotal body with
  | Some s => if Number.truthy s then s else 0%float
  | None => 0%float
  end.

(** ** controllers/orderController: the read endpoints *)

(** GET /api/orders/:id.  Of the reply, the [address] and [user]
    relations of the order are left out. *)
Definition getOrderById (user : option AuthUser) (id : string)
    : M (Reply (string * Order.t)) :=
  match user with
  | None => throw (AppError "Not authenticated" 401)
  | Some user =>
      order ← gets (λ db, orders db !! id);
      match order with
      | None => throw (NotFoundError "Order")
      | Some order =>
          (if negb (String.eqb (Order.userId order) (userId user))
              && negb (String.eqb (role user) "ADMIN")
           then throw (AppError "Access denied" 403)
           else mret tt);;
          mret (mkReply 200 (id, order))
      end
  end.

Module PaginatedResponse.
Record t (A : Type) := mk {
  items : list A;
  total : Z;
  page : Z;
  limit : Z;
  totalPages : Z;
  hasNext : bool;
  hasPrev : bool }.
Arguments mk {A} _ _ _ _ _ _ _.
Arguments items {A} _.
Arguments total {A} _.
Arguments page {A} _.
Arguments limit {A} _.
Arguments totalPages {A} _.
Arguments hasNext {A} _.
Arguments hasPrev {A} _.
End PaginatedResponse.

(** [orderBy: { createdAt: 'desc' }]: [a] may stand before [b]. *)
Definition newerFirst (a b : string * Order.t) : Prop :=
  Order.createdAt b.2 ≤ Order.createdAt a.2.

#[global] Instance newerFirst_dec : RelDecision newerFirst.
Proof. intros a b. unfold newerFirst. apply _. Defined.

(** [order.findMany({ where, orderBy: { createdAt: 'desc' }, skip, take })],
    for a [skip] and a [take] that are not negative.  Rows of equal
    [createdAt] keep the order in which the table lists them. *)
Definition order_findMany_page (where_ : Order.t → bool) (skip limit : Z) (db : Db)
    : list (string * Order.t) :=
  take (Z.to_nat limit)
    (drop (Z.to_nat skip) (merge_sort newerFirst (prisma.order_findMany where_ db))).

(** [order.count({ where })] *)
Definition order_count (where_ : Order.t → bool) (db : Db) : Z :=
  Z.of_nat (length (prisma.order_findMany where_ db)).

(** [where: { userId }] *)
Definition ownedBy (uid : string) (o : Order.t) : bool := String.eqb (Order.userId o) uid.

(** GET /api/orders.  [page] and [limit] are the integers [parseInt]
    reads from the query (['1'] and ['10'] when absent).  The code puts no
    lower bound on [limit]: what the ORM answers to a [take] or a [skip]
    below zero, or to a query text that is no number, is not in the
    sources, so the properties of this endpoint are stated for
    [1 <= limit].  Page numbers and counts are integers far below 2^53,
    where the binary64 operations of the code ([pageNum - 1], the product
    with [limitNum], and the ceiling of [total / limitNum]) give the
    integers written here. *)
Definition getUserOrders (user : option AuthUser) (page limit : Z)
    : M (Reply (PaginatedResponse.t (string * Order.t))) :=
  match user with
  | None => throw (AppError "Not authenticated" 401)
  | Some user =>
      let pageNum := Z.max 1 page in
      let limitNum := Z.min 50 limit in
      let skip := (pageNum - 1) * limitNum in
      orders ← gets (order_findMany_page (ownedBy (userId user)) skip limitNum);
      total ← gets (order_count (ownedBy (userId user)));
      let totalPages := Qceiling (inject_Z total / inject_Z limitNum) in
      mret (mkReply 200
        (PaginatedResponse.mk orders total pageNum limitNum totalPages
           (pageNum <? totalPages) (1 <? pageNum)))
  end.

(** The orders of [uid], newest first, as the pages of GET /api/orders
    cut them. *)
Definition ordersOf (uid : string) (db : Db) : list (string * Order.t) :=
  merge_sort newerFirst (prisma.order_findMany (ownedBy uid) db).

(** The page GET /api/orders answers with, [] when it fails. *)
Definition pageItems (user : AuthUser) (limit : Z) (db : Db) (page : Z)
    : list (string * Order.t) :=
  match (getUserOrders (Some user) page limit db).2 with
  | inr reply => PaginatedResponse.items (data reply)
  | inl _ => []
  end.

(** ** Text helpers of the controllers *)

(** Every character of [s] satisfies [P]. *)
Fixpoint allChars (P : ascii → bool) (s : string) : bool :=
  match s with
  | EmptyString => true
  | String c rest => P c && allChars P rest
  end.

Definition isAsciiChar (c : ascii) : bool := (N_of_ascii c <? 128)%N.
Definition isDigit (c : ascii) : bool :=
  let n := N_of_ascii c in ((48 <=? n) && (n <=? 57))%N.
Definition isLower (c : ascii) : bool :=
  let n := N_of_ascii c in ((97 <=? n) && (n <=? 122))%N.

(** [s.padStart(n, c)] for a filler of one character. *)
Definition padStart (n : nat) (c : ascii) (s : string) : string :=
  String.append (string_of_list_ascii (repeat c (n - String.length s))) s.

(** The calendar fields [generateOrderNumber] reads from [new Date()]:
    [getFullYear()], [getMonth()] (0 to 11) and [getDate()]. *)
Record CalendarDate := mkCalendarDate {
  getFullYear : Z;
  getMonth : Z;
  getDate : Z }.

(** The numbers of a range all print as [k] digits ([pad]: after
    [padStart(2, '0')]). *)
Definition digitsOk (k : nat) (pad : bool) (from len : Z) : bool :=
  forallb
    (λ n, let s := if pad then padStart 2 "0" (pretty n) else pretty n in
          (String.length s =? k)%nat && allChars isDigit s)
    (seqZ from len).

Module orderController.

(** [generateOrderNumber()], given the date and the text of
    [Math.random().toString(36)].  [pretty] is [String(n)] for an integer. *)
Definition generateOrderNumber (date : CalendarDate) (random36 : string) : string :=
  let y := getFullYear date in
  let m := padStart 2 "0" (pretty (getMonth date + 1)) in
  let d := padStart 2 "0" (pretty (getDate date)) in
  let rand := toUpperCase (substring 2 4 random36) in
  String.append "HLM-"
    (String.append (pretty y)
       (String.append m (String.append d (String.append "-" rand)))).

End orderController.

Definition lowerChar (c : ascii) : ascii :=
  let n := N_of_ascii c in
  if ((65 <=? n) && (n <=? 90))%N then ascii_of_N (n + 32) else c.

(** [String.prototype.toLowerCase] on ASCII text. *)
Fixpoint toLowerCase (s : string) : string :=
  match s with
  | EmptyString => EmptyString
  | String c rest => String (lowerChar c) (toLowerCase rest)
  end.

(** [\s] on ASCII text: tab, line feed, vertical tab, form feed, carriage
    return and space. *)
Definition isSpace (c : ascii) : bool :=
  let n := N_of_ascii c in (((9 <=? n) && (n <=? 13)) || (n =? 32))%N.

Definition isDash (c : ascii) : bool := (N_of_ascii c =? 45)%N.

(** The class [[a-z0-9\s-]]. *)
Definition isSlugSource (c : ascii) : bool :=
  isLower c || isDigit c || isSpace c || isDash c.

(** [s.replace(/X/g, '')] for a class [X] of characters. *)
Fixpoint removeAll (X : ascii → bool) (s : string) : string :=
  match s with
  | EmptyString => EmptyString
  | String c rest => if X c then removeAll X rest else String c (removeAll X rest)
  end.

(** [s.replace(/X+/g, r)] for a class [X] of characters: every maximal
    run of characters of the class becomes one [r].  [inRun] says that the
    character before [s] was of the class. *)
Fixpoint replaceRuns (X : ascii → bool) (r : ascii) (inRun : bool) (s : string)
    : string :=
  match s with
  | EmptyString => EmptyString
  | String c rest =>
      if X c then
        if inRun then replaceRuns X r true rest
        else String r (replaceRuns X r true rest)
      else String c (replaceRuns X r false rest)
  end.

Fixpoint trimStart (s : string) : string :=
  match s with
  | EmptyString => EmptyString
  | String c rest => if isSpace c then trimStart rest else s
  end.

Fixpoint trimEnd (s : string) : string :=
  match s with
  | EmptyString => EmptyString
  | String c rest =>
      match trimEnd rest with
      | EmptyString => if isSpace c then EmptyString else String c EmptyString
      | kept => String c kept
      end
  end.

(** [s.trim()] *)
Definition trim (s : string) : string := trimEnd (trimStart s).

Module productController.

(** [generateSlug(name)], up to its last step. *)
Definition slugBeforeTrim (name : string) : string :=
  replaceRuns isDash "-" false
    (replaceRuns isSpace "-" false
       (removeAll (λ c, negb (isSlugSource c)) (toLowerCase name))).

Definition generateSlug (name : string) : string := trim (slugBeforeTrim name).

End productController.

(** A character a slug is made of: a lower-case letter, a digit or a
    dash. *)
Definition isSlugChar (c : ascii) : bool := isLower c || isDigit c || isDash c.

(** No two neighbours in [s] are both of the class [X]. *)
Fixpoint noNeighbours (X : ascii → bool) (s : string) : bool :=
  match s with
  | String a (String b _ as rest) => negb (X a && X b) && noNeighbours X rest
  | _ => true
  end.

(** ** The order routes and their middleware *)

(** [s.split(sep)] for a separator of one character. *)
Fixpoint splitOn (sep : ascii) (s : string) : list string :=
  match s with
  | EmptyString => [EmptyString]
  | String c rest =>
      if Ascii.eqb c sep then EmptyString :: splitOn sep rest
      else match splitOn sep rest with
           | piece :: pieces => String c piece :: pieces
           | [] => [String c EmptyString]
           end
  end.

(** middleware/auth, [authenticate]: the user it attaches to the request,
    or the message of the 401 it answers.  [verifyAccessToken] is the
    check of the token (utils/jwt), [None] when it throws. *)
Definition authenticate (verifyAccessToken : string → option AuthUser)
    (authorization : option string) : string + AuthUser :=
  match authorization with
  | Some authHeader =>
      if truthy authHeader && String.prefix "Bearer " authHeader then
        match splitOn " " authHeader !! 1%nat ≫= verifyAccessToken with
        | Some decoded => inr decoded
        | None => inl "Invalid or expired token. Please login again."
        end
      else inl "Access denied. No token provided."
  | None => inl "Access denied. No token provided."
  end.

(** The class [[0-9a-f]] under the flag [i]. *)
Definition isHexDigit (c : ascii) : bool :=
  let n := N_of_ascii c in
  (((48 <=? n) && (n <=? 57)) || ((97 <=? n) && (n <=? 102))
   || ((65 <=? n) && (n <=? 70)))%N.

(** [[0-9a-f]{n}] at the head of [s]: what follows the digits. *)
Fixpoint hexDigits (n : nat) (s : string) : option string :=
  match n with
  | O => Some s
  | S n =>
      match s with
      | String c rest => if isHexDigit c then hexDigits n rest else None
      | EmptyString => None
      end
  end.

(** A dash at the head of [s]: what follows it. *)
Definition dash (s : string) : option string :=
  match s with
  | String c rest => if isDash c then Some rest else None
  | EmptyString => None
  end.

(** [UUID_REGEX.test(value)], for
    [/^[0-9a-f]{8}-[0-9a-f]{4}-[0-9a-f]{4}-[0-9a-f]{4}-[0-9a-f]{12}$/i]. *)
Definition UUID_REGEX_test (value : string) : bool :=
  let unmatched : option string :=
    s ← hexDigits 8 value; s ← dash s;
    s ← hexDigits 4 s; s ← dash s;
    s ← hexDigits 4 s; s ← dash s;
    s ← hexDigits 4 s; s ← dash s;
    hexDigits 12 s in
  match unmatched with
  | Some EmptyString => true
  | _ => false
  end.

(** middleware/validation, [validateUuidParam(paramName)]: the 400 it
    answers, if it does. *)
Definition validateUuidParam (paramName value : string) : option string :=
  if negb (truthy value) || negb (UUID_REGEX_test value)
  then Some (String.append "Invalid "
               (String.append paramName " format. Expected UUID."))
  else None.

(** A request body as [express.json()] parsed it. *)
#[warnings="-register-all"]
Inductive Json :=
| JNull
| JBool (b : bool)
| JNumber (x : float)
| JString (s : string)
| JArray (xs : list Json)
| JObject (fields : list (string * Json)).

(** [body[key]]; of a key given twice, the parser keeps the last value. *)
Definition field (key : string) (body : Json) : option Json :=
  match body with
  | JObject fields => snd <$> head (filter (λ f, f.1 = key) (reverse fields))
  | _ => None
  end.

(** [z.string().min(n)] *)
Definition z_string_min (n : nat) (value : option Json) : option string :=
  match value with
  | Some (JString s) => if (n <=? String.length s)%nat then Some s else None
  | _ => None
  end.

(** [verifyPaymentSchema.parse(body)], [None] when it throws. *)
Definition verifyPaymentSchema_parse (body : Json) : option VerifyPaymentBody.t :=
  match body with
  | JObject _ =>
      razorpay_order_id ← z_string_min 1 (field "razorpay_order_id" body);
      razorpay_payment_id ← z_string_min 1 (field "razorpay_payment_id" body);
      razorpay_signature ← z_string_min 1 (field "razorpay_signature" body);
      Some (VerifyPaymentBody.mk razorpay_order_id razorpay_payment_id
              razorpay_signature)
  | _ => None
  end.

(** What a request to an order route is answered with: the refusal of a
    middleware, or the outcome of the controller (an error going to
    [errorHandler]). *)
Inductive Answer (A : Type) :=
| Refused (status : Z) (error : string)
| Handled (outcome : Error + Reply A).
Arguments Refused {A} _ _.
Arguments Handled {A} _.

Module orderRoutes.

Section Routes.
Context (verifyAccessToken : string → option AuthUser).

(** [router.use(authenticate)], then the rest of the route. *)
Definition authenticated {A} (authorization : option string)
    (next : AuthUser → Db → Db * Answer A) : Db → Db * Answer A := λ db,
  match authenticate verifyAccessToken authorization with
  | inl error => (db, Refused 401 error)
  | inr user => next user db
  end.

(** The controller at the end of a route. *)
Definition handle {A} (controller : M (Reply A)) : Db → Db * Answer A := λ db,
  let '(db', outcome) := controller db in (db', Handled outcome).

(** [validateUuidParam('id')], then the rest of the route. *)
Definition withUuid {A} (id : string) (next : Db → Db * Answer A)
    : Db → Db * Answer A := λ db,
  match validateUuidParam "id" id with
  | Some error => (db, Refused 400 error)
  | None => next db
  end.

(** [router.post('/verify-payment', validateBody(verifyPaymentSchema),
    verifyPayment)]; a body the schema rejects is answered by
    [errorHandler] with 400 "Validation failed". *)
Definition verify_payment (env : Env) (authorization : option string) (body : Json)
    : Db → Db * Answer (string * Order.t) :=
  authenticated authorization (λ user db,
    match verifyPaymentSchema_parse body with
    | None => (db, Refused 400 "Validation failed")
    | Some parsed => handle (verifyPayment env (Some user) parsed) db
    end).

(** [router.get('/:id', validateUuidParam('id'), getOrderById)] *)
Definition get (authorization : option string) (id : string)
    : Db → Db * Answer (string * Order.t) :=
  authenticated authorization (λ user,
    withUuid id (handle (getOrderById (Some user) id))).

(** [router.put('/:id/cancel', validateUuidParam('id'), cancelOrder)] *)
Definition cancel (authorization : option string) (id : string)
    : Db → Db * Answer unit :=
  authenticated authorization (λ user,
    withUuid id (handle (cancelOrder (Some user) id))).

End Routes.

End orderRoutes.

(** * Properties *)

(** ** Running the monad *)

Lemma bind_inr {A B} (m : M A) (f : A → M B) db db' b :
  (m ≫= f) db = (db', inr b) →
  ∃ a db1, m db = (db1, inr a) ∧ f a db1 = (db', inr b).
Proof.
  unfold mbind, M_bind. destruct (m db) as [db1 [e|a]]; [discriminate|eauto].
Qed.

Lemma bind_inl {A B} (m : M A) (f : A → M B) db db' e :
  (m ≫= f) db = (db', inl e) →
  m db = (db', inl e) ∨ ∃ a db1, m db = (db1, inr a) ∧ f a db1 = (db', inl e).
Proof.
  unfold mbind, M_bind. destruct (m db) as [db1 [e'|a]] eqn:E; intros H.
  - left. by simplify_eq.
  - right. eauto.
Qed.

Lemma bind_step {A B} (m : M A) (f : A → M B) db db1 a :
  m db = (db1, inr a) → (m ≫= f) db = f a db1.
Proof. unfold mbind, M_bind. by intros ->. Qed.

Lemma bind_fail {A B} (m : M A) (f : A → M B) db db1 e :
  m db = (db1, inl e) → (m ≫= f) db = (db1, inl e).
Proof. unfold mbind, M_bind. by intros ->. Qed.

(** ** Frames: what a computation leaves alone *)

#[global] Instance same_preorder {T} (π : Db → T) : PreOrder (same π).
Proof. split; unfold same; [by intros ?|intros ??? H1 H2; congruence]. Qed.

#[global] Instance both_preorder R1 R2 :
  PreOrder R1 → PreOrder R2 → PreOrder (both R1 R2).
Proof.
  intros [r1 t1] [r2 t2]. split.
  - intros ?. by split.
  - intros x y z [??] [??]. split; [by eapply t1|by eapply t2].
Qed.

Section Frames.
Context (R : relation Db) `{!PreOrder R}.

Lemma keeps_ret {A} (a : A) : keeps R (mret a).
Proof. intros db db' r [= <- _]. reflexivity. Qed.

Lemma keeps_throw {A} e : keeps R (@throw A e).
Proof. intros db db' r [= <- _]. reflexivity. Qed.

Lemma keeps_gets {A} (f : Db → A) : keeps R (gets f).
Proof. intros db db' r [= <- _]. reflexivity. Qed.

Lemma keeps_liftE {A} (x : Error + A) : keeps R (liftE x).
Proof. intros db db' r [= <- _]. reflexivity. Qed.

Lemma keeps_unless b e : keeps R (unless b e).
Proof. destruct b; [apply keeps_ret|apply keeps_throw]. Qed.

Lemma keeps_bind {A B} (m : M A) (f : A → M B) :
  keeps R m → (∀ a, keeps R (f a)) → keeps R (m ≫= f).
Proof.
  intros Hm Hf db db' r. unfold mbind, M_bind.
  destruct (m db) as [db1 [e|a]] eqn:E.
  - intros [= <- _]. eauto.
  - intros E'. transitivity db1; [eapply Hm|eapply Hf]; eauto.
Qed.

Lemma keeps_transaction {A} (body : M A) : keeps R body → keeps R (transaction body).
Proof.
  intros Hb db db' r. unfold transaction.
  destruct (body db) as [db1 [e|a]] eqn:E.
  - intros [= <- _]. reflexivity.
  - intros [= <- _]. eauto.
Qed.

Lemma keeps_tryCatch {A} (body : M A) handler :
  keeps R body → (∀ e, keeps R (handler e)) → keeps R (tryCatch body handler).
Proof.
  intros Hb Hh db db' r. unfold tryCatch.
  destruct (body db) as [db1 [e|a]] eqn:E.
  - intros E'. transitivity db1; [eapply Hb|eapply Hh]; eauto.
  - intros [= <- _]. eauto.
Qed.

Lemma keeps_forEach {A} (f : A → M unit) xs :
  (∀ x, keeps R (f x)) → keeps R (forEach f xs).
Proof.
  intros Hf. induction xs as [|x xs IH]; simpl.
  - apply keeps_ret.
  - apply keeps_bind; auto.
Qed.
End Frames.

#[global] Instance inventory_preorder : PreOrder inventory.
Proof. unfold inventory. apply _. Qed.
#[global] Instance exceptCoupons_preorder : PreOrder exceptCoupons.
Proof. unfold exceptCoupons. apply _. Qed.
#[global] Instance exceptOrders_preorder : PreOrder exceptOrders.
Proof. unfold exceptOrders. apply _. Qed.

Lemma keeps_mono {A} (R1 R2 : relation Db) (m : M A) :
  (∀ db db', R1 db db' → R2 db db') → keeps R1 m → keeps R2 m.
Proof. intros H Hm db db' r E. eauto. Qed.

Lemma exceptCoupons_inventory db db' : exceptCoupons db db' → inventory db db'.
Proof. by intros (_ & _ & ?). Qed.

Lemma exceptOrders_inventory db db' : exceptOrders db db' → inventory db db'.
Proof. by intros (_ & _ & ?). Qed.

(** Closes a frame goal about one ORM call by running it. *)
Ltac frame_call :=
  intros ???;
  unfold prisma.order_update, prisma.coupon_update, prisma.product_update,
    prisma.productVariant_update, prisma.updateRow, prisma.order_updateMany,
    prisma.order_create, prisma.cartItem_deleteMany, prisma.order_findFirst,
    prisma.order_findFirst_latest, cart_findUnique, modify, gets;
  repeat case_match; intros; simplify_eq; by repeat split.

Lemma order_update_frame id f : keeps exceptOrders (prisma.order_update id f).
Proof. frame_call. Qed.

Lemma order_updateMany_frame w f : keeps exceptOrders (prisma.order_updateMany w f).
Proof. frame_call. Qed.

Lemma order_create_frame id o : keeps exceptOrders (prisma.order_create id o).
Proof. frame_call. Qed.

Lemma coupon_update_frame code f : keeps exceptCoupons (prisma.coupon_update code f).
Proof. frame_call. Qed.

Lemma order_findFirst_latest_frame R `{!PreOrder R} w :
  keeps R (prisma.order_findFirst_latest w).
Proof. apply keeps_gets, _. Qed.

Lemma order_findFirst_frame R `{!PreOrder R} w : keeps R (prisma.order_findFirst w).
Proof. apply keeps_gets, _. Qed.

Lemma cart_findUnique_frame R `{!PreOrder R} uid : keeps R (cart_findUnique uid).
Proof. intros ???. unfold cart_findUnique. repeat case_match; intros; by simplify_eq. Qed.

Lemma applyCoupon_frame env code subtotal :
  keeps exceptCoupons (applyCoupon env code subtotal).
Proof.
  unfold applyCoupon.
  destruct code as [code|]; [|apply keeps_ret, _].
  destruct (truthy code); [|apply keeps_ret, _].
  apply keeps_bind; [apply _|apply keeps_gets, _|].
  intros [coupon|]; [|apply keeps_ret, _].
  destruct (couponApplies _ _ _); [|apply keeps_ret, _].
  apply keeps_bind; [apply _|apply coupon_update_frame|].
  intros _. apply keeps_ret, _.
Qed.

Create HintDb frames discriminated.

#[global] Hint Resolve keeps_ret keeps_throw keeps_gets keeps_liftE keeps_unless
  cart_findUnique_frame order_findFirst_latest_frame order_findFirst_frame : frames.
#[global] Hint Extern 1 (PreOrder _) => apply _ : frames.
#[global] Hint Extern 2 (keeps inventory (prisma.order_update _ _)) =>
  eapply keeps_mono; [apply exceptOrders_inventory|apply order_update_frame] : frames.
#[global] Hint Extern 2 (keeps inventory (prisma.order_updateMany _ _)) =>
  eapply keeps_mono; [apply exceptOrders_inventory|apply order_updateMany_frame] : frames.
#[global] Hint Extern 2 (keeps inventory (prisma.order_create _ _)) =>
  eapply keeps_mono; [apply exceptOrders_inventory|apply order_create_frame] : frames.
#[global] Hint Extern 2 (keeps inventory (applyCoupon _ _ _)) =>
  eapply keeps_mono; [apply exceptCoupons_inventory|apply applyCoupon_frame] : frames.

(** Walks a computation, leaving the frame goals of its calls to the hints. *)
Ltac frame_walk :=
  repeat first
    [ match goal with H : _ = _ |- _ => discriminate H end
    | progress auto with frames
    | apply keeps_bind; [apply _| |intros ?]
    | apply keeps_tryCatch; [apply _| |intros ?]
    | apply keeps_transaction; [apply _|]
    | apply keeps_forEach; [apply _|intros ?]
    | match goal with
      | |- keeps _ (match ?x with _ => _ end) => destruct x
      end ].

(** ** What the stock writes amount to *)

Lemma lookup_adjustAll {A V} (key : A → option string) (q : A → Z)
    (add : Z → V → V) (xs : list A) (m : gmap string V) (k : string) :
  (∀ a b v, add a (add b v) = add (b + a) v) →
  (∀ v, add 0 v = v) →
  adjustAll key q add m xs !! k = add (unitsOf key q k xs) <$> m !! k.
Proof.
  intros Hadd H0. unfold adjustAll. revert m.
  induction xs as [|x xs IH]; intros m; simpl.
  - destruct (m !! k); simpl; by rewrite ?H0.
  - rewrite IH. destruct (key x) as [j|] eqn:Ej.
    + destruct (decide (j = k)) as [->|Hne].
      * rewrite bool_decide_eq_true_2 by done. rewrite lookup_alter_eq.
        destruct (m !! k); simpl; by rewrite ?Hadd.
      * rewrite bool_decide_eq_false_2 by congruence. by rewrite lookup_alter_ne.
    + by rewrite bool_decide_eq_false_2.
Qed.

Lemma Product_addStock_add a b p :
  Product.addStock a (Product.addStock b p) = Product.addStock (b + a) p.
Proof. destruct p. unfold Product.addStock. simpl. f_equal. lia. Qed.

Lemma Product_addStock_0 p : Product.addStock 0 p = p.
Proof. destruct p. unfold Product.addStock. simpl. f_equal. lia. Qed.

Lemma ProductVariant_addStock_add a b v :
  ProductVariant.addStock a (ProductVariant.addStock b v) = ProductVariant.addStock (b + a) v.
Proof. destruct v. unfold ProductVariant.addStock. simpl. f_equal. lia. Qed.

Lemma ProductVariant_addStock_0 v : ProductVariant.addStock 0 v = v.
Proof. destruct v. unfold ProductVariant.addStock. simpl. f_equal. lia. Qed.

Lemma productMoved_addStock d p : productMoved d p (Product.addStock d p).
Proof. by destruct p. Qed.

Lemma variantMoved_addStock d v : variantMoved d v (ProductVariant.addStock d v).
Proof. by destruct v. Qed.

Lemma productMoved_eq d p p' : productMoved d p p' → p' = Product.addStock d p.
Proof.
  destruct p, p'. unfold productMoved, Product.addStock. simpl.
  by intros (-> & -> & -> & ->).
Qed.

Lemma variantMoved_eq d v v' : variantMoved d v v' → v' = ProductVariant.addStock d v.
Proof.
  destruct v, v'. unfold variantMoved, ProductVariant.addStock. simpl.
  by intros (-> & -> & -> & ->).
Qed.

(** A lookup that is the old row with its stock moved, in the two ways of
    saying it. *)
Lemma moved_lookup {V} (R : V → V → Prop) (f : V → V) (old new : option V) :
  (∀ v, R v (f v)) → new = f <$> old → option_Forall2 R old new.
Proof. intros Hf ->. destruct old; simpl; by constructor. Qed.

Lemma lookup_moved {V} (R : V → V → Prop) (f : V → V) (old new : option V) :
  (∀ v v', R v v' → v' = f v) → option_Forall2 R old new → new = f <$> old.
Proof. intros Hf [v v' H|]; simpl; [by rewrite (Hf _ _ H)|done]. Qed.

Lemma updateRow_inr {V} tbl set k (f : V → V) db db' :
  prisma.updateRow tbl set k f db = (db', inr tt) →
  is_Some (tbl db !! k) ∧ db' = set (alter f k) db.
Proof. unfold prisma.updateRow. destruct (tbl db !! k); intros; simplify_eq; eauto. Qed.

Lemma deductLine_inr vid pid q db db' :
  deductLine vid pid q db = (db', inr tt) →
  products db' = alter (Product.addStock (- q)) pid (products db)
  ∧ variants db' =
      match variantKey vid with
      | Some j => alter (ProductVariant.addStock (- q)) j (variants db)
      | None => variants db
      end
  ∧ addresses db' = addresses db ∧ carts db' = carts db
  ∧ coupons db' = coupons db ∧ orders db' = orders db.
Proof.
  unfold deductLine. intros (u & db1 & E1 & E2)%bind_inr.
  apply updateRow_inr in E2 as [_ ->]. simpl.
  destruct vid as [v|]; simpl in *.
  - destruct (truthy v).
    + destruct u. apply updateRow_inr in E1 as [_ ->]. done.
    + injection E1 as <- _. done.
  - injection E1 as <- _. done.
Qed.

Lemma forEach_deductLine_inr {A} (vid : A → option string) (pid : A → string)
    (q : A → Z) xs db db' :
  forEach (λ x, deductLine (vid x) (pid x) (q x)) xs db = (db', inr tt) →
  products db' =
    adjustAll (λ x, Some (pid x)) (λ x, - q x) Product.addStock (products db) xs
  ∧ variants db' =
      adjustAll (λ x, variantKey (vid x)) (λ x, - q x) ProductVariant.addStock
        (variants db) xs
  ∧ addresses db' = addresses db ∧ carts db' = carts db
  ∧ coupons db' = coupons db ∧ orders db' = orders db.
Proof.
  revert db. induction xs as [|x xs IH]; intros db; simpl.
  - by intros [= <-].
  - intros ([] & db1 & E1 & E2)%bind_inr.
    apply deductLine_inr in E1 as (P & V & ? & ? & ? & ?).
    apply IH in E2 as (-> & -> & -> & -> & -> & ->).
    unfold adjustAll at 1 2. rewrite P, V. by destruct (variantKey (vid x)).
Qed.

(** ** The gates of createOrder *)

(** C9.  When the caller's cart is absent or has no items, createOrder
    fails and writes nothing: the database it leaves is the one it found
    (no order or order item, no stock change, no coupon usage).  The error
    is the 400 "Your cart is empty" whenever the request gets past the
    address check that precedes the cart check. *)
Theorem createOrder_empty_cart env user body db :
  cartIsEmpty db (userId user) →
  (∃ e, createOrder env (Some user) body db = (db, inl e))
  ∧ (ownsAddress db (userId user) (CreateOrderBody.addressId body) →
     createOrder env (Some user) body db = (db, inl (AppError "Your cart is empty" 400))).
Proof.
  intros Hempty.
  assert (Hcart : cart_findUnique (userId user) db = (db, inr None)
                  ∨ ∃ c, cart_findUnique (userId user) db = (db, inr (Some (c, [])))).
  { unfold cartIsEmpty in Hempty. unfold cart_findUnique.
    destruct (carts db !! userId user) as [[items]|]; [right|by left].
    simpl in Hempty. subst items. eauto. }
  unfold createOrder, ownsAddress.
  rewrite (bind_step _ _ db db (addresses db !! CreateOrderBody.addressId body))
    by reflexivity.
  destruct (addresses db !! CreateOrderBody.addressId body) as [a|] eqn:Ea.
  - destruct (String.eqb (Address.userId a) (userId user)) eqn:Eown.
    + rewrite (bind_step _ _ db db tt) by reflexivity.
      destruct Hcart as [E|[c E]]; rewrite (bind_step _ _ _ _ _ E);
        (split; [by eexists|done]).
    + rewrite (bind_fail _ _ db db (NotFoundError "Address")) by reflexivity.
      split; [by eexists|].
      intros (a' & [= <-] & Hu). apply String.eqb_neq in Eown. done.
  - rewrite (bind_fail _ _ db db (NotFoundError "Address")) by reflexivity.
    split; [by eexists|]. by intros (a' & [=] & _).
Qed.

Lemma createOrder_empty_cart_witness :
  cartIsEmpty Sample.db (userId Sample.carol)
  ∧ ownsAddress Sample.db (userId Sample.carol) "addr-carol"
  ∧ createOrder Sample.env (Some Sample.carol)
      (CreateOrderBody.mk "addr-carol" COD (Some "WELCOME10") None) Sample.db
    = (Sample.db, inl (AppError "Your cart is empty" 400)).
Proof.
  assert (H1 : cartIsEmpty Sample.db (userId Sample.carol)) by (vm_compute; reflexivity).
  assert (H2 : ownsAddress Sample.db (userId Sample.carol) "addr-carol").
  { exists (Address.mk "user-carol"). split; vm_compute; reflexivity. }
  split; [exact H1|]. split; [exact H2|].
  exact (proj2 (createOrder_empty_cart Sample.env Sample.carol
                  (CreateOrderBody.mk "addr-carol" COD (Some "WELCOME10") None)
                  Sample.db H1) H2).
Defined.

(** ** Inverting a run of createOrder *)

Lemma order_create_inr id o db db' r :
  prisma.order_create id o db = (db', inr r) →
  r = (id, o) ∧ orders db !! id = None
  ∧ ¬ orderNumberTaken db (Order.orderNumber o)
  ∧ db' = setOrders (insert id o) db.
Proof.
  unfold prisma.order_create, orderNumberTaken.
  destruct (bool_decide (is_Some (orders db !! id))) eqn:E1; [done|].
  destruct (bool_decide (_ ≠ [])) eqn:E2; [done|]. simpl.
  intros [= <- <-]. apply bool_decide_eq_false in E1, E2.
  split; [done|]. split; [by apply eq_None_not_Some|]. done.
Qed.

Lemma applyCoupon_run env couponCode subtotal db :
  applyCoupon env couponCode subtotal db =
    match appliedCoupon env couponCode subtotal db with
    | Some (code, coupon) =>
        (setCoupons (alter Coupon.incrementUsed code) db,
         inr (checkoutDiscount subtotal coupon))
    | None => (db, inr 0%float)
    end.
Proof.
  unfold applyCoupon, appliedCoupon. destruct couponCode as [code|]; [simpl|done].
  destruct (truthy code); [|done].
  rewrite (bind_step _ _ db db (coupons db !! code)) by reflexivity.
  destruct (coupons db !! code) as [coupon|] eqn:E; [simpl|done].
  destruct (couponApplies _ _ _); [|done].
  unfold mbind, M_bind, prisma.coupon_update, prisma.updateRow. by rewrite E.
Qed.

(** [createOrder], once the caller is known, as a case analysis on the
    gates it passes. *)
Lemma createOrder_run env user body db :
  createOrder env (Some user) body db =
    match addresses db !! CreateOrderBody.addressId body with
    | Some a =>
        if String.eqb (Address.userId a) (userId user) then
          match cart_findUnique (userId user) db with
          | (_, inl e) => (db, inl e)
          | (_, inr None) | (_, inr (Some (_, []))) =>
              (db, inl (AppError "Your cart is empty" 400))
          | (_, inr (Some (_, lines))) =>
              match CreateOrderBody.paymentMethod body with
              | COD => placeOrder env user body lines db
              | RAZORPAY =>
                  match reusableOrder db (userId user) (now env) with
                  | Some existing => (db, inr (reuseReply existing))
                  | None =>
                      placeOrder env user body lines
                        (sweepExpired (userId user) (tenMinutesBefore (now env)) db)
                  end
              end
          end
        else (db, inl (NotFoundError "Address"))
    | None => (db, inl (NotFoundError "Address"))
    end.
Proof.
  unfold createOrder.
  rewrite (bind_step _ _ db db (addresses db !! CreateOrderBody.addressId body))
    by reflexivity.
  destruct (addresses db !! _) as [a|]; [|done].
  destruct (String.eqb _ _); [|done].
  rewrite (bind_step _ _ db db tt) by reflexivity.
  unfold mbind at 1, M_bind at 1.
  assert (Hdb : ∀ db1 r, cart_findUnique (userId user) db = (db1, r) → db1 = db).
  { unfold cart_findUnique. intros db1 r. repeat case_match; by intros [= <- _]. }
  destruct (cart_findUnique (userId user) db) as [db1 [e|cart]];
    specialize (Hdb _ _ eq_refl); subst db1; [done|].
  destruct cart as [[c [|l lines]]|]; [done| |done].
  destruct (CreateOrderBody.paymentMethod body); [done|].
  unfold reusableOrder, tenMinutesBefore.
  rewrite (bind_step _ _ db db
    (prisma.latest (prisma.order_findMany
       (isRecentPending (userId user) (now env - 10 * 60 * 1000)) db))) by reflexivity.
  destruct (prisma.latest _) as [existing|]; [done|].
  by rewrite (bind_step _ _ db (sweepExpired (userId user) (now env - 10 * 60 * 1000) db) tt).
Qed.

(** [placeOrder] as a case analysis on its steps. *)
Lemma placeOrder_run env user body lines db :
  placeOrder env user body lines db =
    let subtotal := subtotalOf (orderItemOf <$> lines) in
    let '(db1, discount) :=
      match appliedCoupon env (CreateOrderBody.couponCode body) subtotal db with
      | Some (code, coupon) =>
          (setCoupons (alter Coupon.incrementUsed code) db,
           checkoutDiscount subtotal coupon)
      | None => (db, 0%float)
      end in
    let o := draftOrder env user body lines discount in
    match prisma.order_create (newOrderId env) o db1 with
    | (_, inl e) => (db1, inl e)
    | (db2, inr newOrder) =>
        match CreateOrderBody.paymentMethod body with
        | COD =>
            match deductCart lines db2 with
            | (_, inl e) => (db1, inl e)
            | (db3, inr _) =>
                (setCarts (alter Cart.clear (userId user)) db3,
                 inr (mkReply 201 (mkCreateOrderData newOrder None)))
            end
        | RAZORPAY =>
            match createRazorpayOrder env (Order.total o) (generateOrderNumber env) with
            | inl e => (db2, inl e)
            | inr rz =>
                (setOrders (alter (Order.setRazorpayOrderId (rzp_id rz)) (newOrderId env)) db2,
                 inr (mkReply 201
                        (mkCreateOrderData newOrder
                           (Some (mkRazorpayOrderView (Some (rzp_id rz)) (rzp_amount rz))))))
            end
        end
    end.
Proof.
  unfold placeOrder, draftOrder. cbv zeta.
  unfold mbind at 1, M_bind at 1. rewrite applyCoupon_run.
  set (subtotal := subtotalOf (orderItemOf <$> lines)).
  destruct (appliedCoupon _ _ _ _) as [[code coupon]|].
  all: unfold mbind at 1, M_bind at 1, transaction.
  all: unfold mbind at 1, M_bind at 1.
  all: match goal with |- context [prisma.order_create ?i ?o ?d] =>
         destruct (prisma.order_create i o d) as [db2 [e|newOrder]] eqn:Ec end;
       [done|].
  all: apply order_create_inr in Ec as (-> & Hfree & _ & ->).
  all: destruct (CreateOrderBody.paymentMethod body); simpl.
  all: unfold mbind, M_bind, deductCart, mret, M_ret, liftE, prisma.cartItem_deleteMany,
         modify, prisma.order_update, prisma.updateRow; simpl.
  all: try (match goal with |- context [forEach ?f ?l ?d] =>
              destruct (forEach f l d) as [db3 [e|[]]] end; done).
  all: destruct (createRazorpayOrder _ _ _) as [e|rz]; [done|].
  all: by rewrite lookup_insert_eq.
Qed.

(** A successful [placeOrder], step by step. *)
Lemma placeOrder_inr env user body lines db db' reply :
  placeOrder env user body lines db = (db', inr reply) →
  let o := draftOrder env user body lines (discountFor env body lines db) in
  orders db !! newOrderId env = None
  ∧ ¬ orderNumberTaken db (generateOrderNumber env)
  ∧ addresses db' = addresses db
  ∧ coupons db' = couponsAfter env body lines db
  ∧ match CreateOrderBody.paymentMethod body with
    | COD =>
        reply = mkReply 201 (mkCreateOrderData (newOrderId env, o) None)
        ∧ orders db' = <[newOrderId env := o]> (orders db)
        ∧ products db' =
            adjustAll cartProductKey (λ l, - cartUnits l) Product.addStock
              (products db) lines
        ∧ variants db' =
            adjustAll cartVariantKey (λ l, - cartUnits l) ProductVariant.addStock
              (variants db) lines
        ∧ carts db' = alter Cart.clear (userId user) (carts db)
    | RAZORPAY =>
        ∃ rz,
          createRazorpayOrder env (Order.total o) (generateOrderNumber env) = inr rz
          ∧ reply = mkReply 201
              (mkCreateOrderData (newOrderId env, o)
                 (Some (mkRazorpayOrderView (Some (rzp_id rz)) (rzp_amount rz))))
          ∧ orders db' =
              <[newOrderId env := Order.setRazorpayOrderId (rzp_id rz) o]> (orders db)
          ∧ products db' = products db
          ∧ variants db' = variants db
          ∧ carts db' = carts db
    end.
Proof.
  rewrite placeOrder_run. cbv zeta. unfold discountFor, couponsAfter.
  set (subtotal := subtotalOf (orderItemOf <$> lines)).
  destruct (appliedCoupon _ _ _ _) as [[code coupon]|].
  all: match goal with |- context [prisma.order_create ?i ?o ?d] =>
         destruct (prisma.order_create i o d) as [db2 [e|newOrder]] eqn:Ec end;
       [done|].
  all: apply order_create_inr in Ec as (-> & Hfree & Hnum & ->).
  all: destruct (CreateOrderBody.paymentMethod body) eqn:Epm.
  all: try (destruct (deductCart _ _) as [db3 [e|[]]] eqn:Ed; [done|];
            apply forEach_deductLine_inr in Ed as (P & V & ? & ? & ? & ?);
            intros [= <- <-]; simpl in *; rewrite ?Epm;
            repeat split; try done; congruence).
  all: destruct (createRazorpayOrder _ _ _) as [e|rz] eqn:Er; [done|].
  all: intros [= <- <-]; simpl in *; rewrite ?Epm in *.
  all: repeat split; try done.
  all: exists rz; repeat split; try done.
  all: by rewrite alter_insert_eq.
Qed.

Lemma cart_findUnique_inr uid db db' cart lines :
  cart_findUnique uid db = (db', inr (Some (cart, lines))) →
  carts db !! uid = Some cart ∧ mapM (loadLine db) (Cart.items cart) = Some lines.
Proof.
  unfold cart_findUnique. destruct (carts db !! uid) as [c|]; [|done].
  destruct (mapM _ _) as [ls|] eqn:E; [|done]. by intros [= _ <- <-].
Qed.

(** A run of createOrder that answers 201 went through every gate and
    placed the order. *)
Lemma createOrder_created env user body db db' reply :
  createOrder env user body db = (db', inr reply) →
  status reply = 201 →
  ∃ u cart lines,
    user = Some u
    ∧ ownsAddress db (userId u) (CreateOrderBody.addressId body)
    ∧ carts db !! userId u = Some cart
    ∧ mapM (loadLine db) (Cart.items cart) = Some lines
    ∧ lines ≠ []
    ∧ (CreateOrderBody.paymentMethod body = RAZORPAY →
       reusableOrder db (userId u) (now env) = None)
    ∧ placeOrder env u body lines
        (beforePlacing env (userId u) (CreateOrderBody.paymentMethod body) db)
      = (db', inr reply).
Proof.
  destruct user as [u|]; [|done]. rewrite createOrder_run.
  destruct (addresses db !! _) as [a|] eqn:Ea; [|done].
  destruct (String.eqb _ _) eqn:Eown; [|done].
  destruct (cart_findUnique _ _) as [db1 [e|[[cart [|l lines]]|]]] eqn:Ec; try done.
  apply cart_findUnique_inr in Ec as [Hcart Hlines].
  intros H Hst. exists u, cart, (l :: lines).
  split; [done|]. split; [exists a; split; [done|by apply String.eqb_eq]|].
  split; [done|]. split; [done|]. split; [done|].
  destruct (CreateOrderBody.paymentMethod body); simpl.
  - by split.
  - destruct (reusableOrder _ _ _) as [existing|]; [|by split].
    injection H as <- <-. done.
Qed.

(** ** Totals *)

Lemma Qfloor_half_bounds (q : Q) :
  (inject_Z (Qfloor (q + (1 # 2))) - (1 # 2) <= q)%Q
  ∧ (q < inject_Z (Qfloor (q + (1 # 2))) + (1 # 2))%Q.
Proof.
  pose proof (Qfloor_le (q + (1 # 2))) as Hle.
  pose proof (Qlt_floor (q + (1 # 2))) as Hlt.
  rewrite inject_Z_plus in Hlt. change (inject_Z 1) with 1%Q in Hlt.
  split; lra.
Qed.

(** [Math.round] gives the nearest integer, a half going up. *)
Lemma Math_round_roundedHalfUp x : roundedHalfUp x (Math_round x).
Proof.
  intros q Hq. unfold Math_round. rewrite Hq.
  exists (Qfloor (q + (1 # 2))).
  split; [|apply Qfloor_half_bounds].
  destruct (Qeq_bool _ q) eqn:E.
  - right. exists q. split; [done|]. apply Qeq_bool_iff in E. by symmetry.
  - destruct (Qfloor _ =? 0) eqn:E0; [|by left].
    apply Z.eqb_eq in E0. rewrite E0. right. exists 0%Q.
    split; [|done]. by destruct (Number.negative x).
Qed.

Lemma draftOrder_totals env user body lines discount :
  totalsConsistent (draftOrder env user body lines discount).
Proof.
  split; [done|]. split; [done|]. split; [apply Math_round_roundedHalfUp|done].
Qed.

(** C6, as the code has it.  Every order createOrder creates has, in
    binary64 arithmetic, total = subtotal - discount + shippingCharge + tax
    summed from left to right, with tax = Math.round(subtotal * 0.18), the
    integer nearest to that product (a half going up), and
    shippingCharge = 0 when subtotal >= 999 and 99 otherwise, both in the
    reply and in the stored row.  A cart of 1000 with the coupon WELCOME10
    (10 %, capped at 500) gives a total of 1080, a cart of 500 without
    coupon gives 689, and a cart of 25 gives a tax of 5 (4.5 rounded up)
    and a total of 129; for these amounts the equation holds in the reals
    as well. *)
Theorem createOrder_totals :
  (∀ env user body db db' reply,
     createOrder env user body db = (db', inr reply) →
     status reply = 201 →
     totalsConsistent (order (data reply)).2
     ∧ ∃ row, orders db' !! (order (data reply)).1 = Some row
              ∧ totalsConsistent row)
  ∧ (∃ id o,
       createdOrder (createOrder Sample.env (Some Sample.alice)
                       (Sample.checkout COD (Some "WELCOME10")) Sample.db) = Some (id, o)
       ∧ Order.subtotal o = 1000%float ∧ Order.discount o = 100%float
       ∧ Order.shippingCharge o = 0%float ∧ Order.tax o = 180%float
       ∧ Order.total o = 1080%float
       ∧ totalsExact o)
  ∧ (∃ id o,
       createdOrder (createOrder Sample.env (Some Sample.bob)
                       (CreateOrderBody.mk "addr-bob" COD None None) Sample.db) = Some (id, o)
       ∧ Order.subtotal o = 500%float ∧ Order.discount o = 0%float
       ∧ Order.shippingCharge o = 99%float ∧ Order.tax o = 90%float
       ∧ Order.total o = 689%float
       ∧ totalsExact o)
  ∧ (∃ id o,
       createdOrder (createOrder Sample.env (Some Sample.erin)
                       (CreateOrderBody.mk "addr-erin" COD None None)
                       Sample.dbFractional) = Some (id, o)
       ∧ Order.subtotal o = 25%float ∧ (Order.subtotal o * 0.18 = 4.5)%float
       ∧ Order.discount o = 0%float
       ∧ Order.shippingCharge o = 99%float ∧ Order.tax o = 5%float
       ∧ Order.total o = 129%float
       ∧ totalsExact o).
Proof.
  split; [|split; [|split]].
  - intros env user body db db' reply H Hst.
    apply createOrder_created in H as (u & cart & lines & _ & _ & _ & _ & _ & _ & H);
      [|done].
    apply placeOrder_inr in H as (_ & _ & _ & _ & H).
    destruct (CreateOrderBody.paymentMethod body).
    + destruct H as (-> & -> & _). simpl. split; [apply draftOrder_totals|].
      eexists. rewrite lookup_insert_eq. split; [done|apply draftOrder_totals].
    + destruct H as (rz & _ & -> & -> & _). simpl. split; [apply draftOrder_totals|].
      eexists. rewrite lookup_insert_eq. split; [done|]. apply draftOrder_totals.
  - eexists _, _. split; [vm_compute; reflexivity|].
    do 5 (split; [reflexivity|]).
    exists 1000%Q, 100%Q, 0%Q, 180%Q, 1080%Q. by repeat split.
  - eexists _, _. split; [vm_compute; reflexivity|].
    do 5 (split; [reflexivity|]).
    exists 500%Q, 0%Q, 99%Q, 90%Q, 689%Q. by repeat split.
  - eexists _, _. split; [vm_compute; reflexivity|].
    split; [reflexivity|]. split; [vm_compute; reflexivity|].
    do 4 (split; [reflexivity|]).
    exists 25%Q, 0%Q, 99%Q, 5%Q, 129%Q. by repeat split.
Qed.

Lemma createOrder_totals_witness :
  ∃ db' reply,
    createOrder Sample.env (Some Sample.alice)
      (Sample.checkout RAZORPAY (Some "WELCOME10")) Sample.db = (db', inr reply)
    ∧ status reply = 201
    ∧ totalsConsistent (order (data reply)).2.
Proof.
  eexists _, _. split; [vm_compute; reflexivity|]. split; [reflexivity|].
  refine (proj1 (proj1 createOrder_totals Sample.env (Some Sample.alice)
                   (Sample.checkout RAZORPAY (Some "WELCOME10")) Sample.db _ _ _ _));
    [vm_compute; reflexivity|reflexivity].
Defined.

(** C6, as stated, fails: the amounts are binary64 numbers and the sums
    are rounded.  Three items priced 155.41, 265.03 and 579.56 add up to
    999.9999999999999: the order misses the minimum purchase of 1000 of
    WELCOME10 (discount 0), its tax is 180, and its total, the rounded sum
    of 999.9999999999999 and 180, is 1180, which is not
    subtotal - discount + shippingCharge + tax. *)
Lemma createOrder_total_inexact :
  ∃ db' reply,
    createOrder Sample.env (Some Sample.dave)
      (CreateOrderBody.mk "addr-dave" COD (Some "WELCOME10") None) Sample.dbFractional
      = (db', inr reply)
    ∧ status reply = 201
    ∧ Order.subtotal (order (data reply)).2 = 999.9999999999999%float
    ∧ Order.discount (order (data reply)).2 = 0%float
    ∧ Order.shippingCharge (order (data reply)).2 = 0%float
    ∧ Order.tax (order (data reply)).2 = 180%float
    ∧ Order.total (order (data reply)).2 = 1180%float
    ∧ orders db' !! (order (data reply)).1 = Some (order (data reply)).2
    ∧ ¬ totalsExact (order (data reply)).2.
Proof.
  eexists _, _. split; [vm_compute; reflexivity|].
  do 6 (split; [reflexivity|]). split; [vm_compute; reflexivity|].
  intros (subtotal & discount & shippingCharge & tax & total
          & Hs & Hd & Hc & Ht & Htot & Heq).
  vm_compute in Hs, Hd, Hc, Ht, Htot. simplify_eq.
  vm_compute in Heq. discriminate Heq.
Qed.

(** ** Inverting a run of verifyPayment *)

Lemma order_findMany_elem w db id o :
  (id, o) ∈ prisma.order_findMany w db ↔ orders db !! id = Some o ∧ w o = true.
Proof.
  unfold prisma.order_findMany. rewrite list_elem_of_filter, elem_of_map_to_list.
  simpl. tauto.
Qed.

Lemma order_findFirst_found w db id o :
  head (prisma.order_findMany w db) = Some (id, o) →
  orders db !! id = Some o ∧ w o = true.
Proof. intros H%head_Some_elem_of. by apply order_findMany_elem. Qed.

Lemma fetchPaymentDetails_inl env pid e :
  fetchPaymentDetails env pid = inl e → e = PlainError "Could not fetch payment details".
Proof. unfold fetchPaymentDetails. repeat case_match; congruence. Qed.

(** [verifyPayment], once the caller is known, as a case analysis on the
    gates it passes. *)
Lemma verifyPayment_run env user body db :
  let gid := VerifyPaymentBody.razorpay_order_id body in
  let pid := VerifyPaymentBody.razorpay_payment_id body in
  let sig := VerifyPaymentBody.razorpay_signature body in
  verifyPayment env (Some user) body db =
    if negb (truthy gid && truthy pid && truthy sig)
    then (db, inl (AppError "Missing payment verification details" 400))
    else if negb (verifyRazorpaySignature env gid pid sig)
    then (failGatewayOrders gid db, inl (AppError "Payment verification failed" 400))
    else
      match head (prisma.order_findMany (hasGatewayId gid) db) with
      | None => (db, inl (NotFoundError "Order"))
      | Some (orderId, o) =>
          if negb (String.eqb (Order.userId o) (userId user))
          then (db, inl (AppError "You are not authorized to verify this payment" 403))
          else
            match fetchPaymentDetails env pid with
            | inl _ => (db, inl (AppError "Could not verify payment amount" 500))
            | inr amount =>
                if amountMismatch amount o
                then (setOrders (alter (Order.setPaymentStatus PaymentStatus.FAILED) orderId) db,
                      inl (AppError "Payment amount does not match order total" 400))
                else
                  match deductOrder o
                          (setOrders (alter (Order.setPaid pid sig) orderId) db) with
                  | (_, inl e) => (db, inl e)
                  | (db3, inr _) =>
                      (setCarts (alter Cart.clear (Order.userId o)) db3,
                       inr (mkReply 200 (orderId, Order.setPaid pid sig o)))
                  end
            end
      end.
Proof.
  intros gid pid sig. unfold verifyPayment. fold gid pid sig.
  destruct (truthy gid && truthy pid && truthy sig); [|done]. simpl negb at 1. cbv iota.
  rewrite (bind_step _ _ db db tt) by reflexivity.
  destruct (verifyRazorpaySignature env gid pid sig); simpl negb; cbv iota; [|done].
  rewrite (bind_step _ _ db db tt) by reflexivity.
  rewrite (bind_step _ _ db db (head (prisma.order_findMany (hasGatewayId gid) db)))
    by reflexivity.
  destruct (head _) as [[orderId o]|] eqn:Eh; [|done].
  apply order_findFirst_found in Eh as [Ho _].
  destruct (String.eqb _ _); simpl negb; cbv iota; [|done].
  rewrite (bind_step _ _ db db tt) by reflexivity.
  unfold amountMismatch, deductOrder.
  destruct (fetchPaymentDetails env pid) as [e|amount] eqn:Ef.
  { by apply fetchPaymentDetails_inl in Ef as ->. }
  destruct (PrimFloat.ltb _ _) eqn:Em.
  - unfold mbind, M_bind, tryCatch, liftE, prisma.order_update, prisma.updateRow.
    rewrite Em, Ho. done.
  - unfold mbind at 1, M_bind at 1, tryCatch. unfold mbind at 1, M_bind at 1, liftE.
    rewrite Em. unfold mret at 1, M_ret at 1.
    unfold mbind at 1, M_bind at 1, transaction.
    unfold mbind at 1, M_bind at 1, prisma.order_update, prisma.updateRow. rewrite Ho.
    unfold mbind at 1, M_bind at 1. simpl Order.items.
    match goal with |- context [forEach ?f ?l ?d] =>
      destruct (forEach f l d) as [db3 [e|[]]] eqn:Ed end; [done|].
    apply forEach_deductLine_inr in Ed as (_ & _ & _ & Hc & _ & _).
    unfold mbind, M_bind, gets, prisma.cartItem_deleteMany, modify, mret, M_ret.
    destruct (carts db3 !! Order.userId o) eqn:Ec; [done|].
    simpl. do 2 f_equal. unfold setCarts. rewrite (alter_id' _ _ _ Ec). by destruct db3.
Qed.

(** ** Signatures *)

(** The digest function of the worked examples is HMAC-SHA256: the second
    test case of RFC 4231 and the "abc" vector of FIPS 180-4. *)
Example hmac_sha256_rfc4231 :
  Buffer.to_hex (Crypto.createHmac_sha256 "Jefe" "what do ya want for nothing?")
  = "5bdcc146bf60754e6a042426089575c75a003f089d2739839dec58b964ec3843".
Proof. vm_compute. reflexivity. Qed.

Example sha256_abc :
  Buffer.to_hex (Crypto.toBytes (Crypto.sha256 (Crypto.bytesOf "abc")))
  = "ba7816bf8f01cfea414140de5dae2223b00361a396177a9cb410ff61f20015ad".
Proof. vm_compute. reflexivity. Qed.

Lemma from_hex_byte (b : byte) rest :
  Buffer.from_hex
    (String (Buffer.hexDigit (Byte.to_N b / 16))
       (String (Buffer.hexDigit (Byte.to_N b mod 16)) rest))
  = b :: Buffer.from_hex rest.
Proof. destruct b; reflexivity. Qed.

(** Decoding the hexadecimal text of a buffer gives the buffer back. *)
Lemma from_hex_to_hex bs : Buffer.from_hex (Buffer.to_hex bs) = bs.
Proof.
  induction bs as [|b bs IH]; [done|].
  cbn [Buffer.to_hex]. cbv zeta. by rewrite from_hex_byte, IH.
Qed.

Lemma append_String c s t : String.append (String c s) t = String c (String.append s t).
Proof. reflexivity. Qed.

(** Text after the digits is ignored when its first pair is not hexadecimal. *)
Lemma from_hex_trailing bs a b rest :
  Buffer.unhex a = None →
  Buffer.from_hex (String.append (Buffer.to_hex bs) (String a (String b rest))) = bs.
Proof.
  intros Ha. induction bs as [|x bs IH].
  - simpl. by rewrite Ha.
  - cbn [Buffer.to_hex]. cbv zeta. by rewrite !append_String, from_hex_byte, IH.
Qed.

(** [verifyRazorpaySignature] accepts exactly the texts that decode to the
    expected digest. *)
Lemma verifyRazorpaySignature_true env orderId paymentId signature :
  verifyRazorpaySignature env orderId paymentId signature = true ↔
  ∃ secret, RAZORPAY_KEY_SECRET env = Some secret ∧ truthy secret = true
            ∧ Buffer.from_hex signature = expectedDigest env secret orderId paymentId.
Proof.
  unfold verifyRazorpaySignature, expectedDigest, timingSafeEqual.
  destruct (RAZORPAY_KEY_SECRET env) as [secret|]; [|split; [done|by intros (? & ? & _)]].
  destruct (truthy secret) eqn:Et;
    [|split; [done|intros (? & [= <-] & ? & _); congruence]].
  rewrite from_hex_to_hex. split.
  - destruct (negb _); [done|]. intros H%bool_decide_eq_true. eauto.
  - intros (? & [= <-] & _ & ->).
    rewrite Nat.eqb_refl. simpl. by apply bool_decide_eq_true.
Qed.

(** A valid signature stays valid with non-hexadecimal text appended. *)
Lemma verifyRazorpaySignature_trailing env orderId paymentId secret a b rest :
  RAZORPAY_KEY_SECRET env = Some secret → truthy secret = true →
  Buffer.unhex a = None →
  verifyRazorpaySignature env orderId paymentId
    (String.append (Buffer.to_hex (expectedDigest env secret orderId paymentId))
       (String a (String b rest))) = true.
Proof.
  intros Hs Ht Ha. apply verifyRazorpaySignature_true.
  exists secret. by rewrite from_hex_trailing.
Qed.


(** ** Payment verification: the signature gate *)

Lemma failGatewayOrders_failed gid db : gatewayOrdersFailed gid db (failGatewayOrders gid db).
Proof.
  intros id o Ho Hg. simpl. rewrite lookup_fmap, Ho. simpl.
  unfold hasGatewayId. by rewrite bool_decide_eq_true_2.
Qed.

Lemma failGatewayOrders_not_paid gid db : nothingBecamePaid db (failGatewayOrders gid db).
Proof.
  intros id o'. simpl. rewrite lookup_fmap.
  destruct (orders db !! id) as [o|]; [simpl|done].
  destruct (hasGatewayId gid o); intros [= <-]; [done|]. done.
Qed.

(** C4, as the code has it.  When the supplied signature, decoded as
    hexadecimal the way [Buffer.from] does, is not the HMAC-SHA256 of
    [orderId|paymentId] under the server secret, verifyPayment fails with
    the 400 "Payment verification failed"; every order under that gateway
    order id is left with paymentStatus FAILED, no order becomes PAID, and
    stock and carts are untouched. *)
Theorem verifyPayment_bad_signature env user body db :
  completeBody body →
  signatureDecodesElsewhere env body →
  let gid := VerifyPaymentBody.razorpay_order_id body in
  verifyPayment env (Some user) body db
    = (failGatewayOrders gid db, inl (AppError "Payment verification failed" 400))
  ∧ gatewayOrdersFailed gid db (failGatewayOrders gid db)
  ∧ nothingBecamePaid db (failGatewayOrders gid db)
  ∧ inventory db (failGatewayOrders gid db).
Proof.
  intros (H1 & H2 & H3) Hsig gid. subst gid.
  split; [|split; [apply failGatewayOrders_failed|
           split; [apply failGatewayOrders_not_paid|by repeat split]]].
  rewrite verifyPayment_run. cbv zeta. rewrite H1, H2, H3. simpl.
  destruct (verifyRazorpaySignature _ _ _ _) eqn:Ev; [|done].
  apply verifyRazorpaySignature_true in Ev as (secret & Hs & _ & Hd).
  by destruct (Hsig secret Hs).
Qed.

Lemma verifyPayment_bad_signature_witness :
  completeBody (Sample.payment "pay_1080" "deadbeef")
  ∧ signatureDecodesElsewhere Sample.env (Sample.payment "pay_1080" "deadbeef")
  ∧ verifyPayment Sample.env (Some Sample.alice) (Sample.payment "pay_1080" "deadbeef")
      Sample.dbPending
    = (failGatewayOrders "order_rzp_1" Sample.dbPending,
       inl (AppError "Payment verification failed" 400))
  ∧ Order.paymentStatus <$> orders (failGatewayOrders "order_rzp_1" Sample.dbPending)
                              !! "order-1" = Some PaymentStatus.FAILED.
Proof.
  assert (H1 : completeBody (Sample.payment "pay_1080" "deadbeef")) by done.
  assert (H2 : signatureDecodesElsewhere Sample.env (Sample.payment "pay_1080" "deadbeef")).
  { intros secret [= <-]. vm_compute. discriminate. }
  split; [exact H1|]. split; [exact H2|].
  split.
  - exact (proj1 (verifyPayment_bad_signature Sample.env Sample.alice
                    (Sample.payment "pay_1080" "deadbeef") Sample.dbPending H1 H2)).
  - vm_compute. reflexivity.
Defined.

(** C4, as stated, fails: a valid signature followed by two characters
    that are not hexadecimal digits is not the expected signature, yet
    verifyPayment accepts it and the order becomes PAID. *)
Lemma verifyPayment_accepts_padded_signature :
  let body :=
    Sample.payment "pay_1080"
      (String.append (Sample.sign "order_rzp_1" "pay_1080") "zz") in
  completeBody body
  ∧ signatureDiffers Sample.env body
  ∧ ∃ db' reply,
      verifyPayment Sample.env (Some Sample.alice) body Sample.dbPending
        = (db', inr reply)
      ∧ status reply = 200
      ∧ Order.paymentStatus <$> orders Sample.dbPending !! "order-1"
          = Some PaymentStatus.PENDING
      ∧ Order.paymentStatus <$> orders db' !! "order-1" = Some PaymentStatus.PAID.
Proof.
  cbv zeta. split; [done|]. split.
  - intros secret [= <-]. vm_compute. discriminate.
  - eexists _, _. split; [vm_compute; reflexivity|]. by vm_compute.
Qed.

(** ** Payment verification: the amount gate *)

(** C3.  When a verifyPayment call reaches the amount check (complete
    body, valid signature, order found and owned by the caller, amount
    reported by the gateway) and the amount differs from the order's total
    by more than 0.01, as the code computes it
    ([Math.abs(amount / 100 - total) > 0.01] in binary64), it fails with
    the 400 "Payment amount does not match order total"; the order's
    paymentStatus is FAILED and the rest of its row is as it was; no other
    order changes, no stock counter is decremented and no cart is
    cleared. *)
Theorem verifyPayment_amount_mismatch env user body db orderId o amount :
  let gid := VerifyPaymentBody.razorpay_order_id body in
  let pid := VerifyPaymentBody.razorpay_payment_id body in
  let sig := VerifyPaymentBody.razorpay_signature body in
  completeBody body →
  verifyRazorpaySignature env gid pid sig = true →
  head (prisma.order_findMany (hasGatewayId gid) db) = Some (orderId, o) →
  Order.userId o = userId user →
  fetchPaymentDetails env pid = inr amount →
  (0.01 <? Math_abs (amount / 100 - Order.total o))%float = true →
  ∃ db',
    verifyPayment env (Some user) body db
      = (db', inl (AppError "Payment amount does not match order total" 400))
    ∧ (∃ o', orders db' !! orderId = Some o'
             ∧ Order.paymentStatus o' = PaymentStatus.FAILED
             ∧ samePurchase o o')
    ∧ (∀ other, other ≠ orderId → orders db' !! other = orders db !! other)
    ∧ orders db' = <[orderId := Order.setPaymentStatus PaymentStatus.FAILED o]> (orders db)
    ∧ products db' = products db
    ∧ variants db' = variants db
    ∧ carts db' = carts db
    ∧ exceptOrders db db'.
Proof.
  intros gid pid sig (H1 & H2 & H3) Hv Hh Hu Hf Hm. subst gid pid sig.
  eexists. rewrite verifyPayment_run. cbv zeta.
  rewrite H1, H2, H3, Hv, Hh, Hu, String.eqb_refl, Hf. simpl.
  unfold amountMismatch. rewrite Hm.
  split; [done|]. apply order_findFirst_found in Hh as [Ho _]. simpl.
  split.
  { exists (Order.setPaymentStatus PaymentStatus.FAILED o).
    rewrite lookup_alter_eq, Ho. split; [done|]. split; [done|]. by repeat split. }
  split; [intros other Hne; by rewrite lookup_alter_ne|].
  split; [|by repeat split].
  apply map_eq. intros k. rewrite lookup_alter, lookup_insert.
  case_decide; subst; by rewrite ?Ho.
Qed.

Lemma verifyPayment_amount_mismatch_witness :
  let body := Sample.payment "pay_1" (Sample.sign "order_rzp_1" "pay_1") in
  ∃ o db',
    orders Sample.dbPending !! "order-1" = Some o
    ∧ Order.total o = 1080%float
    ∧ Order.paymentStatus o = PaymentStatus.PENDING
    ∧ fetchPaymentDetails Sample.env "pay_1" = inr 100%float
    ∧ verifyPayment Sample.env (Some Sample.alice) body Sample.dbPending
      = (db', inl (AppError "Payment amount does not match order total" 400))
    ∧ (∃ o', orders db' !! "order-1" = Some o'
             ∧ Order.paymentStatus o' = PaymentStatus.FAILED
             ∧ samePurchase o o')
    ∧ products db' = products Sample.dbPending
    ∧ variants db' = variants Sample.dbPending
    ∧ carts db' = carts Sample.dbPending.
Proof.
  cbv zeta.
  pose proof (verifyPayment_amount_mismatch Sample.env Sample.alice
               (Sample.payment "pay_1" (Sample.sign "order_rzp_1" "pay_1"))
               Sample.dbPending "order-1") as T.
  cbv zeta in T.
  edestruct T as (db' & E & Ho & _ & _ & Hp & Hv & Hc & _);
    [done|vm_compute; reflexivity|vm_compute; reflexivity|vm_compute; reflexivity
    |vm_compute; reflexivity|vm_compute; reflexivity|].
  eexists _, db'. split; [vm_compute; reflexivity|].
  split; [reflexivity|]. split; [reflexivity|]. split; [vm_compute; reflexivity|].
  split; [exact E|]. split; [exact Ho|]. split; [exact Hp|]. split; [exact Hv|exact Hc].
Defined.

(** ** Stock and cart: when they are written *)

Lemma placeOrder_RAZORPAY_frame env user body lines :
  CreateOrderBody.paymentMethod body = RAZORPAY →
  keeps inventory (placeOrder env user body lines).
Proof.
  intros Hpm. unfold placeOrder. rewrite Hpm. cbv zeta. frame_walk.
Qed.

Lemma createOrder_RAZORPAY_frame env user body :
  CreateOrderBody.paymentMethod body = RAZORPAY →
  keeps inventory (createOrder env user body).
Proof.
  intros Hpm. pose proof (placeOrder_RAZORPAY_frame env) as Hplace.
  unfold createOrder. destruct user as [u|]; [rewrite Hpm|]; frame_walk.
Qed.

Lemma mapM_loadLine_items db items lines :
  mapM (loadLine db) items = Some lines → item <$> lines = items.
Proof.
  intros H%mapM_Some_1. induction H as [|i l items lines Hl _ IH]; [done|].
  simpl. f_equal; [|done]. unfold loadLine in Hl.
  destruct (products db !! _); simpl in Hl; by simplify_eq.
Qed.

Lemma unitsOf_fmap {A B} (f : A → B) key q k (xs : list A) :
  unitsOf (key ∘ f) (q ∘ f) k xs = unitsOf key q k (f <$> xs).
Proof. induction xs as [|x xs IH]; simpl; [done|]. by rewrite IH. Qed.

Lemma unitsOf_opp {A} (key : A → option string) q k (xs : list A) :
  unitsOf key (λ x, - q x) k xs = - unitsOf key q k xs.
Proof.
  induction xs as [|x xs IH]; simpl; [done|]. rewrite IH. case_bool_decide; lia.
Qed.

Lemma adjustAll_stockDeducted {A} (pkey vkey : A → option string) q xs db db' :
  products db' = adjustAll pkey (λ x, - q x) Product.addStock (products db) xs →
  variants db' = adjustAll vkey (λ x, - q x) ProductVariant.addStock (variants db) xs →
  stockDeducted pkey vkey q xs db db'.
Proof.
  intros Hp Hv. split; intros k.
  - apply (moved_lookup _ (Product.addStock (- unitsOf pkey q k xs)));
      [apply productMoved_addStock|].
    rewrite Hp, lookup_adjustAll, unitsOf_opp;
      auto using Product_addStock_add, Product_addStock_0.
  - apply (moved_lookup _ (ProductVariant.addStock (- unitsOf vkey q k xs)));
      [apply variantMoved_addStock|].
    rewrite Hv, lookup_adjustAll, unitsOf_opp;
      auto using ProductVariant_addStock_add, ProductVariant_addStock_0.
Qed.

Lemma adjustAll_stockRestored {A} (pkey vkey : A → option string) q xs db db' :
  products db' = adjustAll pkey q Product.addStock (products db) xs →
  variants db' = adjustAll vkey q ProductVariant.addStock (variants db) xs →
  stockRestored pkey vkey q xs db db'.
Proof.
  intros Hp Hv. split; intros k.
  - apply (moved_lookup _ (Product.addStock (unitsOf pkey q k xs)));
      [apply productMoved_addStock|].
    rewrite Hp, lookup_adjustAll; auto using Product_addStock_add, Product_addStock_0.
  - apply (moved_lookup _ (ProductVariant.addStock (unitsOf vkey q k xs)));
      [apply variantMoved_addStock|].
    rewrite Hv, lookup_adjustAll;
      auto using ProductVariant_addStock_add, ProductVariant_addStock_0.
Qed.

(** The stock after a deduction or a restoration, row by row. *)
Lemma stockDeducted_lookup {A} (pkey vkey : A → option string) q xs db db' :
  stockDeducted pkey vkey q xs db db' →
  (∀ p, products db' !! p = Product.addStock (- unitsOf pkey q p xs) <$> products db !! p)
  ∧ (∀ v, variants db' !! v
          = ProductVariant.addStock (- unitsOf vkey q v xs) <$> variants db !! v).
Proof.
  intros [Hp Hv]. split; intros k.
  - eapply lookup_moved; [apply productMoved_eq|apply Hp].
  - eapply lookup_moved; [apply variantMoved_eq|apply Hv].
Qed.

Lemma stockRestored_lookup {A} (pkey vkey : A → option string) q xs db db' :
  stockRestored pkey vkey q xs db db' →
  (∀ p, products db' !! p = Product.addStock (unitsOf pkey q p xs) <$> products db !! p)
  ∧ (∀ v, variants db' !! v
          = ProductVariant.addStock (unitsOf vkey q v xs) <$> variants db !! v).
Proof.
  intros [Hp Hv]. split; intros k.
  - eapply lookup_moved; [apply productMoved_eq|apply Hp].
  - eapply lookup_moved; [apply variantMoved_eq|apply Hv].
Qed.

Lemma stockDeducted_fmap {A B} (f : A → B) (pkey vkey : B → option string) q xs db db' :
  stockDeducted (pkey ∘ f) (vkey ∘ f) (q ∘ f) xs db db' →
  stockDeducted pkey vkey q (f <$> xs) db db'.
Proof.
  intros [Hp Hv]. split; intros k; rewrite <- unitsOf_fmap; [apply Hp|apply Hv].
Qed.

(** A COD order that fails leaves orders, stock and carts as they were. *)
Lemma createOrder_COD_all_or_nothing env user body db db' e :
  CreateOrderBody.paymentMethod body = COD →
  createOrder env user body db = (db', inl e) →
  orders db' = orders db ∧ inventory db db'.
Proof.
  intros Hpm. destruct user as [u|]; [|by intros [= <- _]].
  rewrite createOrder_run, Hpm.
  destruct (addresses db !! _) as [a|]; [|by intros [= <- _]].
  destruct (String.eqb _ _); [|by intros [= <- _]].
  destruct (cart_findUnique _ _) as [db1 [e1|[[cart [|l lines]]|]]];
    try by intros [= <- _].
  rewrite placeOrder_run, Hpm. cbv zeta.
  destruct (appliedCoupon _ _ _ _) as [[code coupon]|].
  all: destruct (prisma.order_create _ _ _) as [db2 [e2|newOrder]];
    [by intros [= <- _]|].
  all: destruct (deductCart _ _) as [db3 [e3|[]]]; by intros [= <- _].
Qed.

Lemma createOrder_COD_status env user body db db' reply :
  CreateOrderBody.paymentMethod body = COD →
  createOrder env user body db = (db', inr reply) →
  status reply = 201.
Proof.
  intros Hpm H. destruct user as [u|]; [|done]. rewrite createOrder_run, Hpm in H.
  repeat case_match; try done.
  match goal with H' : placeOrder _ _ _ _ _ = _ |- _ =>
    apply placeOrder_inr in H' as (_ & _ & _ & _ & H'); rewrite Hpm in H';
    by destruct H' as [-> _] end.
Qed.

(** A successful COD order: the row, the stock and the cart. *)
Lemma createOrder_COD_effects env user body db db' reply :
  CreateOrderBody.paymentMethod body = COD →
  createOrder env user body db = (db', inr reply) →
  ∃ u cart,
    user = Some u
    ∧ carts db !! userId u = Some cart
    ∧ orders db !! (order (data reply)).1 = None
    ∧ orders db' = <[(order (data reply)).1 := (order (data reply)).2]> (orders db)
    ∧ stockDeducted cartItemProduct cartItemVariant CartItem.quantity
        (Cart.items cart) db db'
    ∧ cartCleared (userId u) db db'.
Proof.
  intros Hpm H.
  pose proof (createOrder_COD_status _ _ _ _ _ _ Hpm H) as Hst.
  apply createOrder_created in H as (u & cart & lines & -> & _ & Hc & Hl & _ & _ & H);
    [|done].
  rewrite Hpm in H. simpl in H.
  apply placeOrder_inr in H as (Hfree & _ & _ & _ & H). rewrite Hpm in H.
  destruct H as (-> & Ho & Hp & Hv & Hcart).
  exists u, cart. do 4 (split; [done|]). split; [|exact Hcart].
  apply mapM_loadLine_items in Hl as <-.
  apply (stockDeducted_fmap item).
  exact (adjustAll_stockDeducted cartProductKey cartVariantKey cartUnits
           lines db db' Hp Hv).
Qed.

Lemma verifyPayment_failure_frame env user body db db' e :
  verifyPayment env user body db = (db', inl e) → inventory db db'.
Proof.
  destruct user as [u|]; [|by intros [= <- _]].
  rewrite verifyPayment_run. cbv zeta.
  repeat case_match; by intros [= <- _].
Qed.

(** *** Stock writes succeed exactly when their rows exist *)

Lemma updateRow_total {V} (tbl : Db → gmap string V) set k (f : V → V) db :
  is_Some (tbl db !! k) → prisma.updateRow tbl set k f db = (set (alter f k) db, inr tt).
Proof. unfold prisma.updateRow. by intros [v ->]. Qed.

Lemma updateRow_inl {V} (tbl : Db → gmap string V) set k (f : V → V) db db' e :
  prisma.updateRow tbl set k f db = (db', inl e) →
  db' = db ∧ e = PrismaKnownError "P2025" ∧ tbl db !! k = None.
Proof. unfold prisma.updateRow. destruct (tbl db !! k); [done|]. by intros [= <- <-]. Qed.

#[global] Instance sameRows_equiv : Equivalence sameRows.
Proof.
  split.
  - by intros db.
  - intros db db' [Hp Hv]. split; intros k; [by rewrite Hp|by rewrite Hv].
  - intros db1 db2 db3 [Hp Hv] [Hp' Hv']. split; intros k.
    + by rewrite Hp', Hp.
    + by rewrite Hv', Hv.
Qed.

Lemma sameRows_of_eq db db' :
  products db' = products db → variants db' = variants db → sameRows db db'.
Proof. intros Hp Hv. split; intros k; [by rewrite Hp|by rewrite Hv]. Qed.

Lemma rowsExist_sameRows {A} (pkey vkey : A → option string) xs db db' :
  sameRows db db' → rowsExist pkey vkey xs db → rowsExist pkey vkey xs db'.
Proof.
  intros [Hp Hv] Hr x Hx. destruct (Hr x Hx) as [Rp Rv].
  split; [intros p ?; apply Hp; auto|intros v ?; apply Hv; auto].
Qed.

Lemma rowsExist_cons {A} (pkey vkey : A → option string) x xs db :
  rowsExist pkey vkey (x :: xs) db ↔
  ((∀ p, pkey x = Some p → is_Some (products db !! p))
   ∧ (∀ v, vkey x = Some v → is_Some (variants db !! v)))
  ∧ rowsExist pkey vkey xs db.
Proof.
  unfold rowsExist. split.
  - intros H. split; [apply H; left|]. intros y Hy. apply H. by right.
  - intros [H1 H2] y [->|Hy]%elem_of_cons; auto.
Qed.

Lemma deductLine_succeeds vid pid q db :
  (∃ db', deductLine vid pid q db = (db', inr tt))
  ↔ is_Some (products db !! pid)
    ∧ (∀ j, variantKey vid = Some j → is_Some (variants db !! j)).
Proof.
  unfold deductLine, variantKey. split.
  - intros [db' ([] & db1 & E1 & E2)%bind_inr].
    apply updateRow_inr in E2 as [E2 _].
    destruct vid as [v|]; [destruct (truthy v) eqn:Et|].
    + apply updateRow_inr in E1 as [E1 ->]. split; [done|]. by intros j [= <-].
    + injection E1 as <-. split; [done|]. intros; discriminate.
    + injection E1 as <-. split; [done|]. intros; discriminate.
  - intros [Hp Hv].
    destruct vid as [v|]; [destruct (truthy v) eqn:Et|].
    + eexists. erewrite bind_step; [|apply updateRow_total; by apply Hv].
      by apply updateRow_total.
    + eexists. erewrite bind_step; [|reflexivity]. by apply updateRow_total.
    + eexists. erewrite bind_step; [|reflexivity]. by apply updateRow_total.
Qed.

Lemma alter_sameRows_products f k db : sameRows db (setProducts (alter f k) db).
Proof. split; intros j; simpl; [apply lookup_alter_is_Some|done]. Qed.

Lemma alter_sameRows_variants f k db : sameRows db (setVariants (alter f k) db).
Proof. split; intros j; simpl; [done|apply lookup_alter_is_Some]. Qed.

Lemma deductLine_sameRows vid pid q db db' :
  deductLine vid pid q db = (db', inr tt) → sameRows db db'.
Proof.
  intros (P & V & _)%deductLine_inr. split; intros k.
  - rewrite P. apply lookup_alter_is_Some.
  - rewrite V. destruct (variantKey vid); [apply lookup_alter_is_Some|done].
Qed.

Lemma forEach_deductLine_succeeds {A} (vid : A → option string) (pid : A → string)
    (q : A → Z) xs db :
  (∃ db', forEach (λ x, deductLine (vid x) (pid x) (q x)) xs db = (db', inr tt))
  ↔ rowsExist (λ x, Some (pid x)) (λ x, variantKey (vid x)) xs db.
Proof.
  revert db. induction xs as [|x xs IH]; intros db.
  { split; [intros _ x Hx; by apply elem_of_nil in Hx|by exists db]. }
  rewrite rowsExist_cons. simpl. split.
  - intros [db' ([] & db1 & E1 & E2)%bind_inr].
    pose proof (deductLine_sameRows _ _ _ _ _ E1) as Hs.
    split.
    + assert (∃ db1, deductLine (vid x) (pid x) (q x) db = (db1, inr tt)) as Hex
        by eauto.
      apply deductLine_succeeds in Hex as [Hp Hv]. split; [by intros p [= <-]|done].
    + eapply rowsExist_sameRows; [symmetry; exact Hs|]. apply IH. eauto.
  - intros [[Hp Hv] Hr].
    destruct (proj2 (deductLine_succeeds (vid x) (pid x) (q x) db)) as [db1 E1];
      [split; auto|].
    pose proof (deductLine_sameRows _ _ _ _ _ E1) as Hs.
    destruct (proj2 (IH db1)) as [db' E2]; [by eapply rowsExist_sameRows|].
    exists db'. by erewrite bind_step.
Qed.

(** [verifyPayment], on its way to success. *)
Lemma verifyPayment_succeeds env user body db db' reply :
  verifyPayment env (Some user) body db = (db', inr reply)
  ↔ ∃ orderId o db3,
      gatewayOrder db (VerifyPaymentBody.razorpay_order_id body) = Some (orderId, o)
      ∧ gatesPassed env user body o
      ∧ deductOrder o
          (setOrders
             (alter (Order.setPaid (VerifyPaymentBody.razorpay_payment_id body)
                       (VerifyPaymentBody.razorpay_signature body)) orderId) db)
        = (db3, inr tt)
      ∧ db' = setCarts (alter Cart.clear (Order.userId o)) db3
      ∧ reply = mkReply 200
          (orderId, Order.setPaid (VerifyPaymentBody.razorpay_payment_id body)
                      (VerifyPaymentBody.razorpay_signature body) o).
Proof.
  rewrite verifyPayment_run. cbv zeta. unfold gatewayOrder, gatesPassed, completeBody.
  split.
  - destruct (truthy (VerifyPaymentBody.razorpay_order_id body)); [|done].
    destruct (truthy (VerifyPaymentBody.razorpay_payment_id body)); [|done].
    destruct (truthy (VerifyPaymentBody.razorpay_signature body)); [|done].
    simpl. destruct (verifyRazorpaySignature _ _ _ _); [|done]. simpl.
    destruct (head _) as [[orderId o]|] eqn:Eh; [|done].
    pose proof (order_findFirst_found _ _ _ _ Eh) as [Ho Hg].
    destruct (String.eqb _ _) eqn:Eu; [|done]. simpl.
    destruct (fetchPaymentDetails _ _) as [e|amount]; [done|].
    destruct (amountMismatch amount o) eqn:Em; [done|].
    destruct (deductOrder _ _) as [db3 [e|[]]] eqn:Ed; [done|].
    intros [= <- <-]. exists orderId, o, db3. split; [done|].
    split; [|done]. do 2 (split; [done|]).
    split; [by apply bool_decide_eq_true in Hg|].
    split; [by apply String.eqb_eq|]. by exists amount.
  - intros (orderId & o & db3 & -> & ((-> & -> & ->) & -> & _ & Hu & amount & -> & ->)
            & -> & -> & ->).
    simpl. by rewrite Hu, String.eqb_refl.
Qed.

(** What a successful verifyPayment leaves: the order paid, the stock of
    its items deducted, the owner's cart cleared. *)
Lemma verifyPayment_success env user body db db' reply :
  verifyPayment env user body db = (db', inr reply) →
  ∃ u orderId o,
    user = Some u
    ∧ gatewayOrder db (VerifyPaymentBody.razorpay_order_id body) = Some (orderId, o)
    ∧ orders db !! orderId = Some o
    ∧ gatesPassed env u body o
    ∧ reply = mkReply 200
        (orderId, Order.setPaid (VerifyPaymentBody.razorpay_payment_id body)
                    (VerifyPaymentBody.razorpay_signature body) o)
    ∧ orders db' = <[orderId := (data reply).2]> (orders db)
    ∧ stockDeducted orderItemProduct orderItemVariant OrderItem.quantity
        (Order.items o) db db'
    ∧ cartCleared (Order.userId o) db db'.
Proof.
  destruct user as [u|]; [|done].
  intros (orderId & o & db3 & Hg & Hp & Hd & -> & ->)%verifyPayment_succeeds.
  pose proof (order_findFirst_found _ _ _ _ Hg) as [Ho _].
  apply forEach_deductLine_inr in Hd as (P & V & _ & Hc & _ & Hos).
  exists u, orderId, o. do 5 (split; [done|]). simpl in *. split.
  { rewrite Hos. apply map_eq. intros k. rewrite lookup_alter, lookup_insert.
    case_decide; subst; by rewrite ?Ho. }
  split; [by apply adjustAll_stockDeducted|].
  unfold cartCleared. simpl. by rewrite Hc.
Qed.

(** Past its gates, verifyPayment succeeds when the stock rows of the
    order's items exist. *)
Lemma verifyPayment_past_gates env user body db orderId o :
  gatewayOrder db (VerifyPaymentBody.razorpay_order_id body) = Some (orderId, o) →
  gatesPassed env user body o →
  rowsExist orderItemProduct orderItemVariant (Order.items o) db →
  ∃ db' reply, verifyPayment env (Some user) body db = (db', inr reply).
Proof.
  intros Hg Hp Hr.
  destruct (proj2 (forEach_deductLine_succeeds OrderItem.variantId OrderItem.productId
              OrderItem.quantity (Order.items o)
              (setOrders
                 (alter (Order.setPaid (VerifyPaymentBody.razorpay_payment_id body)
                           (VerifyPaymentBody.razorpay_signature body)) orderId) db)))
    as [db3 Hd].
  { eapply (rowsExist_sameRows _ _ _ db); [by apply sameRows_of_eq|done]. }
  eexists _, _. apply verifyPayment_succeeds. by exists orderId, o, db3.
Qed.

(** C5.  A COD order that createOrder creates takes the units of every
    cart item off the product's and the variant's stock and deletes the
    cart's items together with the insertion of the order row: all of
    them on success, none of them when the call fails.  A gateway order
    leaves every stock counter and every cart untouched at creation,
    whatever the outcome.  verifyPayment writes stock and cart only when
    it succeeds, which it does only past every gate (complete body, valid
    signature, order owned by the caller, amount within 0.01 of the
    total); and past these gates, the stock rows of the items being
    there, it does succeed: it answers 200, the order is PAID and
    CONFIRMED, the units of the order's items are off the stock of their
    products and variants, and the owner's cart is empty. *)
Theorem stock_and_cart_follow_payment env user body vbody db db' :
  (CreateOrderBody.paymentMethod body = COD →
     (∀ reply, createOrder env user body db = (db', inr reply) →
        ∃ u cart,
          user = Some u
          ∧ carts db !! userId u = Some cart
          ∧ orders db !! (order (data reply)).1 = None
          ∧ orders db' = <[(order (data reply)).1 := (order (data reply)).2]> (orders db)
          ∧ stockDeducted cartItemProduct cartItemVariant CartItem.quantity
              (Cart.items cart) db db'
          ∧ cartCleared (userId u) db db')
     ∧ (∀ e, createOrder env user body db = (db', inl e) →
          orders db' = orders db ∧ inventory db db'))
  ∧ (CreateOrderBody.paymentMethod body = RAZORPAY →
     ∀ r, createOrder env user body db = (db', r) → inventory db db')
  ∧ (∀ e, verifyPayment env user vbody db = (db', inl e) → inventory db db')
  ∧ (∀ reply, verifyPayment env user vbody db = (db', inr reply) →
       ∃ u orderId o,
         user = Some u
         ∧ orders db !! orderId = Some o
         ∧ gatesPassed env u vbody o
         ∧ Order.paymentStatus (data reply).2 = PaymentStatus.PAID
         ∧ orders db' = <[orderId := (data reply).2]> (orders db)
         ∧ stockDeducted orderItemProduct orderItemVariant OrderItem.quantity
             (Order.items o) db db'
         ∧ cartCleared (Order.userId o) db db')
  ∧ (∀ u orderId o,
       user = Some u →
       gatewayOrder db (VerifyPaymentBody.razorpay_order_id vbody) = Some (orderId, o) →
       gatesPassed env u vbody o →
       rowsExist orderItemProduct orderItemVariant (Order.items o) db →
       ∃ db2 reply o',
         verifyPayment env user vbody db = (db2, inr reply)
         ∧ status reply = 200
         ∧ data reply = (orderId, o')
         ∧ orders db2 !! orderId = Some o'
         ∧ paidRow (VerifyPaymentBody.razorpay_payment_id vbody)
             (VerifyPaymentBody.razorpay_signature vbody) o o'
         ∧ (∀ other, other ≠ orderId → orders db2 !! other = orders db !! other)
         ∧ stockDeducted orderItemProduct orderItemVariant OrderItem.quantity
             (Order.items o) db db2
         ∧ cartCleared (Order.userId o) db db2).
Proof.
  split; [|split; [|split; [|split]]].
  - intros Hpm. split.
    + intros reply. by apply createOrder_COD_effects.
    + intros e. by apply createOrder_COD_all_or_nothing.
  - intros Hpm r. by apply createOrder_RAZORPAY_frame.
  - intros e. apply verifyPayment_failure_frame.
  - intros reply
      (u & orderId & o & -> & _ & Ho & Hg & -> & Hos & Hs & Hc)%verifyPayment_success.
    exists u, orderId, o. do 3 (split; [done|]). split; [reflexivity|].
    split; [exact Hos|]. by split.
  - intros u orderId o -> Hg Hp Hr.
    destruct (verifyPayment_past_gates env u vbody db orderId o Hg Hp Hr)
      as (db2 & reply & E).
    pose proof E as
      (u' & orderId' & o0 & [= <-] & Hg' & Ho & _ & -> & Hos & Hs & Hc)%verifyPayment_success.
    rewrite Hg in Hg'. injection Hg' as <- <-.
    eexists db2, _, _. split; [exact E|]. simpl in *.
    split; [done|]. split; [done|].
    split; [by rewrite Hos, lookup_insert_eq|].
    split; [by repeat split|].
    split; [intros other Hne; by rewrite Hos, lookup_insert_ne|].
    by split.
Qed.

Lemma stock_and_cart_follow_payment_witness :
  let checkout := Sample.checkout RAZORPAY (Some "WELCOME10") in
  let payment := Sample.payment "pay_1080" (Sample.sign "order_rzp_1" "pay_1080") in
  (∃ db' reply,
     createOrder Sample.env (Some Sample.alice) (Sample.checkout COD None) Sample.db
       = (db', inr reply)
     ∧ Product.stock <$> products Sample.db !! "helmet" = Some 5
     ∧ ProductVariant.stock <$> variants Sample.db !! "helmet-L" = Some 3
     ∧ Product.stock <$> products db' !! "helmet" = Some 4
     ∧ ProductVariant.stock <$> variants db' !! "helmet-L" = Some 2
     ∧ carts db' !! "user-alice" = Some (Cart.mk [])
     ∧ stockDeducted cartItemProduct cartItemVariant CartItem.quantity
         [CartItem.mk "helmet" (Some "helmet-L") 1] Sample.db db'
     ∧ cartCleared "user-alice" Sample.db db')
  ∧ ∃ db1 reply1 db2 reply2,
    createOrder Sample.env (Some Sample.alice) checkout Sample.db = (db1, inr reply1)
    ∧ inventory Sample.db db1
    ∧ Product.stock <$> products db1 !! "helmet" = Some 5
    ∧ ProductVariant.stock <$> variants db1 !! "helmet-L" = Some 3
    ∧ carts db1 !! "user-alice" = Some (Cart.mk [CartItem.mk "helmet" (Some "helmet-L") 1])
    ∧ verifyPayment Sample.env (Some Sample.alice) payment db1 = (db2, inr reply2)
    ∧ status reply2 = 200
    ∧ Order.paymentStatus <$> orders db2 !! "order-1" = Some PaymentStatus.PAID
    ∧ Product.stock <$> products db2 !! "helmet" = Some 4
    ∧ ProductVariant.stock <$> variants db2 !! "helmet-L" = Some 2
    ∧ carts db2 !! "user-alice" = Some (Cart.mk []).
Proof.
  cbv zeta. split.
  { pose (run := createOrder Sample.env (Some Sample.alice) (Sample.checkout COD None)
                   Sample.db).
    assert (R : ∃ reply, run = (run.1, inr reply)) by (eexists; vm_compute; reflexivity).
    destruct R as [reply R].
    destruct (proj1 (proj1 (stock_and_cart_follow_payment Sample.env (Some Sample.alice)
                              (Sample.checkout COD None) (Sample.payment "" "")
                              Sample.db run.1) eq_refl) reply R)
      as (u & cart & [= <-] & Hcart & _ & _ & Hs & Hc).
    vm_compute in Hcart. injection Hcart as <-.
    exists run.1, reply. split; [exact R|].
    do 5 (split; [vm_compute; reflexivity|]). by split. }
  set (checkout := Sample.checkout RAZORPAY (Some "WELCOME10")).
  set (payment := Sample.payment "pay_1080" (Sample.sign "order_rzp_1" "pay_1080")).
  pose (run1 := createOrder Sample.env (Some Sample.alice) checkout Sample.db).
  assert (E1 : run1 = (Sample.dbPending, run1.2)) by (vm_compute; reflexivity).
  assert (R1 : ∃ reply1, run1.2 = inr reply1) by (eexists; vm_compute; reflexivity).
  destruct R1 as [reply1 R1]. rewrite R1 in E1.
  (* the gateway order leaves stock and cart alone *)
  pose proof (proj1 (proj2 (stock_and_cart_follow_payment Sample.env (Some Sample.alice)
                              checkout payment Sample.db Sample.dbPending))
                eq_refl _ E1) as Hinv.
  (* the verified payment deducts the stock and clears the cart *)
  destruct (orders Sample.dbPending !! "order-1") as [o|] eqn:Ho;
    [|vm_compute in Ho; discriminate Ho].
  destruct (proj2 (proj2 (proj2 (proj2
              (stock_and_cart_follow_payment Sample.env (Some Sample.alice)
                 checkout payment Sample.dbPending Sample.dbPending))))
              Sample.alice "order-1" o eq_refl)
    as (db2 & reply2 & o' & E2 & Hst & _ & Ho' & (Hpaid & _) & _ & _ & _).
  { vm_compute in Ho. injection Ho as <-. vm_compute. reflexivity. }
  { vm_compute in Ho. injection Ho as <-.
    split; [done|]. split; [vm_compute; reflexivity|]. split; [reflexivity|].
    split; [reflexivity|]. exists 108000%float. split; vm_compute; reflexivity. }
  { vm_compute in Ho. injection Ho as <-.
    intros x [->|Hx%elem_of_nil]%elem_of_cons; [|done].
    split; intros k [= <-]; vm_compute; eexists; reflexivity. }
  exists Sample.dbPending, reply1, db2, reply2.
  split; [exact E1|]. split; [exact Hinv|].
  do 3 (split; [vm_compute; reflexivity|]).
  split; [exact E2|]. split; [exact Hst|].
  split; [rewrite Ho'; simpl; by rewrite Hpaid|].
  assert (Hdb2 : db2 = (verifyPayment Sample.env (Some Sample.alice) payment
                          Sample.dbPending).1) by (by rewrite E2).
  rewrite Hdb2. do 2 (split; [vm_compute; reflexivity|]). vm_compute. reflexivity.
Defined.

(** ** Retrying a gateway checkout *)

Lemma latest_None rows : prisma.latest rows = None → rows = [].
Proof.
  destruct rows as [|r rest]; [done|]. simpl.
  destruct (prisma.latest rest) as [r'|]; [|done]. by case_match.
Qed.

Lemma latest_only rows r :
  r ∈ rows → (∀ r', r' ∈ rows → r' = r) → prisma.latest rows = Some r.
Proof.
  induction rows as [|x rest IH]; [by intros ?%elem_of_nil|].
  intros _ Hall. assert (x = r) as -> by (apply Hall; left).
  simpl. destruct rest as [|y rest'] eqn:E; [done|]. rewrite <- E in *.
  rewrite IH.
  - by rewrite Z.ltb_irrefl.
  - rewrite E. assert (y = r) as -> by (apply Hall; rewrite E; right; left). left.
  - intros r' Hr'. apply Hall. by right.
Qed.

Lemma latest_elem rows r : prisma.latest rows = Some r → r ∈ rows.
Proof.
  revert r. induction rows as [|x rest IH]; intros r; [done|]. simpl.
  destruct (prisma.latest rest) as [r'|]; [|intros [= <-]; left].
  destruct (_ <? _); intros [= <-]; [right; by apply IH|left].
Qed.

(** No row is more recent than the latest. *)
Lemma latest_max rows r x :
  prisma.latest rows = Some r → x ∈ rows →
  Order.createdAt x.2 ≤ Order.createdAt r.2.
Proof.
  revert r. induction rows as [|y rest IH]; intros r; [done|]. simpl.
  destruct (prisma.latest rest) as [r'|] eqn:E.
  - destruct (_ <? _) eqn:Elt; intros [= <-] [->|Hx]%elem_of_cons.
    + apply Z.ltb_lt in Elt. lia.
    + by apply IH.
    + lia.
    + apply Z.ltb_ge in Elt. specialize (IH r' eq_refl Hx). lia.
  - apply latest_None in E as ->. intros [= <-] [->|Hx%elem_of_nil]%elem_of_cons; [lia|done].
Qed.

(** The latest row of a list is the latest of every selection that keeps
    it. *)
Lemma latest_filter (P : string * Order.t → Prop) `{!∀ x, Decision (P x)} rows r :
  prisma.latest rows = Some r → P r → prisma.latest (filter P rows) = Some r.
Proof.
  revert r. induction rows as [|x rest IH]; intros r; [done|]. simpl.
  destruct (prisma.latest rest) as [r'|] eqn:E.
  - destruct (_ <? _) eqn:Elt; intros [= <-] HP.
    + rewrite filter_cons. destruct (decide (P x)); [|by apply IH].
      simpl. rewrite (IH r' eq_refl HP). by rewrite Elt.
    + rewrite filter_cons, decide_True by done. simpl.
      destruct (prisma.latest (filter P rest)) as [r''|] eqn:E'; [|done].
      apply latest_elem, list_elem_of_filter in E' as [_ Hin].
      pose proof (latest_max _ _ _ E Hin) as Hmax.
      apply Z.ltb_ge in Elt. rewrite (proj2 (Z.ltb_ge _ _)); [done|lia].
  - apply latest_None in E as ->. intros [= <-] HP.
    by rewrite filter_cons, decide_True.
Qed.

Lemma cart_findUnique_stable uid db db' :
  inventory db db' → (cart_findUnique uid db').2 = (cart_findUnique uid db).2.
Proof.
  intros (Hp & Hv & Hc). unfold same in *. unfold cart_findUnique.
  rewrite Hc. destruct (carts db !! uid) as [cart|]; [|done].
  assert (loadLine db' = loadLine db) as ->.
  { unfold loadLine. by rewrite Hp, Hv. }
  by destruct (mapM _ _).
Qed.

Lemma cart_findUnique_db uid db : (cart_findUnique uid db).1 = db.
Proof. unfold cart_findUnique. by repeat case_match. Qed.

(** A gateway checkout that answers either hands back the pending order
    it found or, having found none, places a new one. *)
Lemma createOrder_RAZORPAY_inr env user body db db1 reply :
  CreateOrderBody.paymentMethod body = RAZORPAY →
  createOrder env user body db = (db1, inr reply) →
  ∃ u a cart lines,
    user = Some u
    ∧ addresses db !! CreateOrderBody.addressId body = Some a
    ∧ Address.userId a = userId u
    ∧ carts db !! userId u = Some cart
    ∧ mapM (loadLine db) (Cart.items cart) = Some lines
    ∧ lines ≠ []
    ∧ ((∃ existing, reusableOrder db (userId u) (now env) = Some existing
                    ∧ db1 = db ∧ reply = reuseReply existing)
       ∨ (reusableOrder db (userId u) (now env) = None
          ∧ placeOrder env u body lines
              (sweepExpired (userId u) (tenMinutesBefore (now env)) db)
            = (db1, inr reply))).
Proof.
  intros Hpm. destruct user as [u|]; [|done]. rewrite createOrder_run, Hpm.
  destruct (addresses db !! _) as [a|] eqn:Ea; [|done].
  destruct (String.eqb _ _) eqn:Eown; [|done].
  destruct (cart_findUnique _ _) as [db0 [e|[[cart [|l lines]]|]]] eqn:Ec; try done.
  apply cart_findUnique_inr in Ec as [Hcart Hlines].
  intros H. exists u, a, cart, (l :: lines).
  split; [done|]. split; [done|]. split; [by apply String.eqb_eq|].
  split; [done|]. split; [done|]. split; [done|].
  destruct (reusableOrder _ _ _) as [existing|]; [left|right; by split].
  injection H as <- <-. by exists existing.
Qed.

(** The second call of a gateway checkout, on a database with the same
    addresses, stock and carts as the first. *)
Lemma createOrder_RAZORPAY_again env u body db db1 a cart lines :
  CreateOrderBody.paymentMethod body = RAZORPAY →
  addresses db !! CreateOrderBody.addressId body = Some a →
  Address.userId a = userId u →
  carts db !! userId u = Some cart →
  mapM (loadLine db) (Cart.items cart) = Some lines →
  lines ≠ [] →
  addresses db1 = addresses db →
  inventory db db1 →
  createOrder env (Some u) body db1 =
    match reusableOrder db1 (userId u) (now env) with
    | Some existing => (db1, inr (reuseReply existing))
    | None =>
        placeOrder env u body lines
          (sweepExpired (userId u) (tenMinutesBefore (now env)) db1)
    end.
Proof.
  intros Hpm Ha Hown Hc Hl Hne Haddr Hinv.
  rewrite createOrder_run, Hpm, Haddr, Ha, Hown, String.eqb_refl.
  pose proof (cart_findUnique_stable (userId u) db db1 Hinv) as Hs.
  pose proof (cart_findUnique_db (userId u) db1) as Hd.
  destruct (cart_findUnique (userId u) db1) as [d r]. simpl in Hs, Hd. subst d r.
  unfold cart_findUnique. rewrite Hc, Hl.
  by destruct lines as [|l lines].
Qed.

(** Whatever its outcome, [placeOrder] keeps the order rows it finds. *)
Lemma placeOrder_keeps_rows env user body lines db db' r k row :
  placeOrder env user body lines db = (db', r) →
  orders db !! k = Some row → orders db' !! k = Some row.
Proof.
  rewrite placeOrder_run. cbv zeta. intros H Hk. revert H.
  destruct (appliedCoupon _ _ _ _) as [[code coupon]|].
  all: destruct (prisma.order_create _ _ _) as [db2 [e|newOrder]] eqn:Ec;
    [by intros [= <- _]|].
  all: apply order_create_inr in Ec as (_ & Hfree & _ & ->).
  all: assert (Hne : newOrderId env ≠ k)
    by (intros Heq; simpl in Hfree; rewrite Heq in Hfree; congruence).
  all: destruct (CreateOrderBody.paymentMethod body).
  all: try (destruct (deductCart _ _) as [db3 [e|[]]] eqn:Ed; [by intros [= <- _]|];
            apply forEach_deductLine_inr in Ed as (_ & _ & _ & _ & _ & Hos);
            intros [= <- _]; simpl; rewrite Hos; simpl; by rewrite lookup_insert_ne).
  all: destruct (createRazorpayOrder _ _ _); intros [= <- _]; simpl.
  all: by rewrite ?lookup_alter_ne, lookup_insert_ne.
Qed.

Lemma isRecentPending_later uid t1 t2 o :
  t1 ≤ t2 → isRecentPending uid t2 o = true → isRecentPending uid t1 o = true.
Proof.
  unfold isRecentPending. rewrite !andb_true_iff.
  intros Ht [Hw Hc]. split; [done|]. apply Z.leb_le in Hc. apply Z.leb_le. lia.
Qed.

Lemma isRecentPending_expired uid t o :
  isRecentPending uid t o = true → ∀ t', Order.createdAt o < t' →
  isExpiredPending uid t' o = true.
Proof.
  unfold isRecentPending, isExpiredPending. rewrite !andb_true_iff.
  intros [[[[[H1 H2] H3] H4] _] _] t' Ht.
  rewrite H1, H2, H3, H4. simpl. by apply Z.ltb_lt.
Qed.

(** C7, as the code has it.  When a createOrder call with paymentMethod
    RAZORPAY has answered with an order, newly created (201) or handed
    back (200), a second call for the same user with nothing changed in
    between answers 200 with that same order, as it is stored, and leaves
    the database as it is, provided it comes no later than ten minutes
    after the creation of that order ([createdAt]).  A second call that
    comes later than that does not hand the order back: it marks it
    CANCELLED and FAILED, and what it answers with, if it answers, is a new
    order. *)
Theorem createOrder_RAZORPAY_retry env1 env2 user body db db1 reply1 :
  CreateOrderBody.paymentMethod body = RAZORPAY →
  createOrder env1 user body db = (db1, inr reply1) →
  now env1 ≤ now env2 →
  (now env2 ≤ Order.createdAt (order (data reply1)).2 + 10 * 60 * 1000 →
   ∃ reply2,
     createOrder env2 user body db1 = (db1, inr reply2)
     ∧ status reply2 = 200
     ∧ (order (data reply2)).1 = (order (data reply1)).1
     ∧ orders db1 !! (order (data reply1)).1 = Some (order (data reply2)).2)
  ∧ (Order.createdAt (order (data reply1)).2 + 10 * 60 * 1000 < now env2 →
     ∀ db2 r2,
       createOrder env2 user body db1 = (db2, r2) →
       (∃ o', orders db2 !! (order (data reply1)).1 = Some o'
              ∧ Order.orderStatus o' = OrderStatus.CANCELLED
              ∧ Order.paymentStatus o' = PaymentStatus.FAILED)
       ∧ ∀ reply2, r2 = inr reply2 →
           status reply2 = 201
           ∧ (order (data reply2)).1 ≠ (order (data reply1)).1).
Proof.
  intros Hpm H1 Hnow.
  pose proof (createOrder_RAZORPAY_frame env1 user body Hpm _ _ _ H1) as Hinv.
  apply createOrder_RAZORPAY_inr in H1
    as (u & a & cart & lines & -> & Ha & Hown & Hc & Hl & Hne & H1); [|done].
  (* the stored row the first call answered with, and what is pending
     beside it *)
  assert (Hrow : ∃ id row,
    (order (data reply1)).1 = id
    ∧ Order.createdAt (order (data reply1)).2 = Order.createdAt row
    ∧ orders db1 !! id = Some row
    ∧ addresses db1 = addresses db
    ∧ isRecentPending (userId u) (Order.createdAt row) row = true
    ∧ (∀ k v t, orders db1 !! k = Some v → isRecentPending (userId u) t v = true →
         tenMinutesBefore (now env1) ≤ t →
         Order.createdAt v ≤ Order.createdAt row
         ∧ (Order.createdAt row ≤ Order.createdAt v →
            prisma.latest (prisma.order_findMany (isRecentPending (userId u) t) db1)
            = Some (id, row)))).
  { destruct H1 as [(existing & Hreuse & -> & ->)|[Hnone H1]].
    - (* handed back *)
      destruct existing as [id row]. exists id, row. simpl.
      pose proof (latest_elem _ _ Hreuse) as [Hid Hw]%order_findMany_elem.
      split; [done|]. split; [done|]. split; [done|]. split; [done|].
      split.
      { unfold isRecentPending in *. rewrite !andb_true_iff in *.
        destruct Hw as [Hw _]. split; [done|]. apply Z.leb_le. lia. }
      intros k v t Hk Hw' Ht.
      assert (Hin : (k, v) ∈ prisma.order_findMany
                      (isRecentPending (userId u) (tenMinutesBefore (now env1))) db).
      { apply order_findMany_elem. split; [done|]. by eapply isRecentPending_later. }
      pose proof (latest_max _ _ _ Hreuse Hin) as Hmax. simpl in Hmax.
      split; [done|]. intros Hge.
      unfold reusableOrder in Hreuse.
      assert (Hsel : prisma.order_findMany (isRecentPending (userId u) t) db
                     = filter (λ r, isRecentPending (userId u) t r.2 = true)
                         (prisma.order_findMany
                            (isRecentPending (userId u) (tenMinutesBefore (now env1))) db)).
      { unfold prisma.order_findMany. rewrite list_filter_filter.
        apply list_filter_iff. intros [k' v']. simpl. split; [|tauto].
        intros Hv'. split; [done|]. by eapply isRecentPending_later. }
      rewrite Hsel. apply latest_filter; [done|]. simpl.
      unfold isRecentPending in *. rewrite !andb_true_iff in *.
      destruct Hw as [Hw _], Hw' as [_ Hc']. split; [done|].
      apply Z.leb_le in Hc'. apply Z.leb_le. lia.
    - (* newly created *)
      apply placeOrder_inr in H1 as (Hfree & _ & Haddr & _ & H1). rewrite Hpm in H1.
      destruct H1 as (rz & _ & -> & Hos & _). simpl in Hos, Hfree.
      set (o := draftOrder env1 u body lines _) in *.
      exists (newOrderId env1), (Order.setRazorpayOrderId (rzp_id rz) o). simpl.
      split; [done|]. split; [done|].
      split; [by rewrite Hos, lookup_insert_eq|]. split; [done|].
      split.
      { unfold isRecentPending. simpl. rewrite String.eqb_refl, Hpm. simpl.
        apply Z.leb_le. lia. }
      intros k v t Hk Hw Ht.
      assert (Hkv : k = newOrderId env1
                    ∧ v = Order.setRazorpayOrderId (rzp_id rz) o).
      { rewrite Hos, lookup_insert in Hk.
        case_decide as Hid; [by simplify_eq|]. exfalso.
        rewrite lookup_fmap in Hk.
        destruct (orders db !! k) as [v0|] eqn:Ek; [|done]. simpl in Hk.
        assert (Hv : v = v0).
        { destruct (isExpiredPending _ _ v0); [|by simplify_eq].
          simplify_eq. unfold isRecentPending in Hw. simpl in Hw.
          by rewrite andb_false_r in Hw. }
        subst v0.
        unfold reusableOrder in Hnone. apply latest_None in Hnone.
        assert (Hin : (k, v) ∈ prisma.order_findMany
                        (isRecentPending (userId u) (tenMinutesBefore (now env1))) db).
        { apply order_findMany_elem. split; [done|]. by eapply isRecentPending_later. }
        rewrite Hnone in Hin. by apply elem_of_nil in Hin. }
      destruct Hkv as [-> ->]. split; [done|]. intros _.
      apply latest_only.
      + apply order_findMany_elem. by rewrite Hos, lookup_insert_eq.
      + intros [k' v'] [Hk' Hw']%order_findMany_elem.
        rewrite Hos, lookup_insert in Hk'.
        case_decide as Hid; [by simplify_eq|]. exfalso.
        rewrite lookup_fmap in Hk'.
        destruct (orders db !! k') as [v0|] eqn:Ek; [|done]. simpl in Hk'.
        assert (Hv : v' = v0).
        { destruct (isExpiredPending _ _ v0); [|by simplify_eq].
          simplify_eq. unfold isRecentPending in Hw'. simpl in Hw'.
          by rewrite andb_false_r in Hw'. }
        subst v0.
        unfold reusableOrder in Hnone. apply latest_None in Hnone.
        assert (Hin : (k', v') ∈ prisma.order_findMany
                        (isRecentPending (userId u) (tenMinutesBefore (now env1))) db).
        { apply order_findMany_elem. split; [done|]. by eapply isRecentPending_later. }
        rewrite Hnone in Hin. by apply elem_of_nil in Hin. }
  destruct Hrow as (id & row & Hid & Hat & Hstored & Haddr & Hpending & Hothers).
  rewrite Hid, Hat. clear H1 Hid Hat.
  pose proof (createOrder_RAZORPAY_again env2 u body db db1 a cart lines
                Hpm Ha Hown Hc Hl Hne Haddr Hinv) as Hrun2.
  assert (Ht12 : tenMinutesBefore (now env1) ≤ tenMinutesBefore (now env2))
    by (unfold tenMinutesBefore; lia).
  split.
  - (* within ten minutes of the creation *)
    intros Hwithin.
    assert (Hw2 : isRecentPending (userId u) (tenMinutesBefore (now env2)) row = true).
    { unfold isRecentPending, tenMinutesBefore in *. rewrite !andb_true_iff in *.
      destruct Hpending as [Hw _]. split; [done|]. apply Z.leb_le. lia. }
    destruct (Hothers id row _ Hstored Hw2 Ht12) as [_ Hlatest].
    exists (reuseReply (id, row)).
    split; [|by repeat split].
    rewrite Hrun2. unfold reusableOrder. by rewrite Hlatest.
  - (* later than that *)
    intros Hlate db2 r2. rewrite Hrun2.
    assert (Hnone2 : reusableOrder db1 (userId u) (now env2) = None).
    { unfold reusableOrder.
      destruct (prisma.latest _) as [[k v]|] eqn:E; [exfalso|done].
      apply latest_elem, order_findMany_elem in E as [Hk Hw].
      destruct (Hothers k v _ Hk Hw Ht12) as [Hle _].
      unfold isRecentPending, tenMinutesBefore in Hw. rewrite !andb_true_iff in Hw.
      destruct Hw as [_ Hc']. apply Z.leb_le in Hc'. lia. }
    rewrite Hnone2.
    set (dbS := sweepExpired (userId u) (tenMinutesBefore (now env2)) db1).
    assert (Hswept : orders dbS !! id
                     = Some (Order.setStatus PaymentStatus.FAILED OrderStatus.CANCELLED row)).
    { unfold dbS. simpl. rewrite lookup_fmap, Hstored. simpl.
      rewrite (isRecentPending_expired _ _ _ Hpending); [done|].
      unfold tenMinutesBefore. lia. }
    intros H2. split.
    + eexists. split; [eapply placeOrder_keeps_rows; [exact H2|exact Hswept]|]. done.
    + intros reply2 ->.
      apply placeOrder_inr in H2 as (Hfree & _ & _ & _ & H2). rewrite Hpm in H2.
      destruct H2 as (rz & _ & -> & _). simpl. split; [done|].
      intros Heq. rewrite Heq, Hswept in Hfree. discriminate.
Qed.

Lemma createOrder_RAZORPAY_retry_witness :
  let later := Sample.at_ (Sample.today + 30 * 1000) Sample.env in
  let body := Sample.checkout RAZORPAY None in
  ∃ reply1 reply2,
    createOrder Sample.env (Some Sample.alice) body Sample.dbWaiting
      = (Sample.dbWaiting, inr reply1)
    ∧ status reply1 = 200
    ∧ (order (data reply1)).1 = "order-0"
    ∧ Order.createdAt (order (data reply1)).2 = Sample.today - 9 * 60 * 1000
    ∧ createOrder later (Some Sample.alice) body Sample.dbWaiting
      = (Sample.dbWaiting, inr reply2)
    ∧ status reply2 = 200
    ∧ (order (data reply2)).1 = "order-0"
    ∧ orders Sample.dbWaiting !! "order-0" = Some (order (data reply2)).2.
Proof.
  cbv zeta.
  pose (run1 := createOrder Sample.env (Some Sample.alice)
                  (Sample.checkout RAZORPAY None) Sample.dbWaiting).
  assert (E1 : run1 = (Sample.dbWaiting, inr (reuseReply ("order-0", Sample.waitingOrder))))
    by (vm_compute; reflexivity).
  destruct (proj1 (createOrder_RAZORPAY_retry Sample.env
                     (Sample.at_ (Sample.today + 30 * 1000) Sample.env)
                     (Some Sample.alice) (Sample.checkout RAZORPAY None)
                     Sample.dbWaiting Sample.dbWaiting _ eq_refl E1
                     ltac:(vm_compute; discriminate)))
    as (reply2 & E2 & Hst & Hid & Hrow); [vm_compute; discriminate|].
  exists (reuseReply ("order-0", Sample.waitingOrder)), reply2.
  split; [exact E1|]. do 3 (split; [reflexivity|]).
  split; [exact E2|]. split; [exact Hst|]. split; [exact Hid|exact Hrow].
Defined.

(** C7, as stated, fails: ten minutes from the first call are not ten
    minutes from the creation of the order.  A pending gateway order of
    nine minutes ago is handed back by a first call; a second call five
    minutes after the first, with nothing changed in between, finds it
    fourteen minutes old, marks it CANCELLED and FAILED and creates a
    second order. *)
Lemma createOrder_retry_creates_second_order :
  let later := Sample.at_ (Sample.today + 5 * 60 * 1000) Sample.env in
  let body := Sample.checkout RAZORPAY None in
  ∃ reply1 db2 reply2,
    createOrder Sample.env (Some Sample.alice) body Sample.dbWaiting
      = (Sample.dbWaiting, inr reply1)
    ∧ status reply1 = 200
    ∧ (order (data reply1)).1 = "order-0"
    ∧ now later = now Sample.env + 5 * 60 * 1000
    ∧ createOrder later (Some Sample.alice) body Sample.dbWaiting = (db2, inr reply2)
    ∧ status reply2 = 201
    ∧ (order (data reply2)).1 = "order-1"
    ∧ Order.orderStatus <$> orders db2 !! "order-0" = Some OrderStatus.CANCELLED
    ∧ Order.paymentStatus <$> orders db2 !! "order-0" = Some PaymentStatus.FAILED
    ∧ Order.orderStatus <$> orders db2 !! "order-1" = Some OrderStatus.PENDING.
Proof.
  cbv zeta. eexists _, _, _. split; [vm_compute; reflexivity|].
  do 3 (split; [reflexivity|]). split; [vm_compute; reflexivity|].
  do 2 (split; [reflexivity|]). by vm_compute.
Qed.

(** ** Coupons at checkout *)






Lemma appliedCoupon_lookup env couponCode subtotal db code coupon :
  appliedCoupon env couponCode subtotal db = Some (code, coupon) →
  coupons db !! code = Some coupon.
Proof.
  unfold appliedCoupon. destruct couponCode as [c|]; [simpl|done].
  destruct (truthy c); [|done].
  destruct (coupons db !! c) as [cp|] eqn:E; [simpl|done].
  destruct (couponApplies _ _ _); [|done]. by intros [= <- <-].
Qed.

(** Once [placeOrder] runs with a coupon that applies, the usage is
    incremented, however the run ends. *)
Lemma placeOrder_coupons env user body lines db db' r code coupon :
  appliedCoupon env (CreateOrderBody.couponCode body)
    (subtotalOf (orderItemOf <$> lines)) db = Some (code, coupon) →
  placeOrder env user body lines db = (db', r) →
  coupons db' = <[code := Coupon.incrementUsed coupon]> (coupons db).
Proof.
  intros Happ.
  assert (Hins : alter Coupon.incrementUsed code (coupons db)
                 = <[code := Coupon.incrementUsed coupon]> (coupons db)).
  { apply appliedCoupon_lookup in Happ. apply map_eq. intros k.
    rewrite lookup_alter, lookup_insert. case_decide; subst; by rewrite ?Happ. }
  rewrite placeOrder_run. cbv zeta. rewrite Happ, <- Hins.
  destruct (prisma.order_create _ _ _) as [db2 [e|newOrder]] eqn:Ec;
    [by intros [= <- _]|].
  apply order_create_inr in Ec as (_ & _ & _ & ->).
  destruct (CreateOrderBody.paymentMethod body).
  - destruct (deductCart _ _) as [db3 [e|[]]] eqn:Ed; [by intros [= <- _]|].
    apply forEach_deductLine_inr in Ed as (_ & _ & _ & _ & Hc & _).
    by intros [= <- _].
  - destruct (createRazorpayOrder _ _ _); by intros [= <- _].
Qed.

Lemma usedOnceMore_incrementUsed c : usedOnceMore c (Coupon.incrementUsed c).
Proof. by destruct c. Qed.

Lemma usageIncremented_insert code coupon db db' :
  coupons db !! code = Some coupon →
  coupons db' = <[code := Coupon.incrementUsed coupon]> (coupons db) →
  usageIncremented code db db'.
Proof.
  intros Hc Hc'. split.
  - exists coupon, (Coupon.incrementUsed coupon).
    split; [done|]. split; [by rewrite Hc', lookup_insert_eq|].
    apply usedOnceMore_incrementUsed.
  - intros other Hne. by rewrite Hc', lookup_insert_ne.
Qed.

(** A request that gets to the checkout proper runs [placeOrder]. *)
Lemma createOrder_checkout env user body db :
  reachesCheckout env user body db →
  ∃ cart lines,
    cart_findUnique (userId user) db = (db, inr (Some (cart, lines)))
    ∧ createOrder env (Some user) body db
      = placeOrder env user body lines
          (beforePlacing env (userId user) (CreateOrderBody.paymentMethod body) db).
Proof.
  intros ((a & Ha & Hown) & (cart & lines & Hc & Hne) & Hnone).
  exists cart, lines. split; [done|].
  rewrite createOrder_run, Ha, Hown, String.eqb_refl, Hc.
  destruct lines as [|l lines]; [done|].
  destruct (CreateOrderBody.paymentMethod body); [done|].
  simpl. by rewrite Hnone.
Qed.

(** A checkout that applies a coupon leaves its usage incremented,
    however it ends. *)
Lemma createOrder_uses_coupon env user body db db' r code coupon :
  appliedCoupon env (CreateOrderBody.couponCode body)
    (cartSubtotal db (userId user)) db = Some (code, coupon) →
  reachesCheckout env user body db →
  createOrder env (Some user) body db = (db', r) →
  usageIncremented code db db'.
Proof.
  intros Happ Hreach.
  destruct (createOrder_checkout _ _ _ _ Hreach) as (cart & lines & Hc & ->).
  unfold cartSubtotal in Happ. rewrite Hc in Happ.
  intros E. eapply placeOrder_coupons in E.
  - eapply usageIncremented_insert; [by eapply appliedCoupon_lookup|].
    rewrite E. by destruct (CreateOrderBody.paymentMethod body).
  - by destruct (CreateOrderBody.paymentMethod body).
Qed.

Lemma orderNumberTaken_iff db n :
  orderNumberTaken db n ↔ ∃ id o, orders db !! id = Some o ∧ Order.orderNumber o = n.
Proof.
  unfold orderNumberTaken. split.
  - intros Hne. destruct (prisma.order_findMany _ db) as [|[id o] rest] eqn:E; [done|].
    assert ((id, o) ∈ prisma.order_findMany
              (λ o, String.eqb (Order.orderNumber o) n) db) as Hin
      by (rewrite E; left).
    apply order_findMany_elem in Hin as [Ho Hn]. exists id, o.
    split; [done|]. by apply String.eqb_eq.
  - intros (id & o & Ho & Hn) Hnil.
    assert ((id, o) ∈ prisma.order_findMany
              (λ o, String.eqb (Order.orderNumber o) n) db) as Hin.
    { apply order_findMany_elem. split; [done|]. by apply String.eqb_eq. }
    rewrite Hnil in Hin. by apply elem_of_nil in Hin.
Qed.

Lemma order_create_taken id o db :
  orderNumberTaken db (Order.orderNumber o) →
  prisma.order_create id o db = (db, inl (PrismaKnownError "P2002")).
Proof.
  intros Ht. unfold prisma.order_create.
  rewrite (bool_decide_eq_true_2 (prisma.order_findMany _ db ≠ [])) by exact Ht.
  by rewrite orb_true_r.
Qed.

Lemma order_create_conflict env o db :
  Order.orderNumber o = generateOrderNumber env →
  orderConflict env db →
  prisma.order_create (newOrderId env) o db = (db, inl (PrismaKnownError "P2002")).
Proof.
  intros Hn [Hid|Hnum].
  - unfold prisma.order_create. by rewrite (bool_decide_eq_true_2 _ Hid).
  - apply order_create_taken. by rewrite Hn.
Qed.

(** The sweep of expired orders frees neither an id nor an order number. *)
Lemma orderConflict_sweep env uid t db :
  orderConflict env db → orderConflict env (sweepExpired uid t db).
Proof.
  intros [Hid|Hnum]; [left|right].
  - simpl. rewrite lookup_fmap. by apply fmap_is_Some.
  - apply orderNumberTaken_iff in Hnum as (id & o & Ho & Hn).
    apply orderNumberTaken_iff. eexists id, _. simpl. rewrite lookup_fmap, Ho. simpl.
    split; [done|]. by destruct (isExpiredPending _ _ _).
Qed.

(** A checkout whose order row is refused fails with the conflict, after
    the coupon step and with no order written. *)
Lemma placeOrder_conflict env user body lines db :
  orderConflict env db →
  ∃ db', placeOrder env user body lines db = (db', inl (PrismaKnownError "P2002"))
         ∧ orders db' = orders db ∧ inventory db db'.
Proof.
  intros Hconf. rewrite placeOrder_run. cbv zeta.
  destruct (appliedCoupon _ _ _ _) as [[code coupon]|].
  all: rewrite order_create_conflict; [|done|exact Hconf].
  all: eexists; split; [done|]; by repeat split.
Qed.

(** C2, as the code has it.  When createOrder applies a valid coupon, it
    increments that coupon's usedCount by one, and changes no other
    coupon, in a write of its own that precedes the order's transaction.
    A run either stops before that write, leaving coupons and orders as
    they are, or has made it.  Every run that creates the order row has
    made it, and so has every run that gets to the checkout proper (own
    address, cart with lines, no pending gateway order to hand back),
    however it ends: when the order's transaction fails, here because the
    id or the order number of the new row is taken, the call fails with
    the conflict, no order row is written, and the increment stays. *)
Theorem coupon_usage_precedes_order env user body db db' r code coupon :
  appliedCoupon env (CreateOrderBody.couponCode body)
    (cartSubtotal db (userId user)) db = Some (code, coupon) →
  createOrder env (Some user) body db = (db', r) →
  ((coupons db' = coupons db ∧ orders db' = orders db) ∨ usageIncremented code db db')
  ∧ (orderRowCreated env db db' → usageIncremented code db db')
  ∧ (reachesCheckout env user body db → usageIncremented code db db')
  ∧ (reachesCheckout env user body db → orderConflict env db →
     r = inl (PrismaKnownError "P2002")
     ∧ usageIncremented code db db'
     ∧ orders db'
       = orders (beforePlacing env (userId user) (CreateOrderBody.paymentMethod body) db)
     ∧ ¬ orderRowCreated env db db'
     ∧ inventory db db').
Proof.
  intros Happ E.
  assert (Hcases : (coupons db' = coupons db ∧ orders db' = orders db)
                   ∨ usageIncremented code db db').
  { revert E. rewrite createOrder_run.
    destruct (addresses db !! _) as [a|]; [|intros [= <- _]; by left].
    destruct (String.eqb _ _); [|intros [= <- _]; by left].
    unfold cartSubtotal in Happ.
    destruct (cart_findUnique _ _) as [db0 [e|[[cart [|l lines]]|]]];
      try (intros [= <- _]; by left).
    pose proof (appliedCoupon_lookup _ _ _ _ _ _ Happ) as Hc.
    destruct (CreateOrderBody.paymentMethod body).
    - intros E. right. eapply usageIncremented_insert; [done|].
      by eapply placeOrder_coupons.
    - destruct (reusableOrder _ _ _); [intros [= <- _]; by left|].
      intros E. right. eapply usageIncremented_insert; [done|].
      eapply placeOrder_coupons in E; [exact E|exact Happ]. }
  split; [exact Hcases|]. split; [|split].
  - intros [Hnone [o Ho]]. destruct Hcases as [[_ Hsame]|Hc]; [congruence|done].
  - intros Hreach. by eapply createOrder_uses_coupon.
  - intros Hreach Hconf.
    pose proof (createOrder_uses_coupon _ _ _ _ _ _ _ _ Happ Hreach E) as Hused.
    destruct (createOrder_checkout _ _ _ _ Hreach) as (cart & lines & _ & Hrun).
    rewrite Hrun in E.
    set (dbS := beforePlacing env (userId user) (CreateOrderBody.paymentMethod body) db)
      in *.
    assert (HconfS : orderConflict env dbS).
    { unfold dbS. destruct (CreateOrderBody.paymentMethod body); simpl; [done|].
      by apply orderConflict_sweep. }
    destruct (placeOrder_conflict env user body lines dbS HconfS)
      as (db0 & E0 & Hos & Hinv).
    rewrite E0 in E. injection E as <- <-.
    split; [done|]. split; [done|]. split; [done|]. split.
    + intros [Hnone [o Ho]]. rewrite Hos in Ho.
      assert (Hstill : orders dbS !! newOrderId env = None).
      { unfold dbS. destruct (CreateOrderBody.paymentMethod body); simpl; [done|].
        by rewrite lookup_fmap, Hnone. }
      congruence.
    + destruct Hinv as (Hp & Hv & Hc). unfold same in *.
      unfold dbS in *. repeat split; unfold same.
      all: by destruct (CreateOrderBody.paymentMethod body).
Qed.

Lemma coupon_usage_precedes_order_witness :
  let body := Sample.checkout COD (Some "WELCOME10") in
  ∃ db',
    appliedCoupon Sample.env (Some "WELCOME10")
      (cartSubtotal Sample.dbTaken "user-alice") Sample.dbTaken
      = Some ("WELCOME10", Sample.WELCOME10)
    ∧ reachesCheckout Sample.env Sample.alice body Sample.dbTaken
    ∧ orderConflict Sample.env Sample.dbTaken
    ∧ createOrder Sample.env (Some Sample.alice) body Sample.dbTaken
      = (db', inl (PrismaKnownError "P2002"))
    ∧ usageIncremented "WELCOME10" Sample.dbTaken db'
    ∧ Coupon.usedCount <$> coupons Sample.dbTaken !! "WELCOME10" = Some 0
    ∧ Coupon.usedCount <$> coupons db' !! "WELCOME10" = Some 1
    ∧ orders db' = orders Sample.dbTaken
    ∧ ¬ orderRowCreated Sample.env Sample.dbTaken db'.
Proof.
  cbv zeta.
  assert (Happ : appliedCoupon Sample.env
            (CreateOrderBody.couponCode (Sample.checkout COD (Some "WELCOME10")))
            (cartSubtotal Sample.dbTaken (userId Sample.alice)) Sample.dbTaken
          = Some ("WELCOME10", Sample.WELCOME10)) by (vm_compute; reflexivity).
  assert (Hreach : reachesCheckout Sample.env Sample.alice
                     (Sample.checkout COD (Some "WELCOME10")) Sample.dbTaken).
  { split; [exists (Address.mk "user-alice"); split; vm_compute; reflexivity|].
    split; [|discriminate].
    eexists _, _. split; [vm_compute; reflexivity|discriminate]. }
  assert (Hconf : orderConflict Sample.env Sample.dbTaken).
  { right. apply orderNumberTaken_iff. exists "order-0", Sample.bobOrder.
    split; vm_compute; reflexivity. }
  pose (run := createOrder Sample.env (Some Sample.alice)
                 (Sample.checkout COD (Some "WELCOME10")) Sample.dbTaken).
  destruct (proj2 (proj2 (proj2
              (coupon_usage_precedes_order Sample.env Sample.alice
                 (Sample.checkout COD (Some "WELCOME10")) Sample.dbTaken run.1 run.2
                 "WELCOME10" Sample.WELCOME10 Happ (surjective_pairing run))))
              Hreach Hconf)
    as (Hr & Hused & Hos & Hrow & _).
  exists run.1. split; [exact Happ|]. split; [exact Hreach|]. split; [exact Hconf|].
  split; [rewrite <- Hr; apply surjective_pairing|].
  split; [exact Hused|]. split; [vm_compute; reflexivity|].
  split; [vm_compute; reflexivity|]. split; [exact Hos|exact Hrow].
Defined.

(** C2, as stated, fails: the usage is incremented by a write of its own,
    before the transaction that creates the order.  Here the generated
    order number is already taken, the transaction fails with a conflict,
    and the coupon's usedCount stays incremented, from 0 to 1, with no
    order created. *)
Lemma coupon_usage_survives_failed_order :
  ∃ db' e,
    createOrder Sample.env (Some Sample.alice)
      (Sample.checkout COD (Some "WELCOME10")) Sample.dbTaken = (db', inl e)
    ∧ errorHandler e = 409
    ∧ Coupon.usedCount <$> coupons Sample.dbTaken !! "WELCOME10" = Some 0
    ∧ Coupon.usedCount <$> coupons db' !! "WELCOME10" = Some 1
    ∧ orders db' = orders Sample.dbTaken
    ∧ ¬ orderRowCreated Sample.env Sample.dbTaken db'.
Proof.
  eexists _, _. split; [vm_compute; reflexivity|]. split; [reflexivity|].
  do 2 (split; [vm_compute; reflexivity|]). split.
  - vm_compute. reflexivity.
  - intros [_ [o Ho]]. vm_compute in Ho. discriminate.
Qed.

(** ** Coupon preview against checkout *)

(** C1 fails on the code.  For the coupon WELCOME10 and a subtotal of
    1000, with the code typed in lower case, the preview endpoint finds the
    coupon (it upper-cases the code) and returns a discount of 100, while
    createOrder looks the code up as typed, finds no coupon, and creates
    the order with discount 0. *)
Theorem preview_and_checkout_disagree :
  (∃ reply,
     validateCoupon Sample.env
       (ValidateCouponBody.mk (Some "welcome10") (Some 1000%float)) Sample.db
       = (Sample.db, inr reply)
     ∧ preview_discount (data reply) = 100%float)
  ∧ cartSubtotal Sample.db "user-alice" = 1000%float
  ∧ (∃ db' reply,
       createOrder Sample.env (Some Sample.alice)
         (Sample.checkout COD (Some "welcome10")) Sample.db = (db', inr reply)
       ∧ status reply = 201
       ∧ Order.discount (order (data reply)).2 = 0%float
       ∧ coupons db' = coupons Sample.db).
Proof.
  split; [|split].
  - eexists. split; [vm_compute; reflexivity|reflexivity].
  - vm_compute. reflexivity.
  - eexists _, _. split; [vm_compute; reflexivity|].
    split; [reflexivity|]. split; [reflexivity|]. vm_compute. reflexivity.
Qed.

(** ** Cancellation *)

Lemma restoreLine_inr i db db' :
  restoreLine i db = (db', inr tt) →
  products db' = alter (Product.addStock (OrderItem.quantity i)) (OrderItem.productId i)
                   (products db)
  ∧ variants db' =
      match orderItemVariant i with
      | Some j => alter (ProductVariant.addStock (OrderItem.quantity i)) j (variants db)
      | None => variants db
      end
  ∧ addresses db' = addresses db ∧ carts db' = carts db
  ∧ coupons db' = coupons db ∧ orders db' = orders db.
Proof.
  unfold restoreLine, orderItemVariant, variantKey.
  intros ([] & db1 & E1 & E2)%bind_inr.
  apply updateRow_inr in E1 as [_ ->].
  destruct (OrderItem.variantId i) as [v|]; simpl in *.
  - destruct (truthy v).
    + apply updateRow_inr in E2 as [_ ->]. done.
    + injection E2 as <-. done.
  - injection E2 as <-. done.
Qed.

Lemma forEach_restoreLine_inr items db db' :
  forEach restoreLine items db = (db', inr tt) →
  products db' =
    adjustAll orderItemProduct OrderItem.quantity Product.addStock (products db) items
  ∧ variants db' =
      adjustAll orderItemVariant OrderItem.quantity ProductVariant.addStock
        (variants db) items
  ∧ addresses db' = addresses db ∧ carts db' = carts db
  ∧ coupons db' = coupons db ∧ orders db' = orders db.
Proof.
  revert db. induction items as [|i items IH]; intros db; simpl.
  - by intros [= <-].
  - intros ([] & db1 & E1 & E2)%bind_inr.
    apply restoreLine_inr in E1 as (P & V & ? & ? & ? & ?).
    apply IH in E2 as (-> & -> & -> & -> & -> & ->).
    unfold adjustAll at 1 2. rewrite P, V. simpl. by destruct (orderItemVariant i).
Qed.

(** [cancelOrder], once the caller is known, as a case analysis on the
    gates it passes. *)
Lemma cancelOrder_run user id db :
  cancelOrder (Some user) id db =
    match orders db !! id with
    | None => (db, inl (NotFoundError "Order"))
    | Some o =>
        if negb (String.eqb (Order.userId o) (userId user))
        then (db, inl (AppError "Access denied" 403))
        else if negb (cancellable o)
        then (db, inl (AppError "Order cannot be cancelled at this stage" 400))
        else
          match forEach restoreLine (Order.items o) db with
          | (_, inl e) => (db, inl e)
          | (db1, inr _) =>
              (setOrders
                 (alter (Order.setStatus (Order.paymentStatus (cancelled o))
                           OrderStatus.CANCELLED) id) db1,
               inr (mkReply 200 tt))
          end
    end.
Proof.
  unfold cancelOrder, cancellable.
  rewrite (bind_step _ _ db db (orders db !! id)) by reflexivity.
  destruct (orders db !! id) as [o|] eqn:Eo; [|done].
  destruct (String.eqb _ _); simpl negb; cbv iota; [|done].
  rewrite (bind_step _ _ db db tt) by reflexivity.
  destruct (_ || _); simpl negb; cbv iota; [|done].
  rewrite (bind_step _ _ db db tt) by reflexivity.
  unfold mbind at 1, M_bind at 1, transaction. unfold mbind at 1, M_bind at 1.
  destruct (forEach restoreLine (Order.items o) db) as [db1 [e|[]]] eqn:Ef; [done|].
  apply forEach_restoreLine_inr in Ef as (_ & _ & _ & _ & _ & Hos).
  unfold prisma.order_update, prisma.updateRow. by rewrite Hos, Eo.
Qed.

(** An order that is neither PENDING nor CONFIRMED cannot be cancelled:
    the call fails with 400 and changes nothing. *)
Lemma cancelOrder_rejected user id db o :
  orders db !! id = Some o →
  Order.userId o = userId user →
  Order.orderStatus o ≠ OrderStatus.PENDING →
  Order.orderStatus o ≠ OrderStatus.CONFIRMED →
  cancelOrder (Some user) id db
    = (db, inl (AppError "Order cannot be cancelled at this stage" 400)).
Proof.
  intros Ho Hu H1 H2. rewrite cancelOrder_run, Ho, Hu, String.eqb_refl. simpl.
  unfold cancellable. by rewrite !bool_decide_eq_false_2 by done.
Qed.

(** A cancellation that succeeds adds the units of every item back to the
    product and variant counters, marks the order CANCELLED, and turns a
    PAID payment into REFUNDED. *)
Lemma cancelOrder_effects user id db db' reply :
  cancelOrder (Some user) id db = (db', inr reply) →
  ∃ o,
    orders db !! id = Some o
    ∧ Order.userId o = userId user
    ∧ cancellable o = true
    ∧ orders db' = <[id := cancelled o]> (orders db)
    ∧ stockRestored orderItemProduct orderItemVariant OrderItem.quantity
        (Order.items o) db db'
    ∧ carts db' = carts db ∧ coupons db' = coupons db.
Proof.
  rewrite cancelOrder_run.
  destruct (orders db !! id) as [o|] eqn:Eo; [|done].
  destruct (String.eqb _ _) eqn:Eu; [simpl|done].
  destruct (cancellable o) eqn:Ec; [simpl|done].
  destruct (forEach _ _ _) as [db1 [e|[]]] eqn:Ef; [done|].
  intros [= <- _]. apply forEach_restoreLine_inr in Ef as (P & V & _ & Hc & Hcp & Hos).
  exists o. split; [done|]. split; [by apply String.eqb_eq|]. split; [done|].
  simpl. split.
  { rewrite Hos. apply map_eq. intros k. rewrite lookup_alter, lookup_insert.
    case_decide; subst; by rewrite ?Eo. }
  split; [|done]. by apply adjustAll_stockRestored.
Qed.

Lemma unitsOf_orderItems key (q : OrderItem.t → Z) k lines :
  unitsOf key q k (orderItemOf <$> lines)
  = unitsOf (key ∘ orderItemOf) (q ∘ orderItemOf) k lines.
Proof. symmetry. apply unitsOf_fmap. Qed.

(** Cancelling a COD order that createOrder just created puts every
    product and variant counter back to its value before the order. *)
Lemma cancelOrder_after_COD env user body db db1 reply db2 reply2 :
  CreateOrderBody.paymentMethod body = COD →
  createOrder env (Some user) body db = (db1, inr reply) →
  cancelOrder (Some user) (order (data reply)).1 db1 = (db2, inr reply2) →
  products db2 = products db ∧ variants db2 = variants db.
Proof.
  intros Hpm H1 H2.
  pose proof H1 as H1'.
  apply createOrder_COD_effects in H1' as (u & cart & [= <-] & Hc & _ & Hos & Hs & _);
    [|done].
  apply stockDeducted_lookup in Hs as [Sp Sv].
  pose proof (createOrder_COD_status _ _ _ _ _ _ Hpm H1) as Hst.
  apply createOrder_created in H1 as (u' & cart' & lines & [= <-] & _ & Hc' & Hl & _ & _ & H1);
    [|done].
  rewrite Hc in Hc'. injection Hc' as <-.
  rewrite Hpm in H1. apply placeOrder_inr in H1 as (_ & _ & _ & _ & H1).
  rewrite Hpm in H1. destruct H1 as (-> & _).
  apply cancelOrder_effects in H2 as (o & Ho & _ & _ & _ & Hr & _).
  apply stockRestored_lookup in Hr as [Rp Rv].
  simpl in Ho, Hos. rewrite Hos, lookup_insert_eq in Ho. injection Ho as <-.
  apply mapM_loadLine_items in Hl. rewrite <- Hl in Sp, Sv. clear Hl Hst.
  split; apply map_eq; intros k.
  - rewrite Rp, Sp. unfold draftOrder. simpl Order.items.
    rewrite unitsOf_orderItems, <- (unitsOf_fmap item cartItemProduct CartItem.quantity).
    destruct (products db !! k); simpl; [|done].
    rewrite Product_addStock_add. f_equal.
    replace (_ + _) with 0; [apply Product_addStock_0|].
    match goal with |- 0 = - ?a + ?b => assert (a = b) as -> by done end. lia.
  - rewrite Rv, Sv. unfold draftOrder. simpl Order.items.
    rewrite unitsOf_orderItems, <- (unitsOf_fmap item cartItemVariant CartItem.quantity).
    destruct (variants db !! k); simpl; [|done].
    rewrite ProductVariant_addStock_add. f_equal.
    replace (_ + _) with 0; [apply ProductVariant_addStock_0|].
    match goal with |- 0 = - ?a + ?b => assert (a = b) as -> by done end. lia.
Qed.

Example cancelOrder_after_COD_sample :
  ∃ db1 reply db2 reply2,
    createOrder Sample.env (Some Sample.alice) (Sample.checkout COD None) Sample.db
      = (db1, inr reply)
    ∧ Product.stock <$> products db1 !! "helmet" = Some 4
    ∧ cancelOrder (Some Sample.alice) (order (data reply)).1 db1 = (db2, inr reply2)
    ∧ Product.stock <$> products db2 !! "helmet" = Some 5
    ∧ products db2 = products Sample.db ∧ variants db2 = variants Sample.db.
Proof.
  eexists _, _, _, _. split; [vm_compute; reflexivity|].
  split; [vm_compute; reflexivity|]. split; [vm_compute; reflexivity|].
  split; [vm_compute; reflexivity|].
  eapply (cancelOrder_after_COD Sample.env Sample.alice (Sample.checkout COD None));
    [reflexivity|vm_compute; reflexivity|vm_compute; reflexivity].
Qed.

(** C8 fails on the code.  A gateway order that was never paid is
    PENDING and its stock was never deducted; cancelOrder increments the
    stock of its items all the same, so product and variant end above
    their pre-order values (6 and 4 for 5 and 3). *)
Theorem cancelOrder_unpaid_gateway_order :
  ∃ db1 reply1 db2 reply2,
    createOrder Sample.env (Some Sample.alice) (Sample.checkout RAZORPAY None) Sample.db
      = (db1, inr reply1)
    ∧ (order (data reply1)).1 = "order-1"
    ∧ Product.stock <$> products Sample.db !! "helmet" = Some 5
    ∧ ProductVariant.stock <$> variants Sample.db !! "helmet-L" = Some 3
    ∧ Product.stock <$> products db1 !! "helmet" = Some 5
    ∧ ProductVariant.stock <$> variants db1 !! "helmet-L" = Some 3
    ∧ Order.orderStatus <$> orders db1 !! "order-1" = Some OrderStatus.PENDING
    ∧ cancelOrder (Some Sample.alice) "order-1" db1 = (db2, inr reply2)
    ∧ status reply2 = 200
    ∧ Order.orderStatus <$> orders db2 !! "order-1" = Some OrderStatus.CANCELLED
    ∧ Product.stock <$> products db2 !! "helmet" = Some 6
    ∧ ProductVariant.stock <$> variants db2 !! "helmet-L" = Some 4.
Proof.
  eexists _, _, _, _. split; [vm_compute; reflexivity|].
  do 6 (split; [vm_compute; reflexivity|]).
  split; [vm_compute; reflexivity|].
  do 3 (split; [vm_compute; reflexivity|]). vm_compute. reflexivity.
Qed.

(** * Properties of the rest of the order and payment code *)

(** ** createOrder: failures *)

(** X1.  createOrder with an address that does not exist, or that belongs
    to another user, fails with 404 "Address not found" and changes
    nothing, whatever the cart, the payment method and the coupon. *)
Theorem createOrder_foreign_address env user body db :
  ¬ ownsAddress db (userId user) (CreateOrderBody.addressId body) →
  createOrder env (Some user) body db = (db, inl (NotFoundError "Address"))
  ∧ errorHandler (NotFoundError "Address") = 404.
Proof.
  intros Hno. split; [|done]. rewrite createOrder_run.
  destruct (addresses db !! _) as [a|] eqn:Ea; [|done].
  destruct (String.eqb _ _) eqn:Eu; [|done].
  destruct Hno. exists a. split; [done|]. by apply String.eqb_eq.
Qed.

Lemma createOrder_foreign_address_witness :
  ¬ ownsAddress Sample.db (userId Sample.alice) "addr-bob"
  ∧ createOrder Sample.env (Some Sample.alice)
      (CreateOrderBody.mk "addr-bob" COD None None) Sample.db
    = (Sample.db, inl (NotFoundError "Address")).
Proof.
  assert (¬ ownsAddress Sample.db (userId Sample.alice) "addr-bob") as Hno.
  { intros (a & Ha & Hu). vm_compute in Ha. injection Ha as <-. discriminate Hu. }
  split; [exact Hno|].
  exact (proj1 (createOrder_foreign_address Sample.env Sample.alice
                  (CreateOrderBody.mk "addr-bob" COD None None) Sample.db Hno)).
Defined.

Lemma createRazorpayOrder_inl env amount receipt e :
  createRazorpayOrder env amount receipt = inl e → isGatewayError e.
Proof.
  unfold createRazorpayOrder, isGatewayError.
  destruct (if PrimFloat.leb amount 0 then _ else _) as [[message|]|rz]; [| |done].
  - destruct (includes _ _); intros [= <-]; auto.
  - intros [= <-]. auto.
Qed.

(** X2.  When the payment service fails (bad amount, missing
    credentials, gateway down, or an order the gateway rejects, on which
    the service's own [catch] block throws a TypeError), a gateway
    checkout is answered with a 500, but the order row it inserted before
    calling the gateway stays: a PENDING order of the caller with no
    gateway order id.  Stock and carts are unchanged. *)
Theorem createOrder_gateway_failure env user body db db' e :
  CreateOrderBody.paymentMethod body = RAZORPAY →
  createOrder env (Some user) body db = (db', inl e) →
  isGatewayError e →
  errorHandler e = 500
  ∧ orders db !! newOrderId env = None
  ∧ inventory db db'
  ∧ ∃ o,
      orders db' !! newOrderId env = Some o
      ∧ Order.userId o = userId user
      ∧ Order.paymentMethod o = RAZORPAY
      ∧ Order.paymentStatus o = PaymentStatus.PENDING
      ∧ Order.orderStatus o = OrderStatus.PENDING
      ∧ Order.razorpayOrderId o = None.
Proof.
  intros Hpm H He.
  split; [by destruct He as [-> | [-> | ->]]|].
  pose proof (createOrder_RAZORPAY_frame env (Some user) body Hpm _ _ _ H) as Hinv.
  rewrite createOrder_run in H.
  destruct (addresses db !! _) as [a|]; [|by destruct He as [-> | [-> | ->]]; simplify_eq].
  destruct (String.eqb _ _); [|by destruct He as [-> | [-> | ->]]; simplify_eq].
  destruct (cart_findUnique _ _) as [dbc [ec|[[cart lines]|]]] eqn:Ec.
  - apply cart_findUnique_frame with (R := eq) in Ec as Hdb; [|apply _].
    unfold cart_findUnique in Ec. destruct (carts db !! _); [|done].
    destruct (mapM _ _); [done|]. injection Ec as _ <-. injection H as _ <-.
    by destruct He as [[=] | [[=] | [=]]].
  - destruct lines as [|l lines]; [by destruct He as [-> | [-> | ->]]; simplify_eq|].
    rewrite Hpm in H.
    destruct (reusableOrder _ _ _); [done|].
    rewrite placeOrder_run in H. cbv zeta in H.
    set (db0 := sweepExpired _ _ db) in *.
    destruct (match appliedCoupon _ _ _ db0 with Some _ => _ | None => _ end)
      as [db1 discount] eqn:Ea.
    assert (orders db1 = orders db0) as Hos1.
    { destruct (appliedCoupon _ _ _ db0) as [[code coupon]|];
        injection Ea as <- _; done. }
    destruct (prisma.order_create _ _ db1) as [db2 [e2|newOrder]] eqn:Eo.
    { unfold prisma.order_create in Eo. destruct (_ || _); [|done].
      injection Eo as _ <-. injection H as _ <-. by destruct He as [[=] | [[=] | [=]]]. }
    apply order_create_inr in Eo as (-> & Hfresh & _ & ->).
    rewrite Hpm in H.
    destruct (createRazorpayOrder _ _ _) as [e3|rz]; [|done].
    injection H as <- <-.
    split.
    { rewrite Hos1 in Hfresh. unfold db0, sweepExpired in Hfresh. simpl in Hfresh.
      rewrite lookup_fmap in Hfresh. by destruct (orders db !! newOrderId env). }
    split; [done|].
    eexists. split; [simpl; apply lookup_insert_eq|].
    unfold draftOrder. simpl. by rewrite Hpm.
  - by destruct He as [-> | [-> | ->]]; simplify_eq.
Qed.

Lemma createOrder_gateway_failure_witness :
  ∃ db',
    createOrder Scenario.envGatewayRejects (Some Sample.alice)
      (Sample.checkout RAZORPAY None) Sample.db
    = (db', inl (PlainError "Cannot read properties of undefined (reading 'includes')"))
    ∧ Order.paymentStatus <$> orders db' !! "order-1" = Some PaymentStatus.PENDING
    ∧ Order.razorpayOrderId <$> orders db' !! "order-1" = Some None
    ∧ errorHandler
        (PlainError "Cannot read properties of undefined (reading 'includes')") = 500.
Proof.
  eexists. split; [vm_compute; reflexivity|].
  do 2 (split; [vm_compute; reflexivity|]).
  refine (proj1 (createOrder_gateway_failure Scenario.envGatewayRejects Sample.alice
                   (Sample.checkout RAZORPAY None) Sample.db _ _ eq_refl _ _)).
  - vm_compute. reflexivity.
  - right. by right.
Defined.



(** ** createOrder: the sweep of expired gateway orders *)

Lemma isExpiredPending_iff uid t o :
  isExpiredPending uid t o = true ↔ expiredPending uid t o.
Proof.
  unfold isExpiredPending, expiredPending.
  rewrite !andb_true_iff, !bool_decide_eq_true, String.eqb_eq, Z.ltb_lt. tauto.
Qed.

(** X4.  A gateway checkout that creates a new order (201) has first
    closed every expired attempt of the caller: each order of the caller
    that was a PENDING gateway order older than ten minutes is now
    CANCELLED with paymentStatus FAILED; every other order that existed,
    those of other users included, is unchanged. *)
Theorem createOrder_sweeps_expired env user body db db' reply :
  CreateOrderBody.paymentMethod body = RAZORPAY →
  createOrder env (Some user) body db = (db', inr reply) →
  status reply = 201 →
  ∀ id o, orders db !! id = Some o →
    ∃ o',
      orders db' !! id = Some o'
      ∧ (expiredPending (userId user) (now env - 10 * 60 * 1000) o →
         Order.orderStatus o' = OrderStatus.CANCELLED
         ∧ Order.paymentStatus o' = PaymentStatus.FAILED
         ∧ sameDetails o o')
      ∧ (¬ expiredPending (userId user) (now env - 10 * 60 * 1000) o → o' = o).
Proof.
  intros Hpm H Hst id o Ho.
  apply createOrder_created in H as (u & cart & lines & [= <-] & _ & _ & _ & _ & _ & H);
    [|done].
  rewrite Hpm in H. simpl in H.
  apply placeOrder_inr in H as (Hfresh & _ & _ & _ & H).
  rewrite Hpm in H. destruct H as (rz & _ & _ & -> & _).
  unfold sweepExpired, tenMinutesBefore in *. simpl in *.
  rewrite lookup_fmap in Hfresh.
  destruct (decide (id = newOrderId env)) as [->|Hne].
  { by rewrite Ho in Hfresh. }
  rewrite lookup_insert_ne, lookup_fmap, Ho by done. simpl.
  eexists. split; [done|].
  destruct (isExpiredPending _ _ o) eqn:E.
  - split; [intros _; by repeat split|].
    intros Hno. by apply isExpiredPending_iff in E.
  - split; [|done]. intros Hex%isExpiredPending_iff. congruence.
Qed.

Lemma createOrder_sweeps_expired_witness :
  ∃ db' reply,
    createOrder Scenario.envNext (Some Sample.alice) (Sample.checkout RAZORPAY None)
      Scenario.dbStale = (db', inr reply)
    ∧ status reply = 201
    ∧ Order.orderStatus <$> orders Scenario.dbStale !! "order-9"
      = Some OrderStatus.PENDING
    ∧ Order.orderStatus <$> orders db' !! "order-9" = Some OrderStatus.CANCELLED
    ∧ Order.paymentStatus <$> orders db' !! "order-9" = Some PaymentStatus.FAILED
    ∧ orders db' !! "order-0" = Some Sample.bobOrder.
Proof.
  pose (run := createOrder Scenario.envNext (Some Sample.alice)
                 (Sample.checkout RAZORPAY None) Scenario.dbStale).
  assert (∃ reply, run = (run.1, inr reply) ∧ status reply = 201) as (reply & H & Hst).
  { eexists. split; vm_compute; reflexivity. }
  exists run.1, reply. split; [exact H|]. split; [exact Hst|].
  split; [vm_compute; reflexivity|].
  destruct (createOrder_sweeps_expired Scenario.envNext Sample.alice
              (Sample.checkout RAZORPAY None) Scenario.dbStale _ _ eq_refl H Hst
              "order-9" Scenario.staleOrder eq_refl) as (o9 & Ho9 & Hswept & _).
  destruct Hswept as (Hos & Hps & _).
  { by repeat split. }
  destruct (createOrder_sweeps_expired Scenario.envNext Sample.alice
              (Sample.checkout RAZORPAY None) Scenario.dbStale _ _ eq_refl H Hst
              "order-0" Sample.bobOrder eq_refl) as (o0 & Ho0 & _ & Hkept).
  rewrite Ho9, Ho0. simpl. rewrite Hos, Hps.
  split; [reflexivity|]. split; [reflexivity|]. f_equal. apply Hkept.
  intros (_ & Hm & _). discriminate Hm.
Defined.

Lemma rowsExist_fmap {A B} (f : A → B) (pkey vkey : B → option string) xs db :
  rowsExist (pkey ∘ f) (vkey ∘ f) xs db ↔ rowsExist pkey vkey (f <$> xs) db.
Proof.
  unfold rowsExist. split.
  - intros H y (x & -> & Hx)%list_elem_of_fmap. by apply H.
  - intros H x Hx. apply (H (f x)). apply list_elem_of_fmap. eauto.
Qed.

Lemma mapM_loadLine_total db items :
  (∀ i, i ∈ items → is_Some (products db !! CartItem.productId i)) →
  is_Some (mapM (loadLine db) items).
Proof.
  intros H. apply mapM_is_Some, Forall_forall. intros i Hi.
  destruct (H i Hi) as [p Hp]. unfold loadLine. simpl. rewrite Hp. by eexists.
Qed.

Lemma order_create_fresh id o db :
  orders db !! id = None → ¬ orderNumberTaken db (Order.orderNumber o) →
  prisma.order_create id o db = (setOrders (insert id o) db, inr (id, o)).
Proof.
  intros Hid Hn. unfold prisma.order_create.
  rewrite (bool_decide_eq_false_2 (is_Some _)) by (rewrite Hid; by intros [? ?]).
  by rewrite (bool_decide_eq_false_2 (prisma.order_findMany _ db ≠ [])).
Qed.

(** X5.  A cash-on-delivery checkout succeeds exactly when the address
    is the caller's, the cart has at least one item, every product and
    variant row the items name exists, and the order id and order number
    drawn for it are free.  Nothing else is consulted: neither the stock
    counters nor the outcome of the coupon. *)
Theorem createOrder_COD_succeeds_iff env user body db :
  CreateOrderBody.paymentMethod body = COD →
  (∃ db' reply, createOrder env (Some user) body db = (db', inr reply))
  ↔ ownsAddress db (userId user) (CreateOrderBody.addressId body)
    ∧ orders db !! newOrderId env = None
    ∧ ¬ orderNumberTaken db (generateOrderNumber env)
    ∧ ∃ cart,
        carts db !! userId user = Some cart
        ∧ Cart.items cart ≠ []
        ∧ rowsExist cartItemProduct cartItemVariant (Cart.items cart) db.
Proof.
  intros Hpm. split.
  - intros (db' & reply & H).
    pose proof (createOrder_COD_status _ _ _ _ _ _ Hpm H) as Hst.
    apply createOrder_created in H
      as (u & cart & lines & [= <-] & Ha & Hc & Hl & Hne & _ & H); [|done].
    rewrite Hpm in H. simpl in H.
    pose proof (placeOrder_inr _ _ _ _ _ _ _ H) as (Hfresh & Hnt & _).
    do 3 (split; [done|]). exists cart. split; [done|].
    pose proof (mapM_loadLine_items _ _ _ Hl) as Hit.
    split; [rewrite <- Hit; by destruct lines|].
    rewrite placeOrder_run in H. cbv zeta in H.
    destruct (match appliedCoupon _ _ _ db with Some _ => _ | None => _ end)
      as [db1 discount] eqn:Ea.
    assert (sameRows db db1) as Hs1.
    { destruct (appliedCoupon _ _ _ db) as [[code coupon]|];
        injection Ea as <- _; by apply sameRows_of_eq. }
    destruct (prisma.order_create _ _ db1) as [db2 [e2|newOrder]] eqn:Eo; [done|].
    apply order_create_inr in Eo as (_ & _ & _ & ->).
    rewrite Hpm in H.
    destruct (deductCart lines _) as [db3 [e3|[]]] eqn:Ed; [done|].
    assert (∃ db3, deductCart lines (setOrders (insert (newOrderId env)
              (draftOrder env user body lines discount)) db1) = (db3, inr tt)) as Hex
      by eauto.
    apply forEach_deductLine_succeeds in Hex.
    rewrite <- Hit. apply rowsExist_fmap.
    eapply (rowsExist_sameRows _ _ _ _ db) in Hex; [exact Hex|].
    symmetry. etrans; [exact Hs1|]. by apply sameRows_of_eq.
  - intros ((a & Ha & Hu) & Hfresh & Hnt & cart & Hc & Hne & Hr).
    rewrite createOrder_run, Ha, Hu, String.eqb_refl.
    destruct (mapM (loadLine db) (Cart.items cart)) as [lines|] eqn:Hl.
    2:{ destruct (mapM_loadLine_total db (Cart.items cart)) as [? ?]; [|congruence].
        intros i Hi. by apply (Hr i Hi). }
    unfold cart_findUnique at 1. rewrite Hc, Hl.
    pose proof (mapM_loadLine_items _ _ _ Hl) as Hit.
    destruct lines as [|l lines]; [by rewrite <- Hit in Hne|].
    rewrite Hpm, placeOrder_run. cbv zeta.
    destruct (match appliedCoupon _ _ _ db with Some _ => _ | None => _ end)
      as [db1 discount] eqn:Ea.
    assert (sameRows db db1 ∧ orders db1 = orders db) as [Hs1 Hos1].
    { destruct (appliedCoupon _ _ _ db) as [[code coupon]|];
        injection Ea as <- _; (split; [by apply sameRows_of_eq|done]). }
    rewrite order_create_fresh; [|by rewrite Hos1|].
    2:{ unfold orderNumberTaken, prisma.order_findMany in *. simpl. by rewrite Hos1. }
    rewrite Hpm.
    destruct (proj2 (forEach_deductLine_succeeds
                (λ l, CartItem.variantId (item l)) (λ l, CartItem.productId (item l))
                (λ l, CartItem.quantity (item l)) (l :: lines)
                (setOrders (insert (newOrderId env)
                   (draftOrder env user body (l :: lines) discount)) db1)))
      as [db3 Ed].
    { eapply (rowsExist_sameRows _ _ _ db).
      - etrans; [exact Hs1|]. by apply sameRows_of_eq.
      - rewrite <- Hit in Hr. by apply rowsExist_fmap in Hr. }
    unfold deductCart. rewrite Ed. eauto.
Qed.

Lemma createOrder_COD_succeeds_iff_witness :
  Product.stock <$> products Scenario.dbSoldOut !! "helmet" = Some 0
  ∧ ∃ db' reply,
      createOrder Sample.env (Some Sample.alice) (Sample.checkout COD None)
        Scenario.dbSoldOut = (db', inr reply).
Proof.
  split; [vm_compute; reflexivity|].
  apply (createOrder_COD_succeeds_iff Sample.env Sample.alice
           (Sample.checkout COD None) Scenario.dbSoldOut eq_refl).
  split; [exists (Address.mk "user-alice"); split; vm_compute; reflexivity|].
  split; [vm_compute; reflexivity|].
  split; [intros H; apply H; vm_compute; reflexivity|].
  exists (Cart.mk [CartItem.mk "helmet" (Some "helmet-L") 1]).
  split; [vm_compute; reflexivity|]. split; [discriminate|].
  intros x ->%list_elem_of_singleton.
  split; intros k [= <-]; vm_compute; eexists; reflexivity.
Defined.

(** ** verifyPayment: who may confirm, and when *)

(** X6.  verifyPayment succeeds exactly when the three fields are
    present, the signature verifies, the order found under the gateway
    order id is the caller's, the gateway reports an amount within 0.01 of
    the order's total, and every product and variant row the order's items
    name exists.  The order's current payment and order status are never
    consulted. *)
Theorem verifyPayment_succeeds_iff env user body db :
  (∃ db' reply, verifyPayment env (Some user) body db = (db', inr reply))
  ↔ ∃ orderId o,
      gatewayOrder db (VerifyPaymentBody.razorpay_order_id body) = Some (orderId, o)
      ∧ gatesPassed env user body o
      ∧ rowsExist orderItemProduct orderItemVariant (Order.items o) db.
Proof.
  split.
  - intros (db' & reply & (orderId & o & db3 & Hg & Hp & Hd & _)%verifyPayment_succeeds).
    exists orderId, o. do 2 (split; [done|]).
    eapply (rowsExist_sameRows _ _ _ (setOrders _ db)); [by apply sameRows_of_eq|].
    apply (proj1 (forEach_deductLine_succeeds OrderItem.variantId OrderItem.productId
                    OrderItem.quantity (Order.items o) _)).
    eexists. exact Hd.
  - intros (orderId & o & Hg & Hp & Hr).
    destruct (proj2 (forEach_deductLine_succeeds OrderItem.variantId OrderItem.productId
                OrderItem.quantity (Order.items o)
                (setOrders
                   (alter (Order.setPaid (VerifyPaymentBody.razorpay_payment_id body)
                             (VerifyPaymentBody.razorpay_signature body)) orderId) db)))
      as [db3 Hd].
    { eapply (rowsExist_sameRows _ _ _ db); [by apply sameRows_of_eq|done]. }
    eexists _, _. apply verifyPayment_succeeds. by exists orderId, o, db3.
Qed.

(** X7.  A caller who holds a valid signature for a gateway order that is
    not theirs cannot confirm it: when no order under the gateway order id
    belongs to the caller, verifyPayment fails with 404 (no such order) or
    403 and changes nothing. *)
Theorem verifyPayment_foreign_order env user body db :
  completeBody body →
  verifyRazorpaySignature env (VerifyPaymentBody.razorpay_order_id body)
    (VerifyPaymentBody.razorpay_payment_id body)
    (VerifyPaymentBody.razorpay_signature body) = true →
  (∀ id o, orders db !! id = Some o →
     Order.razorpayOrderId o = Some (VerifyPaymentBody.razorpay_order_id body) →
     Order.userId o ≠ userId user) →
  ∃ e,
    verifyPayment env (Some user) body db = (db, inl e)
    ∧ (e = NotFoundError "Order"
       ∨ e = AppError "You are not authorized to verify this payment" 403).
Proof.
  intros Hc Hsig Hforeign. rewrite verifyPayment_run. cbv zeta.
  destruct Hc as (-> & -> & ->). rewrite Hsig. simpl.
  destruct (head _) as [[orderId o]|] eqn:Eh; [|eauto].
  apply order_findFirst_found in Eh as [Ho Hg%bool_decide_eq_true].
  destruct (String.eqb _ _) eqn:Eu; [|eauto].
  apply String.eqb_eq in Eu. by destruct (Hforeign orderId o).
Qed.

Lemma verifyPayment_foreign_order_witness :
  let body := Sample.payment "pay_1080" (Sample.sign "order_rzp_1" "pay_1080") in
  Order.userId <$> orders Sample.dbPending !! "order-1" = Some "user-alice"
  ∧ verifyPayment Sample.env (Some Sample.bob) body Sample.dbPending
    = (Sample.dbPending,
       inl (AppError "You are not authorized to verify this payment" 403)).
Proof.
  intros body. split; [vm_compute; reflexivity|].
  destruct (verifyPayment_foreign_order Sample.env Sample.bob body Sample.dbPending)
    as (e & He & [-> | ->]).
  - repeat split.
  - vm_compute. reflexivity.
  - intros id o Ho Hg Hu. apply elem_of_map_to_list in Ho.
    remember (map_to_list (orders Sample.dbPending)) as rows eqn:Er.
    vm_compute in Er. subst rows. apply list_elem_of_singleton in Ho.
    injection Ho as -> ->. discriminate Hu.
  - vm_compute in He. discriminate He.
  - exact He.
Defined.

(** X8.  When the payment's amount cannot be fetched from the gateway, a
    verification that passed the signature and ownership checks is
    answered 500 and nothing is written: the order is neither confirmed
    nor marked FAILED, so the same payment can be verified again later. *)
Theorem verifyPayment_gateway_unreachable env user body db orderId o e0 :
  completeBody body →
  verifyRazorpaySignature env (VerifyPaymentBody.razorpay_order_id body)
    (VerifyPaymentBody.razorpay_payment_id body)
    (VerifyPaymentBody.razorpay_signature body) = true →
  gatewayOrder db (VerifyPaymentBody.razorpay_order_id body) = Some (orderId, o) →
  Order.userId o = userId user →
  fetchPaymentDetails env (VerifyPaymentBody.razorpay_payment_id body) = inl e0 →
  verifyPayment env (Some user) body db
  = (db, inl (AppError "Could not verify payment amount" 500)).
Proof.
  intros Hc Hsig Hg Hu Hf. rewrite verifyPayment_run. cbv zeta.
  destruct Hc as (-> & -> & ->). unfold gatewayOrder in Hg.
  by rewrite Hsig, Hg, Hu, String.eqb_refl, Hf.
Qed.

Lemma verifyPayment_gateway_unreachable_witness :
  let body := Sample.payment "pay_7" (Sample.sign "order_rzp_1" "pay_7") in
  fetchPaymentDetails Sample.env "pay_7" = inl (PlainError "Could not fetch payment details")
  ∧ verifyPayment Sample.env (Some Sample.alice) body Sample.dbPending
    = (Sample.dbPending, inl (AppError "Could not verify payment amount" 500)).
Proof.
  intros body. split; [vm_compute; reflexivity|].
  pose (row := gatewayOrder Sample.dbPending "order_rzp_1").
  assert (∃ o, row = Some ("order-1", o) ∧ Order.userId o = "user-alice")
    as (o & Hrow & Hu) by (eexists; split; vm_compute; reflexivity).
  apply (verifyPayment_gateway_unreachable Sample.env Sample.alice body Sample.dbPending
           "order-1" o (PlainError "Could not fetch payment details")).
  - repeat split.
  - vm_compute. reflexivity.
  - exact Hrow.
  - exact Hu.
  - vm_compute. reflexivity.
Defined.

(** ** verifyPayment: the amount check and replays *)

Lemma gatewayOrder_unique db gid id o :
  gatewayIdUnique db gid →
  orders db !! id = Some o → Order.razorpayOrderId o = Some gid →
  gatewayOrder db gid = Some (id, o).
Proof.
  intros Hu Ho Hg. unfold gatewayOrder.
  assert ((id, o) ∈ prisma.order_findMany (hasGatewayId gid) db) as Hin.
  { apply order_findMany_elem. split; [done|]. by apply bool_decide_eq_true. }
  destruct (prisma.order_findMany (hasGatewayId gid) db) as [|[id' o'] rest] eqn:E.
  { by apply elem_of_nil in Hin. }
  assert ((id', o') ∈ prisma.order_findMany (hasGatewayId gid) db) as Hin'
    by (rewrite E; left).
  apply order_findMany_elem in Hin' as [Ho' Hg'%bool_decide_eq_true].
  assert (id' = id) as -> by eauto. simpl. by simplify_eq.
Qed.

Lemma forEach_deductLine_sameRows {A} (vid : A → option string) (pid : A → string)
    (q : A → Z) xs db db' :
  forEach (λ x, deductLine (vid x) (pid x) (q x)) xs db = (db', inr tt) →
  sameRows db db'.
Proof.
  revert db. induction xs as [|x xs IH]; intros db; simpl.
  { by intros [= <-]. }
  intros ([] & db1 & E1 & E2)%bind_inr.
  etrans; [by eapply deductLine_sameRows|by apply IH].
Qed.

Lemma Order_setPaid_idemp pid sig o :
  Order.setPaid pid sig (Order.setPaid pid sig o) = Order.setPaid pid sig o.
Proof. done. Qed.

(** X9.  verifyPayment can be replayed.  Where the gateway order id
    names one order, a verification that succeeded succeeds again when the
    same request is sent once more, with the same reply, and takes the
    order's quantities off the stock a second time: nothing records that
    the stock of a PAID order was already deducted. *)
Theorem verifyPayment_replay env user body db db1 reply :
  gatewayIdUnique db (VerifyPaymentBody.razorpay_order_id body) →
  verifyPayment env (Some user) body db = (db1, inr reply) →
  ∃ db2 o,
    verifyPayment env (Some user) body db1 = (db2, inr reply)
    ∧ orders db !! (data reply).1 = Some o
    ∧ stockDeducted orderItemProduct orderItemVariant OrderItem.quantity
        (Order.items o) db db1
    ∧ stockDeducted orderItemProduct orderItemVariant OrderItem.quantity
        (Order.items o) db1 db2.
Proof.
  intros Hu H.
  apply verifyPayment_succeeds in H as (orderId & o & db3 & Hg & Hp & Hd & -> & ->).
  set (gid := VerifyPaymentBody.razorpay_order_id body) in *.
  set (pid := VerifyPaymentBody.razorpay_payment_id body) in *.
  set (sig := VerifyPaymentBody.razorpay_signature body) in *.
  pose proof (order_findFirst_found _ _ _ _ Hg) as [Ho Hgid%bool_decide_eq_true].
  pose proof (forEach_deductLine_inr _ _ _ _ _ _ Hd) as (P0 & V0 & _ & _ & _ & Hos3).
  pose proof (forEach_deductLine_sameRows _ _ _ _ _ _ Hd) as Hrows.
  set (db1 := setCarts (alter Cart.clear (Order.userId o)) db3) in *.
  assert (orders db1 = alter (Order.setPaid pid sig) orderId (orders db)) as Hos1
    by exact Hos3.
  assert (gatewayOrder db1 gid = Some (orderId, Order.setPaid pid sig o)) as Hg1.
  { apply gatewayOrder_unique; [|by rewrite Hos1, lookup_alter_eq, Ho|done].
    intros id1 id2 o1 o2. rewrite Hos1, !lookup_alter_Some.
    intros [(-> & x1 & H1 & ->)|[_ H1]] [(-> & x2 & H2 & ->)|[? H2]] G1 G2;
      try done; eapply Hu; eauto. }
  assert (gatesPassed env user body (Order.setPaid pid sig o)) as Hp1.
  { destruct Hp as (Hc & Hs & Hr & Hus & amount & Hf & Hm).
    exact (conj Hc (conj Hs (conj Hr (conj Hus (ex_intro _ amount (conj Hf Hm)))))). }
  destruct (proj2 (forEach_deductLine_succeeds OrderItem.variantId OrderItem.productId
              OrderItem.quantity (Order.items o)
              (setOrders (alter (Order.setPaid pid sig) orderId) db1))) as [db4 Hd1].
  { eapply (rowsExist_sameRows _ _ _ (setOrders (alter (Order.setPaid pid sig) orderId) db)).
    - etrans; [exact Hrows|]. by apply sameRows_of_eq.
    - apply (proj1 (forEach_deductLine_succeeds OrderItem.variantId
                      OrderItem.productId OrderItem.quantity (Order.items o) _)).
      eexists. exact Hd. }
  exists (setCarts (alter Cart.clear (Order.userId o)) db4), o.
  split.
  { apply verifyPayment_succeeds. by exists orderId, (Order.setPaid pid sig o), db4. }
  split; [done|].
  split; [apply adjustAll_stockDeducted; [exact P0|exact V0]|].
  pose proof (forEach_deductLine_inr _ _ _ _ _ _ Hd1) as (P & V & _).
  apply adjustAll_stockDeducted; [exact P|exact V].
Qed.

Lemma verifyPayment_replay_witness :
  let body := Sample.payment "pay_1080" (Sample.sign "order_rzp_1" "pay_1080") in
  gatewayIdUnique Sample.dbPending "order_rzp_1"
  ∧ ∃ db1 db2 reply,
      verifyPayment Sample.env (Some Sample.alice) body Sample.dbPending
        = (db1, inr reply)
      ∧ verifyPayment Sample.env (Some Sample.alice) body db1 = (db2, inr reply)
      ∧ Product.stock <$> products Sample.dbPending !! "helmet" = Some 5
      ∧ Product.stock <$> products db1 !! "helmet" = Some 4
      ∧ Product.stock <$> products db2 !! "helmet" = Some 3.
Proof.
  intros body.
  assert (gatewayIdUnique Sample.dbPending "order_rzp_1") as Hu.
  { intros id1 id2 o1 o2 H1 H2 _ _.
    apply elem_of_map_to_list in H1, H2.
    remember (map_to_list (orders Sample.dbPending)) as rows eqn:Er.
    vm_compute in Er. subst rows.
    apply list_elem_of_singleton in H1, H2. congruence. }
  split; [exact Hu|].
  pose (run := verifyPayment Sample.env (Some Sample.alice) body Sample.dbPending).
  assert (∃ reply, run = (run.1, inr reply)) as (reply & H)
    by (eexists; vm_compute; reflexivity).
  destruct (verifyPayment_replay Sample.env Sample.alice body Sample.dbPending
              run.1 reply Hu H) as (db2 & o & H2 & _).
  exists run.1, db2, reply. split; [exact H|]. split; [exact H2|].
  split; [vm_compute; reflexivity|]. split; [vm_compute; reflexivity|].
  assert (db2 = (verifyPayment Sample.env (Some Sample.alice) body run.1).1) as ->
    by (rewrite H2; reflexivity).
  vm_compute. reflexivity.
Defined.

(** ** cancelOrder *)

Lemma restoreLine_inl i db db' e :
  restoreLine i db = (db', inl e) → e = PrismaKnownError "P2025".
Proof.
  unfold restoreLine. intros [E|([] & db1 & E1 & E2)]%bind_inl.
  - by apply updateRow_inl in E as (_ & -> & _).
  - destruct (OrderItem.variantId i) as [v|]; [|done].
    destruct (truthy v); [|done]. by apply updateRow_inl in E2 as (_ & -> & _).
Qed.

Lemma forEach_restoreLine_inl items db db' e :
  forEach restoreLine items db = (db', inl e) → e = PrismaKnownError "P2025".
Proof.
  revert db. induction items as [|i items IH]; intros db; simpl; [done|].
  intros [E|([] & db1 & E1 & E2)]%bind_inl; [by eapply restoreLine_inl|by eapply IH].
Qed.

(** X10.  cancelOrder is all or nothing, and never answers 500: a call
    that fails, for whatever reason (no caller, unknown order, another
    user's order, an order past CONFIRMED, a product or variant row that
    no longer exists), leaves the database exactly as it was, and its
    error is answered 401, 404, 403 or 400. *)
Theorem cancelOrder_failure_changes_nothing user id db db' e :
  cancelOrder user id db = (db', inl e) →
  db' = db ∧ errorHandler e ∈ [401; 404; 403; 400].
Proof.
  destruct user as [user|].
  2:{ intros [= <- <-]. split; [done|]. set_solver. }
  rewrite cancelOrder_run.
  destruct (orders db !! id) as [o|].
  2:{ intros [= <- <-]. split; [done|]. set_solver. }
  destruct (negb _).
  { intros [= <- <-]. split; [done|]. set_solver. }
  destruct (negb _).
  { intros [= <- <-]. split; [done|]. set_solver. }
  destruct (forEach _ _ _) as [db1 [e1|[]]] eqn:Ef; [|done].
  intros [= <- <-]. split; [done|].
  apply forEach_restoreLine_inl in Ef as ->. set_solver.
Qed.

Lemma cancelOrder_failure_changes_nothing_witness :
  ∃ e,
    cancelOrder (Some Sample.bob) "order-7" Scenario.dbGhost = (Scenario.dbGhost, inl e)
    ∧ e = PrismaKnownError "P2025"
    ∧ Product.stock <$> products Scenario.dbGhost !! "visor" = Some 10.
Proof.
  pose (run := cancelOrder (Some Sample.bob) "order-7" Scenario.dbGhost).
  assert (run = (run.1, inl (PrismaKnownError "P2025"))) as H
    by (vm_compute; reflexivity).
  destruct (cancelOrder_failure_changes_nothing _ _ _ _ _ H) as [Hdb _].
  exists (PrismaKnownError "P2025"). split; [by rewrite <- Hdb at 2|].
  split; [done|]. vm_compute. reflexivity.
Defined.

(** X11.  An order can be cancelled once.  After a cancellation that
    succeeded, cancelling the same order again is rejected with 400 and
    changes nothing, so its stock is not given back twice. *)
Theorem cancelOrder_twice user id db db1 reply :
  cancelOrder (Some user) id db = (db1, inr reply) →
  cancelOrder (Some user) id db1
  = (db1, inl (AppError "Order cannot be cancelled at this stage" 400)).
Proof.
  intros (o & Ho & Hu & _ & Hos & _)%cancelOrder_effects.
  rewrite cancelOrder_run, Hos, lookup_insert_eq. simpl.
  by rewrite Hu, String.eqb_refl.
Qed.

Lemma cancelOrder_twice_witness :
  ∃ db1 reply,
    cancelOrder (Some Sample.alice) "order-1" Sample.dbPending = (db1, inr reply)
    ∧ cancelOrder (Some Sample.alice) "order-1" db1
      = (db1, inl (AppError "Order cannot be cancelled at this stage" 400)).
Proof.
  pose (run := cancelOrder (Some Sample.alice) "order-1" Sample.dbPending).
  assert (run = (run.1, inr (mkReply 200 tt))) as H by (vm_compute; reflexivity).
  exists run.1, (mkReply 200 tt). split; [exact H|].
  exact (cancelOrder_twice Sample.alice "order-1" Sample.dbPending run.1 _ H).
Defined.

(** X12.  Cancelling a gateway order after its payment was verified
    puts every product and variant counter back to its value before the
    verification, and records the refund: the order is CANCELLED with
    paymentStatus REFUNDED.  The cart emptied by the verification stays
    empty. *)
Theorem cancelOrder_after_payment env user body db db1 reply db2 reply2 :
  verifyPayment env (Some user) body db = (db1, inr reply) →
  cancelOrder (Some user) (data reply).1 db1 = (db2, inr reply2) →
  products db2 = products db
  ∧ variants db2 = variants db
  ∧ carts db2 = carts db1
  ∧ ∃ o,
      orders db2 !! (data reply).1 = Some o
      ∧ Order.orderStatus o = OrderStatus.CANCELLED
      ∧ Order.paymentStatus o = PaymentStatus.REFUNDED.
Proof.
  intros H1 H2.
  apply verifyPayment_success in H1
    as (u & orderId & o & _ & _ & Ho & _ & -> & Hos & Hs & _).
  apply stockDeducted_lookup in Hs as [Sp Sv].
  apply cancelOrder_effects in H2 as (o1 & Ho1 & _ & _ & Hos2 & Hr & Hc & _).
  apply stockRestored_lookup in Hr as [Rp Rv].
  simpl in *. rewrite Hos, lookup_insert_eq in Ho1. injection Ho1 as <-.
  simpl in Rp, Rv.
  split; [|split; [|split; [done|]]].
  - apply map_eq. intros k. rewrite Rp, Sp.
    destruct (products db !! k); simpl; [|done].
    rewrite Product_addStock_add. f_equal.
    replace (_ + _) with 0 by lia. apply Product_addStock_0.
  - apply map_eq. intros k. rewrite Rv, Sv.
    destruct (variants db !! k); simpl; [|done].
    rewrite ProductVariant_addStock_add. f_equal.
    replace (_ + _) with 0 by lia. apply ProductVariant_addStock_0.
  - eexists. rewrite Hos2, lookup_insert_eq. done.
Qed.

Lemma cancelOrder_after_payment_witness :
  let body := Sample.payment "pay_1080" (Sample.sign "order_rzp_1" "pay_1080") in
  ∃ db1 reply db2 reply2,
    verifyPayment Sample.env (Some Sample.alice) body Sample.dbPending
      = (db1, inr reply)
    ∧ Product.stock <$> products db1 !! "helmet" = Some 4
    ∧ cancelOrder (Some Sample.alice) (data reply).1 db1 = (db2, inr reply2)
    ∧ products db2 = products Sample.dbPending
    ∧ variants db2 = variants Sample.dbPending
    ∧ Order.paymentStatus <$> orders db2 !! "order-1" = Some PaymentStatus.REFUNDED.
Proof.
  intros body.
  pose (run := verifyPayment Sample.env (Some Sample.alice) body Sample.dbPending).
  assert (∃ reply, run = (run.1, inr reply) ∧ (data reply).1 = "order-1")
    as (reply & H1 & Hid) by (eexists; split; vm_compute; reflexivity).
  pose (run2 := cancelOrder (Some Sample.alice) "order-1" run.1).
  assert (cancelOrder (Some Sample.alice) (data reply).1 run.1
          = (run2.1, inr (mkReply 200 tt))) as H2
    by (rewrite Hid; vm_compute; reflexivity).
  exists run.1, reply, run2.1, (mkReply 200 tt).
  split; [exact H1|]. split; [vm_compute; reflexivity|].
  split; [exact H2|].
  destruct (cancelOrder_after_payment Sample.env Sample.alice body Sample.dbPending
              _ _ _ _ H1 H2) as (Hp & Hv & _).
  split; [exact Hp|]. split; [exact Hv|]. vm_compute. reflexivity.
Defined.

(** X13.  Cancelling a cash-on-delivery order right after createOrder
    created it undoes the stock deduction and nothing else: every product
    and variant counter is back to its value before the order, while the
    cart stays emptied and a coupon applied to the order stays used. *)
Theorem cancelOrder_undoes_COD_stock env user body db db1 reply db2 reply2 :
  CreateOrderBody.paymentMethod body = COD →
  createOrder env (Some user) body db = (db1, inr reply) →
  cancelOrder (Some user) (order (data reply)).1 db1 = (db2, inr reply2) →
  products db2 = products db
  ∧ variants db2 = variants db
  ∧ cartCleared (userId user) db db2
  ∧ coupons db2 = coupons db1
  ∧ Order.orderStatus <$> orders db2 !! (order (data reply)).1
    = Some OrderStatus.CANCELLED.
Proof.
  intros Hpm H1 H2.
  destruct (cancelOrder_after_COD _ _ _ _ _ _ _ _ Hpm H1 H2) as [Hp Hv].
  do 2 (split; [done|]).
  apply createOrder_COD_effects in H1 as (u & cart & [= <-] & _ & _ & _ & _ & Hcl);
    [|done].
  apply cancelOrder_effects in H2 as (o & _ & _ & _ & Hos & _ & Hc & Hcp).
  split; [unfold cartCleared in *; by rewrite Hc|]. split; [done|].
  by rewrite Hos, lookup_insert_eq.
Qed.

Lemma cancelOrder_undoes_COD_stock_witness :
  ∃ db1 reply db2 reply2,
    createOrder Sample.env (Some Sample.alice) (Sample.checkout COD (Some "WELCOME10"))
      Sample.db = (db1, inr reply)
    ∧ cancelOrder (Some Sample.alice) (order (data reply)).1 db1 = (db2, inr reply2)
    ∧ products db2 = products Sample.db
    ∧ variants db2 = variants Sample.db
    ∧ carts db2 !! "user-alice" = Some (Cart.mk [])
    ∧ Coupon.usedCount <$> coupons db2 !! "WELCOME10" = Some 1.
Proof.
  pose (run := createOrder Sample.env (Some Sample.alice)
                 (Sample.checkout COD (Some "WELCOME10")) Sample.db).
  assert (∃ reply, run = (run.1, inr reply) ∧ (order (data reply)).1 = "order-1")
    as (reply & H1 & Hid) by (eexists; split; vm_compute; reflexivity).
  pose (run2 := cancelOrder (Some Sample.alice) "order-1" run.1).
  assert (cancelOrder (Some Sample.alice) (order (data reply)).1 run.1
          = (run2.1, inr (mkReply 200 tt))) as H2
    by (rewrite Hid; vm_compute; reflexivity).
  exists run.1, reply, run2.1, (mkReply 200 tt).
  split; [exact H1|]. split; [exact H2|].
  destruct (cancelOrder_undoes_COD_stock Sample.env Sample.alice
              (Sample.checkout COD (Some "WELCOME10")) Sample.db _ _ _ _
              eq_refl H1 H2) as (Hp & Hv & _).
  split; [exact Hp|]. split; [exact Hv|].
  split; vm_compute; reflexivity.
Defined.

(** ** validateCoupon *)

(** [validateCoupon] as a case analysis on the gates, in their order. *)
Lemma validateCoupon_run env body db :
  validateCoupon env body db =
    match ValidateCouponBody.couponCode body with
    | None => (db, inl (AppError "Coupon code is required" 400))
    | Some couponCode =>
        if negb (truthy couponCode)
        then (db, inl (AppError "Coupon code is required" 400))
        else
          match coupons db !! toUpperCase couponCode with
          | None => (db, inl (AppError "Invalid coupon code" 404))
          | Some coupon =>
              if negb (Coupon.isActive coupon)
              then (db, inl (AppError "This coupon is no longer active" 400))
              else if Coupon.usageLimit coupon <=? Coupon.usedCount coupon
              then (db, inl (AppError "This coupon has reached its usage limit" 400))
              else if now env <? Coupon.validFrom coupon
              then (db, inl (AppError "This coupon is not yet valid" 400))
              else if Coupon.validUntil coupon <? now env
              then (db, inl (AppError "This coupon has expired" 400))
              else if (0 <? previewSubtotal body)%float
                      && (previewSubtotal body <? Coupon.minPurchase coupon)%float
              then (db, inl (AppError
                               ("Minimum purchase of ₹"
                                +:+ Number.toString (Coupon.minPurchase coupon)
                                +:+ " required for this coupon") 400))
              else
                (db, inr (mkReply 200
                   (mkCouponPreview (toUpperCase couponCode) (Coupon.discountType coupon)
                      (Coupon.discountValue coupon)
                      (Math_round
                         (if (0 <? previewSubtotal body)%float
                          then checkoutDiscount (previewSubtotal body) coupon
                          else 0%float))
                      (Coupon.minPurchase coupon) (Coupon.maxDiscount coupon))))
          end
    end.
Proof.
  unfold validateCoupon, previewSubtotal.
  destruct (ValidateCouponBody.couponCode body) as [code|]; [|done].
  destruct (truthy code); [|done]. simpl negb. cbv iota.
  rewrite (bind_step _ _ db db tt) by reflexivity.
  rewrite (bind_step _ _ db db (coupons db !! toUpperCase code)) by reflexivity.
  destruct (coupons db !! toUpperCase code) as [coupon|]; [|done].
  destruct (Coupon.isActive coupon); [|done]. simpl negb. cbv iota.
  rewrite (bind_step _ _ db db tt) by reflexivity.
  destruct (Coupon.usageLimit coupon <=? Coupon.usedCount coupon); [done|].
  simpl negb. cbv iota.
  rewrite (bind_step _ _ db db tt) by reflexivity.
  destruct (now env <? Coupon.validFrom coupon); [done|]. simpl negb. cbv iota.
  rewrite (bind_step _ _ db db tt) by reflexivity.
  destruct (Coupon.validUntil coupon <? now env); [done|]. simpl negb. cbv iota.
  rewrite (bind_step _ _ db db tt) by reflexivity.
  destruct (PrimFloat.ltb 0 _ && PrimFloat.ltb _ _); [done|]. simpl negb. cbv iota.
  rewrite (bind_step _ _ db db tt) by reflexivity.
  reflexivity.
Qed.

(** X14.  The coupon preview only reads.  Whatever the request and the
    outcome, validateCoupon leaves the database as it was, so previewing
    never uses up a coupon; and a rejection is a 404 exactly when the
    code, in upper case, names no coupon, and a 400 otherwise. *)
Theorem validateCoupon_reads_only env body db db' r :
  validateCoupon env body db = (db', r) →
  db' = db
  ∧ ∀ e, r = inl e →
      (errorHandler e = 400 ∨ errorHandler e = 404)
      ∧ (errorHandler e = 404
         ↔ ∃ code, ValidateCouponBody.couponCode body = Some code
                   ∧ truthy code = true
                   ∧ coupons db !! toUpperCase code = None).
Proof.
  rewrite validateCoupon_run.
  assert (∀ msg, errorHandler (AppError msg 400) = 404 ↔ False) as H400 by done.
  destruct (ValidateCouponBody.couponCode body) as [code|].
  2:{ intros [= <- <-]. split; [done|]. intros e [= <-]. split; [by left|].
      rewrite H400. split; [done|]. by intros (? & ? & _). }
  destruct (truthy code) eqn:Et; simpl.
  2:{ intros [= <- <-]. split; [done|]. intros e [= <-]. split; [by left|].
      rewrite H400. split; [done|]. intros (? & [= <-] & ? & _). congruence. }
  destruct (coupons db !! toUpperCase code) as [coupon|] eqn:Ec.
  2:{ intros [= <- <-]. split; [done|]. intros e [= <-]. split; [by right|].
      split; [|done]. intros _. by exists code. }
  assert (∀ msg, (db, inl (AppError msg 400)) = (db', r) →
            db' = db
            ∧ ∀ e, r = inl e →
                (errorHandler e = 400 ∨ errorHandler e = 404)
                ∧ (errorHandler e = 404
                   ↔ ∃ code0, Some code = Some code0 ∧ truthy code0 = true
                              ∧ coupons db !! toUpperCase code0 = None)) as Hgate.
  { intros msg [= <- <-]. split; [done|]. intros e [= <-]. split; [by left|].
    rewrite H400. split; [done|]. intros (? & [= <-] & _ & ?). congruence. }
  destruct (negb _); [apply Hgate|].
  destruct (Coupon.usageLimit coupon <=? Coupon.usedCount coupon); [apply Hgate|].
  destruct (now env <? Coupon.validFrom coupon); [apply Hgate|].
  destruct (Coupon.validUntil coupon <? now env); [apply Hgate|].
  destruct (_ && _); [apply Hgate|].
  intros [= <- <-]. split; [done|]. intros e [=].
Qed.

Lemma validateCoupon_reads_only_witness :
  validateCoupon Sample.env (ValidateCouponBody.mk (Some "SUMMER50") (Some 1000%float))
    Sample.db
  = (Sample.db, inl (AppError "Invalid coupon code" 404)).
Proof.
  pose (run := validateCoupon Sample.env
                 (ValidateCouponBody.mk (Some "SUMMER50") (Some 1000%float)) Sample.db).
  assert (run = (run.1, inl (AppError "Invalid coupon code" 404))) as H
    by (vm_compute; reflexivity).
  destruct (validateCoupon_reads_only _ _ _ _ _ H) as [Hdb _].
  by rewrite <- Hdb at 2.
Defined.

(** X15.  A preview without a subtotal skips the minimum-purchase gate.
    When the request carries no subtotal, or one that is not greater than
    0 (a subtotal of 0 counts as absent), validateCoupon reports every
    coupon that is active, not used up and within its dates as valid, with
    a discount of 0, whatever the coupon's minimum purchase. *)
Theorem validateCoupon_without_subtotal env body db code coupon :
  ValidateCouponBody.couponCode body = Some code →
  truthy code = true →
  coupons db !! toUpperCase code = Some coupon →
  previewable (now env) coupon = true →
  (0 <? previewSubtotal body)%float = false →
  ∃ reply,
    validateCoupon env body db = (db, inr reply)
    ∧ status reply = 200
    ∧ preview_discount (data reply) = 0%float
    ∧ preview_minPurchase (data reply) = Coupon.minPurchase coupon.
Proof.
  intros Hcode Ht Hc Hp Hs. rewrite validateCoupon_run, Hcode, Ht, Hc. simpl.
  unfold previewable in Hp.
  apply andb_true_iff in Hp as [[[-> ->%negb_true_iff]%andb_true_iff
                                  ->%negb_true_iff]%andb_true_iff ->%negb_true_iff].
  simpl. rewrite Hs. simpl. eexists. split; [done|]. by repeat split.
Qed.

Lemma validateCoupon_without_subtotal_witness :
  Coupon.minPurchase Sample.HELMET20 = 2000%float
  ∧ ∃ reply,
      validateCoupon Sample.env (ValidateCouponBody.mk (Some "helmet20") None) Sample.db
        = (Sample.db, inr reply)
      ∧ status reply = 200
      ∧ preview_discount (data reply) = 0%float
      ∧ preview_minPurchase (data reply) = 2000%float.
Proof.
  split; [reflexivity|].
  apply (validateCoupon_without_subtotal Sample.env
           (ValidateCouponBody.mk (Some "helmet20") None) Sample.db "helmet20"
           Sample.HELMET20); reflexivity.
Defined.

(** X16.  Below the minimum purchase.  For a coupon that is active, not
    used up and within its dates, a preview with a subtotal greater than 0
    and below the coupon's minimum purchase is refused with 400; the
    message names that minimum the way JavaScript prints the number, and
    nothing is written. *)
Theorem validateCoupon_below_minimum env body db code coupon :
  ValidateCouponBody.couponCode body = Some code →
  truthy code = true →
  coupons db !! toUpperCase code = Some coupon →
  previewable (now env) coupon = true →
  (0 <? previewSubtotal body)%float = true →
  (previewSubtotal body <? Coupon.minPurchase coupon)%float = true →
  validateCoupon env body db
  = (db, inl (AppError
                ("Minimum purchase of ₹" +:+ Number.toString (Coupon.minPurchase coupon)
                 +:+ " required for this coupon") 400)).
Proof.
  intros Hcode Ht Hc Hp Hpos Hlow. rewrite validateCoupon_run, Hcode, Ht, Hc. simpl.
  unfold previewable in Hp.
  apply andb_true_iff in Hp as [[[-> ->%negb_true_iff]%andb_true_iff
                                  ->%negb_true_iff]%andb_true_iff ->%negb_true_iff].
  simpl. by rewrite Hpos, Hlow.
Qed.

Lemma validateCoupon_below_minimum_witness :
  validateCoupon Sample.env (ValidateCouponBody.mk (Some "helmet20") (Some 1999.5%float))
    Sample.db
  = (Sample.db,
     inl (AppError "Minimum purchase of ₹2000 required for this coupon" 400)).
Proof.
  exact (validateCoupon_below_minimum Sample.env
           (ValidateCouponBody.mk (Some "helmet20") (Some 1999.5%float)) Sample.db
           "helmet20" Sample.HELMET20 eq_refl eq_refl eq_refl eq_refl eq_refl eq_refl).
Defined.

(** X17.  createRazorpayOrder refuses an amount for which [amount <= 0]
    holds before it reads the credentials or calls the gateway; it
    succeeds exactly when that test fails (as it does for an amount that
    is not a number), both credentials are configured and the gateway
    accepts an order of [Math.round(amount * 100)] paise; and whatever
    goes wrong, the caller never sees the gateway's own text: the error is
    one of the two fixed messages of the [catch] block, or, for a
    rejection that carries no [message], the TypeError the block runs
    into. *)
Theorem createRazorpayOrder_outcomes env amount receipt :
  ((amount <=? 0)%float = true →
   createRazorpayOrder env amount receipt = inl (PlainError "Invalid payment details"))
  ∧ (∀ rz,
       createRazorpayOrder env amount receipt = inr rz
       ↔ (amount <=? 0)%float = false
         ∧ getRazorpayInstance env = None
         ∧ razorpay_orders_create env (Math_round (amount * 100)%float) receipt = inr rz)
  ∧ (∀ e, createRazorpayOrder env amount receipt = inl e → isGatewayError e)
  ∧ ((amount <=? 0)%float = false → getRazorpayInstance env = None →
     razorpay_orders_create env (Math_round (amount * 100)%float) receipt = inl None →
     createRazorpayOrder env amount receipt
     = inl (PlainError "Cannot read properties of undefined (reading 'includes')"))
  ∧ (PrimFloat.nan <=? 0)%float = false.
Proof.
  split; [|split; [|split; [apply createRazorpayOrder_inl|split; [|done]]]].
  - intros Hle. unfold createRazorpayOrder. by rewrite Hle.
  - intros rz. unfold createRazorpayOrder.
    destruct (amount <=? 0)%float eqn:E.
    { split; [by destruct (includes _ _)|]. by intros [? _]. }
    destruct (getRazorpayInstance env) as [message|].
    { split; [by destruct (includes _ _)|]. by intros (_ & ? & _). }
    destruct (razorpay_orders_create _ _ _) as [[message|]|order].
    { split; [by destruct (includes _ _)|]. by intros (_ & _ & ?). }
    { split; [done|]. by intros (_ & _ & ?). }
    split; [by intros [= ->]|]. by intros (_ & _ & [= ->]).
  - intros Hle Hi Hg. unfold createRazorpayOrder. by rewrite Hle, Hi, Hg.
Qed.

Lemma createRazorpayOrder_outcomes_witness :
  createRazorpayOrder Scenario.envGatewayRejects 1080 "HLM-20260208-A1B2"
  = inl (PlainError "Cannot read properties of undefined (reading 'includes')")
  ∧ createRazorpayOrder Sample.env (-1) "HLM-20260208-A1B2"
    = inl (PlainError "Invalid payment details").
Proof.
  split.
  - apply (proj1 (proj2 (proj2 (proj2
             (createRazorpayOrder_outcomes Scenario.envGatewayRejects 1080
                "HLM-20260208-A1B2"))))); reflexivity.
  - apply (proj1 (createRazorpayOrder_outcomes Sample.env (-1) "HLM-20260208-A1B2")).
    reflexivity.
Defined.

Lemma unhex_upperChar c : Buffer.unhex (upperChar c) = Buffer.unhex c.
Proof. by destruct c as [[] [] [] [] [] [] [] []]. Qed.

Lemma from_hex_toUpperCase s :
  Buffer.from_hex (toUpperCase s) = Buffer.from_hex s.
Proof.
  enough (∀ n s, (String.length s ≤ n)%nat →
            Buffer.from_hex (toUpperCase s) = Buffer.from_hex s) as H
    by (by apply (H (String.length s))).
  clear s. induction n as [|n IH]; intros [|a [|b rest]] Hn; try done;
    simpl in Hn; try lia.
  cbn [toUpperCase Buffer.from_hex]. rewrite !unhex_upperChar, IH by lia. done.
Qed.

(** X18.  Signature verification does not distinguish the case of the
    hexadecimal digits: a signature written in upper case is accepted or
    rejected exactly as the same signature in lower case, the form in
    which the gateway issues it. *)
Theorem verifyRazorpaySignature_ignores_case env orderId paymentId signature :
  verifyRazorpaySignature env orderId paymentId (toUpperCase signature)
  = verifyRazorpaySignature env orderId paymentId signature.
Proof. unfold verifyRazorpaySignature. by rewrite from_hex_toUpperCase. Qed.

(** X19.  Without a configured secret no payment can be confirmed.  When
    RAZORPAY_KEY_SECRET is unset or empty, every verification request that
    carries its three fields, one with the gateway's genuine signature
    included, fails with 400 and marks every order under that gateway
    order id as FAILED. *)
Theorem verifyPayment_without_secret env user body db :
  completeBody body →
  truthyOpt (RAZORPAY_KEY_SECRET env) = false →
  let gid := VerifyPaymentBody.razorpay_order_id body in
  verifyPayment env (Some user) body db
  = (failGatewayOrders gid db, inl (AppError "Payment verification failed" 400))
  ∧ gatewayOrdersFailed gid db (failGatewayOrders gid db).
Proof.
  intros Hc Hs gid. split; [|apply failGatewayOrders_failed].
  rewrite verifyPayment_run. cbv zeta. destruct Hc as (-> & -> & ->).
  assert (verifyRazorpaySignature env (VerifyPaymentBody.razorpay_order_id body)
            (VerifyPaymentBody.razorpay_payment_id body)
            (VerifyPaymentBody.razorpay_signature body) = false) as ->; [|done].
  unfold verifyRazorpaySignature, truthyOpt in *.
  destruct (RAZORPAY_KEY_SECRET env) as [secret|]; [|done]. by rewrite Hs.
Qed.

Lemma verifyPayment_without_secret_witness :
  let body := Sample.payment "pay_1080" (Sample.sign "order_rzp_1" "pay_1080") in
  ∃ db',
    verifyPayment Scenario.envNoSecret (Some Sample.alice) body Sample.dbPending
    = (db', inl (AppError "Payment verification failed" 400))
    ∧ Order.paymentStatus <$> orders db' !! "order-1" = Some PaymentStatus.FAILED.
Proof.
  intros body. exists (failGatewayOrders "order_rzp_1" Sample.dbPending).
  split; [|vm_compute; reflexivity].
  apply (verifyPayment_without_secret Scenario.envNoSecret Sample.alice body
           Sample.dbPending); [repeat split|reflexivity].
Defined.

(** ** getOrderById *)

(** X20.  getOrderById only reads, and shows an order to its owner and to
    administrators only: the call answers 200 with the order exactly when
    the order exists and the caller either owns it or has the role ADMIN;
    whatever the outcome, the database is unchanged. *)
Theorem getOrderById_access user id db :
  (getOrderById (Some user) id db).1 = db
  ∧ ∀ reply,
      (getOrderById (Some user) id db).2 = inr reply
      ↔ ∃ o, orders db !! id = Some o
             ∧ (Order.userId o = userId user ∨ role user = "ADMIN")
             ∧ reply = mkReply 200 (id, o).
Proof.
  unfold getOrderById.
  rewrite (bind_step _ _ db db (orders db !! id)) by reflexivity.
  destruct (orders db !! id) as [o|]; simpl.
  2:{ split; [done|]. intros reply. split; [done|]. by intros (? & ? & _). }
  destruct (String.eqb_spec (Order.userId o) (userId user)) as [Eu|Eu];
    destruct (String.eqb_spec (role user) "ADMIN") as [Er|Er]; simpl;
    (split; [done|]); intros reply.
  - split; [intros [= <-]; exists o; auto|by intros (? & [= <-] & _ & ->)].
  - split; [intros [= <-]; exists o; auto|by intros (? & [= <-] & _ & ->)].
  - split; [intros [= <-]; exists o; auto|by intros (? & [= <-] & _ & ->)].
  - split; [done|]. by intros (? & [= <-] & [?|?] & _).
Qed.

(** X21.  The role ADMIN opens getOrderById but not cancelOrder: an
    administrator reads another user's order with 200, and is refused with
    403 when cancelling it, nothing being changed. *)
Theorem admin_reads_but_cannot_cancel user id db o :
  orders db !! id = Some o →
  role user = "ADMIN" →
  Order.userId o ≠ userId user →
  getOrderById (Some user) id db = (db, inr (mkReply 200 (id, o)))
  ∧ cancelOrder (Some user) id db = (db, inl (AppError "Access denied" 403)).
Proof.
  intros Ho Hr Hu. split.
  - unfold getOrderById.
    rewrite (bind_step _ _ db db (orders db !! id)) by reflexivity.
    rewrite Ho, Hr. simpl. by rewrite andb_false_r.
  - rewrite cancelOrder_run, Ho. by apply String.eqb_neq in Hu as ->.
Qed.

Lemma admin_reads_but_cannot_cancel_witness :
  ∃ o,
    orders Sample.dbPending !! "order-1" = Some o
    ∧ Order.userId o = "user-alice"
    ∧ getOrderById (Some Scenario.admin) "order-1" Sample.dbPending
      = (Sample.dbPending, inr (mkReply 200 ("order-1", o)))
    ∧ cancelOrder (Some Scenario.admin) "order-1" Sample.dbPending
      = (Sample.dbPending, inl (AppError "Access denied" 403)).
Proof.
  pose (row := orders Sample.dbPending !! "order-1").
  assert (∃ o, row = Some o ∧ Order.userId o = "user-alice") as (o & Ho & Hu)
    by (eexists; split; vm_compute; reflexivity).
  exists o. do 2 (split; [done|]).
  apply (admin_reads_but_cannot_cancel Scenario.admin "order-1" Sample.dbPending o Ho);
    [reflexivity|]. rewrite Hu. discriminate.
Defined.

(** ** getUserOrders *)

#[global] Instance newerFirst_trans : Transitive newerFirst.
Proof. unfold newerFirst. intros a b c. lia. Qed.

#[global] Instance newerFirst_total : Total newerFirst.
Proof. unfold newerFirst. intros a b. lia. Qed.




Lemma ordersOf_length uid db :
  Z.of_nat (length (ordersOf uid db)) = order_count (ownedBy uid) db.
Proof. unfold ordersOf, order_count. by rewrite merge_sort_Permutation. Qed.

Lemma Qceiling_div_lt (p t l : Z) :
  0 < l → p < Qceiling (inject_Z t / inject_Z l) ↔ p * l < t.
Proof.
  intros Hl.
  assert (0 < inject_Z l)%Q as Hl'.
  { change (inject_Z 0 < inject_Z l)%Q. by rewrite <- Zlt_Qlt. }
  split.
  - intros H. destruct (Z_lt_le_dec (p * l) t) as [|Hle]; [done|]. exfalso.
    assert (inject_Z t / inject_Z l <= inject_Z p)%Q as Hq.
    { apply Qle_shift_div_r; [done|]. rewrite <- inject_Z_mult. by rewrite <- Zle_Qle. }
    apply Qceiling_resp_le in Hq. rewrite Qceiling_Z in Hq. lia.
  - intros H. rewrite Zlt_Qlt.
    eapply Qlt_le_trans; [|apply Qle_ceiling].
    apply Qlt_shift_div_l; [done|]. rewrite <- inject_Z_mult. by rewrite <- Zlt_Qlt.
Qed.

(** [getUserOrders], once the caller is known. *)
Lemma getUserOrders_run user page limit db :
  getUserOrders (Some user) page limit db =
    let pageNum := Z.max 1 page in
    let limitNum := Z.min 50 limit in
    let total := order_count (ownedBy (userId user)) db in
    let totalPages := Qceiling (inject_Z total / inject_Z limitNum) in
    (db, inr (mkReply 200
       (PaginatedResponse.mk
          (take (Z.to_nat limitNum)
             (drop (Z.to_nat ((pageNum - 1) * limitNum)) (ordersOf (userId user) db)))
          total pageNum limitNum totalPages (pageNum <? totalPages) (1 <? pageNum)))).
Proof. reflexivity. Qed.



(** X23.  [hasNext] tells the truth: for a limit of at least 1, a page of
    GET /api/orders answers [hasNext] exactly when the caller has more
    orders than this page and the pages before it hold, and [hasPrev]
    exactly when the page is not the first; the page number is clamped to
    at least 1 and the limit to at most 50. *)
Theorem getUserOrders_hasNext user page limit db :
  1 ≤ limit →
  ∃ p,
    getUserOrders (Some user) page limit db = (db, inr (mkReply 200 p))
    ∧ PaginatedResponse.page p = Z.max 1 page
    ∧ PaginatedResponse.limit p = Z.min 50 limit
    ∧ (PaginatedResponse.hasNext p = true
       ↔ (PaginatedResponse.page p - 1) * PaginatedResponse.limit p
         + Z.of_nat (length (PaginatedResponse.items p))
         < PaginatedResponse.total p)
    ∧ (PaginatedResponse.hasPrev p = true ↔ 1 < page).
Proof.
  intros Hl. rewrite getUserOrders_run. cbv zeta. eexists. split; [reflexivity|].
  simpl. do 2 (split; [done|]).
  rewrite <- ordersOf_length.
  set (rows := ordersOf (userId user) db).
  set (P := Z.max 1 page). set (L := Z.min 50 limit).
  assert (1 ≤ P) as HP by lia. assert (1 ≤ L) as HL by lia.
  split; [|rewrite Z.ltb_lt; lia].
  rewrite Z.ltb_lt, Qceiling_div_lt by lia.
  rewrite length_take, length_drop.
  assert (0 ≤ (P - 1) * L) as HS by nia.
  replace (P * L) with ((P - 1) * L + L) by ring.
  generalize dependent ((P - 1) * L). intros S HS. lia.
Qed.

Lemma getUserOrders_hasNext_witness :
  ∃ p,
    getUserOrders (Some Sample.alice) 1 2 Scenario.dbHistory
    = (Scenario.dbHistory, inr (mkReply 200 p))
    ∧ PaginatedResponse.total p = 3
    ∧ length (PaginatedResponse.items p) = 2%nat
    ∧ PaginatedResponse.hasNext p = true.
Proof.
  destruct (getUserOrders_hasNext Sample.alice 1 2 Scenario.dbHistory) as (p & H & _);
    [lia|].
  exists p. split; [exact H|].
  assert (p = (match (getUserOrders (Some Sample.alice) 1 2 Scenario.dbHistory).2 with
               | inr r => data r
               | inl _ => p
               end)) as -> by (by rewrite H).
  repeat split; vm_compute; reflexivity.
Defined.

Lemma concat_chunks {A} (n : nat) (l : list A) (t : nat) :
  (length l ≤ t * n)%nat →
  concat ((λ i, take n (drop (i * n) l)) <$> seq 0 t) = l.
Proof.
  revert l. induction t as [|t IH]; intros l Hlen; simpl.
  { destruct l; [done|simpl in Hlen; lia]. }
  rewrite drop_0, <- fmap_S_seq, <- list_fmap_compose.
  rewrite <- (take_drop n l) at 2. f_equal.
  rewrite <- (IH (drop n l)) by (rewrite length_drop; lia).
  f_equal. apply list_fmap_ext. intros _ i _. simpl.
  by rewrite drop_drop.
Qed.

(** X24.  The pages of GET /api/orders cover the caller's orders.  For a
    limit of at least 1 and a database that does not change between the
    requests, the pages 1 to [totalPages], one after the other, list every
    order of the caller exactly once, newest first. *)
Theorem getUserOrders_pages_cover user limit db p :
  1 ≤ limit →
  getUserOrders (Some user) 1 limit db = (db, inr (mkReply 200 p)) →
  concat (pageItems user limit db <$> seqZ 1 (PaginatedResponse.totalPages p))
  = ordersOf (userId user) db.
Proof.
  intros Hl. rewrite getUserOrders_run. cbv zeta. intros [= <-]. simpl.
  set (L := Z.min 50 limit). assert (1 ≤ L) as HL by lia.
  set (rows := ordersOf (userId user) db).
  set (T := Qceiling _).
  assert (Z.of_nat (length rows) ≤ T * L) as Hcover.
  { destruct (Z_lt_le_dec (T * L) (Z.of_nat (length rows))) as [Hlt|]; [|done].
    apply Qceiling_div_lt in Hlt; [|lia].
    unfold rows in Hlt. rewrite ordersOf_length in Hlt. fold T in Hlt. lia. }
  unfold seqZ. rewrite <- list_fmap_compose.
  etrans; [|apply (concat_chunks (Z.to_nat L) rows (Z.to_nat T)); nia].
  f_equal. apply list_fmap_ext. intros _ i _. simpl.
  unfold pageItems. rewrite getUserOrders_run. cbv zeta. simpl.
  fold rows L. do 2 f_equal. nia.
Qed.

Lemma getUserOrders_pages_cover_witness :
  ∃ p,
    getUserOrders (Some Sample.alice) 1 2 Scenario.dbHistory
    = (Scenario.dbHistory, inr (mkReply 200 p))
    ∧ PaginatedResponse.totalPages p = 2
    ∧ fst <$> concat (pageItems Sample.alice 2 Scenario.dbHistory <$> seqZ 1 2)
      = ["order-c"; "order-b"; "order-a"]
    ∧ concat (pageItems Sample.alice 2 Scenario.dbHistory
                <$> seqZ 1 (PaginatedResponse.totalPages p))
      = ordersOf (userId Sample.alice) Scenario.dbHistory.
Proof.
  pose (run := getUserOrders (Some Sample.alice) 1 2 Scenario.dbHistory).
  assert (∃ p, run = (Scenario.dbHistory, inr (mkReply 200 p))
               ∧ PaginatedResponse.totalPages p = 2) as (p & H & Ht)
    by (eexists; split; vm_compute; reflexivity).
  exists p. do 2 (split; [done|]). split; [vm_compute; reflexivity|].
  apply (getUserOrders_pages_cover Sample.alice 2 Scenario.dbHistory p); [lia|exact H].
Defined.

(** ** generateOrderNumber *)

Lemma length_append s t :
  String.length (String.append s t) = (String.length s + String.length t)%nat.
Proof. induction s as [|c s IH]; [done|]. rewrite append_String. cbn. by rewrite IH. Qed.

Lemma allChars_append P s t :
  allChars P (String.append s t) = allChars P s && allChars P t.
Proof.
  induction s as [|c s IH]; [done|]. rewrite append_String. cbn.
  by rewrite IH, andb_assoc.
Qed.

Lemma append_assoc s t u :
  String.append (String.append s t) u = String.append s (String.append t u).
Proof. induction s as [|c s IH]; [done|]. rewrite !append_String. by rewrite IH. Qed.

Lemma length_toUpperCase s : String.length (toUpperCase s) = String.length s.
Proof. induction s as [|c s IH]; [done|]. cbn. by rewrite IH. Qed.

Lemma length_substring_le n m s : (String.length (substring n m s) ≤ m)%nat.
Proof.
  revert n m. induction s as [|c s IH]; intros [|n] [|m]; cbn; try lia.
  - specialize (IH 0%nat m). lia.
  - apply (IH n 0%nat).
  - apply (IH n (S m)).
Qed.

Lemma digitsOk_spec k pad from len n :
  digitsOk k pad from len = true → from ≤ n < from + len →
  let s := if pad then padStart 2 "0" (pretty n) else pretty n in
  String.length s = k ∧ allChars isDigit s = true.
Proof.
  unfold digitsOk. rewrite forallb_forall. intros H Hn.
  specialize (H n). rewrite <- list_elem_of_In, elem_of_seqZ in H.
  apply andb_true_iff in H as [H1 H2]; [|done]. by apply Nat.eqb_eq in H1.
Qed.

(** X25.  The shape of an order number.  For a date of the years 1000 to
    9999, generateOrderNumber returns "HLM-", the eight digits of the
    date, a dash and a suffix of at most four characters taken from the
    random text, 13 to 17 characters in all.  The random draw enters
    through those four characters only, so two draws that agree on them
    give the same order number on the same day. *)
Theorem generateOrderNumber_shape date random36 :
  1000 ≤ getFullYear date ≤ 9999 →
  0 ≤ getMonth date ≤ 11 →
  1 ≤ getDate date ≤ 31 →
  let suffix := toUpperCase (substring 2 4 random36) in
  (∃ ymd,
     orderController.generateOrderNumber date random36
     = String.append "HLM-" (String.append ymd (String.append "-" suffix))
     ∧ String.length ymd = 8%nat
     ∧ allChars isDigit ymd = true)
  ∧ (String.length suffix ≤ 4)%nat
  ∧ (13 ≤ String.length (orderController.generateOrderNumber date random36) ≤ 17)%nat
  ∧ ∀ other,
      orderController.generateOrderNumber date other
      = orderController.generateOrderNumber date random36
      ↔ toUpperCase (substring 2 4 other) = suffix.
Proof.
  intros Hy Hm Hd suffix.
  assert (digitsOk 4 false 1000 9000 = true) as Ky by (vm_compute; reflexivity).
  assert (digitsOk 2 true 1 12 = true) as Km by (vm_compute; reflexivity).
  assert (digitsOk 2 true 1 31 = true) as Kd by (vm_compute; reflexivity).
  destruct (digitsOk_spec 4 false 1000 9000 (getFullYear date) Ky) as [Ly Dy]; [lia|].
  destruct (digitsOk_spec 2 true 1 12 (getMonth date + 1) Km) as [Lm Dm]; [lia|].
  destruct (digitsOk_spec 2 true 1 31 (getDate date) Kd) as [Ld Dd]; [lia|].
  cbv zeta in *.
  assert (String.length suffix ≤ 4)%nat as Hs.
  { unfold suffix. rewrite length_toUpperCase. apply length_substring_le. }
  set (y := pretty (getFullYear date)) in *.
  set (m := padStart 2 "0" (pretty (getMonth date + 1))) in *.
  set (d := padStart 2 "0" (pretty (getDate date))) in *.
  assert (∀ r, orderController.generateOrderNumber date r
               = String.append "HLM-"
                   (String.append (String.append y (String.append m d))
                      (String.append "-" (toUpperCase (substring 2 4 r))))) as Hgen.
  { intros r. unfold orderController.generateOrderNumber. fold y m d.
    by rewrite !append_assoc. }
  clearbody y m d. clear Ky Km Kd.
  split; [|split; [exact Hs|split]].
  - exists (String.append y (String.append m d)). split; [apply Hgen|].
    rewrite !length_append, !allChars_append, Ly, Lm, Ld, Dy, Dm, Dd.
    split; reflexivity.
  - rewrite Hgen, !length_append, Ly, Lm, Ld. fold suffix.
    change (String.length "HLM-") with 4%nat. change (String.length "-") with 1%nat.
    lia.
  - intros other. rewrite !Hgen. fold suffix. split; [|intros ->; reflexivity].
    intros H. do 3 apply String.app_inj in H. exact H.
Qed.

Lemma generateOrderNumber_shape_witness :
  orderController.generateOrderNumber (mkCalendarDate 2026 1 8) "0.a1b2c3d4e5f"
  = "HLM-20260208-A1B2"
  ∧ (13 ≤ String.length
            (orderController.generateOrderNumber (mkCalendarDate 2026 1 8)
               "0.a1b2c3d4e5f") ≤ 17)%nat
  ∧ orderController.generateOrderNumber (mkCalendarDate 2026 1 8) "0.a1b2zzzz"
    = orderController.generateOrderNumber (mkCalendarDate 2026 1 8) "0.a1b2c3d4e5f".
Proof.
  split; [vm_compute; reflexivity|].
  destruct (generateOrderNumber_shape (mkCalendarDate 2026 1 8) "0.a1b2c3d4e5f")
    as (_ & _ & Hlen & Hsame); [simpl; lia..|].
  split; [exact Hlen|]. apply Hsame. vm_compute. reflexivity.
Defined.

(** ** generateSlug *)

Lemma allChars_impl (P Q : ascii → bool) s :
  (∀ c, P c = true → Q c = true) → allChars P s = true → allChars Q s = true.
Proof.
  intros H. induction s as [|c s IH]; [done|]. cbn.
  intros [Hc Hs]%andb_true_iff. by rewrite (H c Hc), IH.
Qed.

Lemma allChars_removeAll X s : allChars (λ c, negb (X c)) (removeAll X s) = true.
Proof.
  induction s as [|c s IH]; [done|]. cbn. destruct (X c) eqn:E; [done|].
  cbn. by rewrite E, IH.
Qed.

Lemma allChars_replaceRuns (P Q : ascii → bool) X r b s :
  (∀ c, Q c = true → X c = false → P c = true) → P r = true →
  allChars Q s = true → allChars P (replaceRuns X r b s) = true.
Proof.
  intros H Hr. revert b. induction s as [|c s IH]; intros b; [done|]. cbn.
  intros [Hc Hs]%andb_true_iff. destruct (X c) eqn:E.
  - destruct b; [by apply IH|]. cbn. by rewrite Hr, IH.
  - cbn. by rewrite (H c Hc E), IH.
Qed.

(** In the outcome of [replaceRuns] no two characters of the class are
    neighbours, and within a run it starts outside the class. *)
Lemma replaceRuns_noNeighbours X r b s :
  noNeighbours X (replaceRuns X r b s) = true
  ∧ (b = true →
     match replaceRuns X r b s with
     | String c _ => X c = false
     | EmptyString => True
     end).
Proof.
  revert b. induction s as [|c s IH]; intros b; [done|]. cbn.
  destruct (X c) eqn:E.
  - destruct b; [apply IH|]. split; [|done].
    destruct (IH true) as [Hn Hh]. specialize (Hh eq_refl). cbn.
    destruct (replaceRuns X r true s) as [|c' s']; [done|].
    by rewrite Hh, andb_false_r.
  - split; [|done]. destruct (IH false) as [Hn _]. cbn.
    destruct (replaceRuns X r false s) as [|c' s']; [done|]. by rewrite E.
Qed.

Lemma removeAll_id X s : allChars (λ c, negb (X c)) s = true → removeAll X s = s.
Proof.
  induction s as [|c s IH]; [done|]. cbn.
  intros [Hc Hs]%andb_true_iff. apply negb_true_iff in Hc. by rewrite Hc, IH.
Qed.

Lemma replaceRuns_none X r b s :
  allChars (λ c, negb (X c)) s = true → replaceRuns X r b s = s.
Proof.
  revert b. induction s as [|c s IH]; intros b; [done|]. cbn.
  intros [Hc Hs]%andb_true_iff. apply negb_true_iff in Hc. by rewrite Hc, IH.
Qed.

Lemma replaceRuns_id X r b s :
  (∀ c, X c = true → c = r) →
  noNeighbours X s = true →
  (b = true → match s with String c _ => X c = false | EmptyString => True end) →
  replaceRuns X r b s = s.
Proof.
  intros Hr. revert b. induction s as [|c s IH]; intros b Hn Hh; [done|]. cbn.
  destruct (X c) eqn:E.
  - destruct b; [by specialize (Hh eq_refl)|].
    rewrite (Hr c E). f_equal. destruct s as [|c' s']; [done|].
    cbn in Hn. rewrite E in Hn. simpl in Hn.
    apply andb_true_iff in Hn as [Hc' Hn]. apply negb_true_iff in Hc'.
    apply IH; [done|]. by intros _.
  - f_equal. apply IH; [|done]. destruct s as [|c' s']; [done|].
    cbn in Hn. by apply andb_true_iff in Hn as [_ Hn].
Qed.

Lemma toLowerCase_id s : allChars isSlugChar s = true → toLowerCase s = s.
Proof.
  induction s as [|c s IH]; [done|]. cbn.
  intros [Hc Hs]%andb_true_iff. rewrite IH by done. f_equal.
  revert Hc. by destruct c as [[] [] [] [] [] [] [] []].
Qed.

Lemma isSlugChar_not_space c : isSlugChar c = true → negb (isSpace c) = true.
Proof. by destruct c as [[] [] [] [] [] [] [] []]. Qed.

Lemma isSlugChar_source c : isSlugChar c = true → negb (negb (isSlugSource c)) = true.
Proof. by destruct c as [[] [] [] [] [] [] [] []]. Qed.

Lemma isDash_eq c : isDash c = true → c = "-"%char.
Proof. by destruct c as [[] [] [] [] [] [] [] []]. Qed.

Lemma trimEnd_id s : allChars (λ c, negb (isSpace c)) s = true → trimEnd s = s.
Proof.
  induction s as [|c s IH]; [done|]. cbn.
  intros [Hc Hs]%andb_true_iff. rewrite IH by done.
  apply negb_true_iff in Hc. rewrite Hc. by destruct s.
Qed.

Lemma trim_id s : allChars (λ c, negb (isSpace c)) s = true → trim s = s.
Proof.
  intros H. unfold trim.
  assert (trimStart s = s) as ->; [|by apply trimEnd_id].
  destruct s as [|c s]; [done|]. cbn in *.
  apply andb_true_iff in H as [Hc _]. apply negb_true_iff in Hc. by rewrite Hc.
Qed.

Lemma slugBeforeTrim_shape name :
  allChars isSlugChar (productController.slugBeforeTrim name) = true
  ∧ noNeighbours isDash (productController.slugBeforeTrim name) = true.
Proof.
  unfold productController.slugBeforeTrim. split.
  - apply (allChars_replaceRuns isSlugChar isSlugChar); [done|done|].
    apply (allChars_replaceRuns isSlugChar isSlugSource); [|done|].
    + intros c H E. unfold isSlugSource in H. by rewrite E, orb_false_r in H.
    + eapply allChars_impl; [|apply allChars_removeAll].
      intros c. cbn. by rewrite negb_involutive.
  - apply replaceRuns_noNeighbours.
Qed.

(** X26.  The shape of a slug.  For a name in ASCII, generateSlug returns
    a text made of lower-case letters, digits and dashes only, with no two
    dashes in a row.  Its last step, [trim], never removes anything, since
    the white space was turned into dashes before: a name that starts with
    a space or a dash gives a slug that starts with a dash. *)
Theorem generateSlug_shape name :
  allChars isAsciiChar name = true →
  let slug := productController.generateSlug name in
  allChars isSlugChar slug = true
  ∧ noNeighbours isDash slug = true
  ∧ slug = productController.slugBeforeTrim name
  ∧ ∀ c rest, name = String c rest → isSpace c || isDash c = true →
      ∃ rest', slug = String "-" rest'.
Proof.
  intros _ slug. destruct (slugBeforeTrim_shape name) as [Hc Hn].
  assert (slug = productController.slugBeforeTrim name) as Hs.
  { unfold slug, productController.generateSlug. apply trim_id.
    eapply allChars_impl; [apply isSlugChar_not_space|done]. }
  rewrite Hs. do 3 (split; [done|]).
  intros c rest -> Hcr. unfold productController.slugBeforeTrim. cbn.
  assert (lowerChar c = c ∧ isSlugSource c = true
          ∧ (isSpace c = true ∨ (isSpace c = false ∧ isDash c = true)))
    as (-> & -> & Hcase).
  { revert Hcr. destruct c as [[] [] [] [] [] [] [] []]; cbn; intros; try done;
      repeat split; auto. }
  simpl negb. cbv iota. destruct Hcase as [E | [E1 E2]].
  - cbn [replaceRuns]. rewrite E. cbn [replaceRuns].
    change (isDash "-") with true. cbv iota. eauto.
  - cbn [replaceRuns]. rewrite E1. cbn [replaceRuns]. rewrite E2. eauto.
Qed.

Lemma generateSlug_shape_witness :
  productController.generateSlug " Street Helmet -- X2! " = "-street-helmet-x2-"
  ∧ allChars isSlugChar (productController.generateSlug " Street Helmet -- X2! ")
    = true
  ∧ noNeighbours isDash (productController.generateSlug " Street Helmet -- X2! ")
    = true.
Proof.
  split; [vm_compute; reflexivity|].
  destruct (generateSlug_shape " Street Helmet -- X2! ") as (Hc & Hn & _);
    [vm_compute; reflexivity|].
  by split.
Defined.

(** X27.  generateSlug is idempotent on ASCII names: the slug of a slug
    is that slug, so a stored slug can be passed through the function
    again without changing. *)
Theorem generateSlug_idempotent name :
  allChars isAsciiChar name = true →
  productController.generateSlug (productController.generateSlug name)
  = productController.generateSlug name.
Proof.
  intros _. destruct (slugBeforeTrim_shape name) as [Hc Hn].
  assert (∀ s, allChars isSlugChar s = true →
            productController.generateSlug s = trim (replaceRuns isDash "-" false s))
    as Hgen.
  { intros s Hs. unfold productController.generateSlug, productController.slugBeforeTrim.
    rewrite toLowerCase_id by done.
    rewrite removeAll_id by (eapply allChars_impl; [apply isSlugChar_source|done]).
    rewrite (replaceRuns_none isSpace)
      by (eapply allChars_impl; [apply isSlugChar_not_space|done]).
    done. }
  assert (productController.generateSlug name = productController.slugBeforeTrim name)
    as ->.
  { unfold productController.generateSlug. apply trim_id.
    eapply allChars_impl; [apply isSlugChar_not_space|done]. }
  rewrite Hgen by done.
  rewrite replaceRuns_id; [|apply isDash_eq|done|done].
  apply trim_id. eapply allChars_impl; [apply isSlugChar_not_space|done].
Qed.

Lemma generateSlug_idempotent_witness :
  productController.generateSlug "Street Helmet (Matte Black)" = "street-helmet-matte-black"
  ∧ productController.generateSlug
      (productController.generateSlug "Street Helmet (Matte Black)")
    = productController.generateSlug "Street Helmet (Matte Black)".
Proof.
  split; [vm_compute; reflexivity|].
  apply generateSlug_idempotent. vm_compute. reflexivity.
Defined.

(** ** The order routes *)

Lemma z_string_min_truthy value s :
  z_string_min 1 value = Some s → truthy s = true.
Proof.
  unfold z_string_min. destruct value as [[| | |s'| |]|]; try done.
  destruct s' as [|c s']; [done|]. by intros [= <-].
Qed.

Lemma verifyPaymentSchema_parse_complete body parsed :
  verifyPaymentSchema_parse body = Some parsed → completeBody parsed.
Proof.
  unfold verifyPaymentSchema_parse. destruct body; try done.
  destruct (z_string_min 1 (field "razorpay_order_id" _)) as [a|] eqn:Ea; [|done].
  destruct (z_string_min 1 (field "razorpay_payment_id" _)) as [b|] eqn:Eb; [|done].
  destruct (z_string_min 1 (field "razorpay_signature" _)) as [c|] eqn:Ec; [|done].
  intros [= <-]. unfold completeBody. simpl.
  split; [|split]; eapply z_string_min_truthy; eassumption.
Qed.

Lemma deductLine_inl vid pid q db db' e :
  deductLine vid pid q db = (db', inl e) → e = PrismaKnownError "P2025".
Proof.
  unfold deductLine. intros [E|([] & db1 & E1 & E2)]%bind_inl.
  - destruct vid as [v|]; [|done]. destruct (truthy v); [|done].
    by apply updateRow_inl in E as (_ & -> & _).
  - by apply updateRow_inl in E2 as (_ & -> & _).
Qed.

Lemma forEach_deductLine_inl {A} (vid : A → option string) (pid : A → string)
    (q : A → Z) xs db db' e :
  forEach (λ x, deductLine (vid x) (pid x) (q x)) xs db = (db', inl e) →
  e = PrismaKnownError "P2025".
Proof.
  revert db. induction xs as [|x xs IH]; intros db; simpl; [done|].
  intros [E|([] & db1 & E1 & E2)]%bind_inl; [by eapply deductLine_inl|by eapply IH].
Qed.

(** The errors of [verifyPayment] for a caller and a complete body. *)
Lemma verifyPayment_errors env user body db db' e :
  completeBody body →
  verifyPayment env (Some user) body db = (db', inl e) →
  e ∈ [AppError "Payment verification failed" 400;
       NotFoundError "Order";
       AppError "You are not authorized to verify this payment" 403;
       AppError "Could not verify payment amount" 500;
       AppError "Payment amount does not match order total" 400;
       PrismaKnownError "P2025"].
Proof.
  intros Hc. rewrite verifyPayment_run. cbv zeta. destruct Hc as (-> & -> & ->).
  simpl.
  destruct (verifyRazorpaySignature _ _ _ _); simpl; [|intros [= _ <-]; set_solver].
  destruct (head _) as [[orderId o]|]; [|intros [= _ <-]; set_solver].
  destruct (String.eqb _ _); simpl; [|intros [= _ <-]; set_solver].
  destruct (fetchPaymentDetails _ _) as [e0|amount]; [intros [= _ <-]; set_solver|].
  destruct (amountMismatch amount o); [intros [= _ <-]; set_solver|].
  destruct (deductOrder _ _) as [db3 [e3|[]]] eqn:Ed; [|done].
  intros [= _ <-]. apply forEach_deductLine_inl in Ed as ->. set_solver.
Qed.

(** X28.  At the route POST /api/orders/verify-payment the controller's
    own guards are dead: no request is ever answered with verifyPayment's
    "Not authenticated" or "Missing payment verification details", since
    [authenticate] and the body schema have refused such a request before.
    A refusal by either middleware is a 401 or a 400 and writes nothing;
    in particular a request with a missing or empty field marks no order
    as FAILED. *)
Theorem verify_payment_route_guards verifyAccessToken env authorization body db db'
    answer :
  orderRoutes.verify_payment verifyAccessToken env authorization body db
    = (db', answer) →
  answer ≠ Handled (inl (AppError "Not authenticated" 401))
  ∧ answer ≠ Handled (inl (AppError "Missing payment verification details" 400))
  ∧ (∀ status error, answer = Refused status error →
       db' = db ∧ (status = 401 ∨ status = 400))
  ∧ (verifyPaymentSchema_parse body = None → db' = db).
Proof.
  unfold orderRoutes.verify_payment, orderRoutes.authenticated, orderRoutes.handle.
  destruct (authenticate _ _) as [error|user].
  { intros [= <- <-]. split; [done|]. split; [done|]. split; [|done].
    intros ? ? [= <- _]. auto. }
  destruct (verifyPaymentSchema_parse body) as [parsed|] eqn:Ep.
  2:{ intros [= <- <-]. split; [done|]. split; [done|]. split; [|done].
      intros ? ? [= <- _]. auto. }
  pose proof (verifyPaymentSchema_parse_complete _ _ Ep) as Hc.
  destruct (verifyPayment env (Some user) parsed db) as [db1 [e|reply]] eqn:Ev;
    intros [= <- <-]; (split; [|split; [|split; [done|done]]]); try done.
  - intros [= ->]. apply verifyPayment_errors in Ev; [|done].
    repeat (apply elem_of_cons in Ev as [Ev|Ev]; [discriminate Ev|]).
    by apply elem_of_nil in Ev.
  - intros [= ->]. apply verifyPayment_errors in Ev; [|done].
    repeat (apply elem_of_cons in Ev as [Ev|Ev]; [discriminate Ev|]).
    by apply elem_of_nil in Ev.
Qed.

Lemma verify_payment_route_guards_witness :
  let jwt := λ token, if String.eqb token "alice-token" then Some Sample.alice else None in
  let body := JObject [("razorpay_order_id", JString "order_rzp_1");
                       ("razorpay_payment_id", JString "pay_1080");
                       ("razorpay_signature", JString "")] in
  orderRoutes.verify_payment jwt Sample.env (Some "Bearer alice-token") body
    Sample.dbPending
  = (Sample.dbPending, Refused 400 "Validation failed")
  ∧ Order.paymentStatus <$> orders Sample.dbPending !! "order-1"
    = Some PaymentStatus.PENDING.
Proof.
  intros jwt body.
  pose (run := orderRoutes.verify_payment jwt Sample.env (Some "Bearer alice-token")
                 body Sample.dbPending).
  assert (run = (run.1, Refused 400 "Validation failed")) as H
    by (vm_compute; reflexivity).
  destruct (verify_payment_route_guards jwt Sample.env (Some "Bearer alice-token") body
              Sample.dbPending run.1 _ H) as (_ & _ & Hr & _).
  destruct (Hr 400 "Validation failed" eq_refl) as [Hdb _].
  split; [by rewrite <- Hdb at 2|]. vm_compute. reflexivity.
Defined.

Lemma cancelOrder_rollback user id db db' e :
  cancelOrder user id db = (db', inl e) → db' = db.
Proof.
  destruct user as [user|]; [|by intros [= <- _]].
  rewrite cancelOrder_run.
  destruct (orders db !! id) as [o|]; [|by intros [= <- _]].
  destruct (negb _); [by intros [= <- _]|].
  destruct (negb _); [by intros [= <- _]|].
  destruct (forEach _ _ _) as [db1 [e1|[]]]; [by intros [= <- _]|done].
Qed.

(** X29.  Who can cancel through the route.  A request to
    PUT /api/orders/:id/cancel changes the database only when it carries a
    Bearer token that verifies, an id in UUID form, and names an order of
    the token's user that is PENDING or CONFIRMED; the order is then the
    cancelled one.  Every other request, whether a middleware refuses it or
    the controller fails, leaves the database as it was. *)
Theorem cancel_route_effect verifyAccessToken authorization id db db' answer :
  orderRoutes.cancel verifyAccessToken authorization id db = (db', answer) →
  match answer with
  | Handled (inr reply) =>
      ∃ user o o',
        authenticate verifyAccessToken authorization = inr user
        ∧ UUID_REGEX_test id = true
        ∧ orders db !! id = Some o
        ∧ Order.userId o = userId user
        ∧ (Order.orderStatus o = OrderStatus.PENDING
           ∨ Order.orderStatus o = OrderStatus.CONFIRMED)
        ∧ orders db' !! id = Some o'
        ∧ Order.orderStatus o' = OrderStatus.CANCELLED
        ∧ sameDetails o o'
        ∧ ∀ other, other ≠ id → orders db' !! other = orders db !! other
  | _ => db' = db
  end.
Proof.
  unfold orderRoutes.cancel, orderRoutes.authenticated, orderRoutes.withUuid,
    orderRoutes.handle, validateUuidParam.
  destruct (authenticate _ _) as [error|user] eqn:Ea; [by intros [= <- <-]|].
  destruct (cancelOrder (Some user) id db) as [db1 [e|reply]] eqn:Ec.
  all: destruct (truthy id); cbn [negb orb]; [|by intros [= <- <-]].
  all: destruct (UUID_REGEX_test id) eqn:Eu; cbn [negb]; [|by intros [= <- <-]].
  all: intros [= <- <-].
  - by eapply cancelOrder_rollback.
  - apply cancelOrder_effects in Ec as (o & Ho & Hu & Hc & Hos & _).
    exists user, o, (cancelled o). do 4 (split; [done|]).
    split.
    { unfold cancellable in Hc. apply orb_true_iff in Hc.
      destruct Hc as [Hc|Hc]; apply bool_decide_eq_true in Hc; auto. }
    split; [by rewrite Hos, lookup_insert_eq|]. split; [done|].
    split; [by repeat split|].
    intros other Hne. by rewrite Hos, lookup_insert_ne.
Qed.

Lemma cancel_route_effect_witness :
  let jwt := λ token, if String.eqb token "alice-token" then Some Sample.alice else None in
  orderRoutes.cancel jwt (Some "Bearer alice-token") "order-1" Sample.dbPending
  = (Sample.dbPending, Refused 400 "Invalid id format. Expected UUID.").
Proof.
  intros jwt.
  pose (run := orderRoutes.cancel jwt (Some "Bearer alice-token") "order-1"
                 Sample.dbPending).
  assert (run = (run.1, Refused 400 "Invalid id format. Expected UUID.")) as H
    by (vm_compute; reflexivity).
  pose proof (cancel_route_effect jwt (Some "Bearer alice-token") "order-1"
                Sample.dbPending run.1 _ H) as Hdb.
  transitivity (run.1, @Refused unit 400 "Invalid id format. Expected UUID.");
    [exact H|].
  exact (f_equal (λ d, (d, @Refused unit 400 "Invalid id format. Expected UUID.")) Hdb).
Defined.

(** ** validateUuidParam *)

Lemma hexDigits_spec n s rest :
  hexDigits n s = Some rest
  ↔ ∃ digits, s = String.append digits rest
              ∧ String.length digits = n
              ∧ allChars isHexDigit digits = true.
Proof.
  revert s. induction n as [|n IH]; intros s; simpl.
  { split.
    - intros [= ->]. by exists EmptyString.
    - intros ([|c d] & -> & Hl & _); [done|discriminate Hl]. }
  split.
  - destruct s as [|c s]; [done|]. destruct (isHexDigit c) eqn:Ec; [|done].
    intros (d & -> & <- & Hd)%IH. exists (String c d).
    rewrite append_String. cbn. by rewrite Ec, Hd.
  - intros ([|c d] & -> & Hl & Hd); [discriminate Hl|].
    rewrite append_String. cbn in Hd, Hl.
    apply andb_true_iff in Hd as [-> Hd]. apply IH. exists d.
    split; [done|]. split; [lia|done].
Qed.

Lemma dash_spec s rest : dash s = Some rest ↔ s = String "-" rest.
Proof.
  unfold dash. destruct s as [|c s]; [done|]. split.
  - destruct (isDash c) eqn:E; [|done]. intros [= ->]. by rewrite (isDash_eq c E).
  - by intros [= -> ->].
Qed.

Lemma append_empty_r s : String.append s "" = s.
Proof. induction s as [|c s IH]; [done|]. by rewrite append_String, IH. Qed.

Lemma hexDigits_append n digits rest :
  String.length digits = n → allChars isHexDigit digits = true →
  hexDigits n (String.append digits rest) = Some rest.
Proof. intros Hl Hd. apply hexDigits_spec. by exists digits. Qed.

(** X30.  What validateUuidParam lets through.  The test accepts exactly
    the texts made of five groups of 8, 4, 4, 4 and 12 hexadecimal digits,
    in either case, joined by dashes: 36 characters, with no requirement on
    the version and variant digits. *)
Theorem UUID_REGEX_test_accepts value :
  UUID_REGEX_test value = true
  ↔ ∃ a b c d e,
      value = String.append a (String "-" (String.append b (String "-"
                (String.append c (String "-" (String.append d (String "-" e)))))))
      ∧ (String.length a, String.length b, String.length c, String.length d,
         String.length e) = (8, 4, 4, 4, 12)%nat
      ∧ allChars isHexDigit a && allChars isHexDigit b && allChars isHexDigit c
        && allChars isHexDigit d && allChars isHexDigit e = true.
Proof.
  unfold UUID_REGEX_test. cbv zeta. split.
  - destruct (hexDigits 8 value) as [s1|] eqn:E1; [|done]. cbn [mbind option_bind].
    destruct (dash s1) as [s2|] eqn:D1; [|done]. cbn [mbind option_bind].
    destruct (hexDigits 4 s2) as [s3|] eqn:E2; [|done]. cbn [mbind option_bind].
    destruct (dash s3) as [s4|] eqn:D2; [|done]. cbn [mbind option_bind].
    destruct (hexDigits 4 s4) as [s5|] eqn:E3; [|done]. cbn [mbind option_bind].
    destruct (dash s5) as [s6|] eqn:D3; [|done]. cbn [mbind option_bind].
    destruct (hexDigits 4 s6) as [s7|] eqn:E4; [|done]. cbn [mbind option_bind].
    destruct (dash s7) as [s8|] eqn:D4; [|done]. cbn [mbind option_bind].
    destruct (hexDigits 12 s8) as [[|? ?]|] eqn:E5; [|done..]. intros _.
    apply hexDigits_spec in E1 as (a & -> & La & Ha).
    apply hexDigits_spec in E2 as (b & -> & Lb & Hb).
    apply hexDigits_spec in E3 as (c & -> & Lc & Hc).
    apply hexDigits_spec in E4 as (d & -> & Ld & Hd).
    apply hexDigits_spec in E5 as (e & -> & Le & He).
    apply dash_spec in D1 as ->. apply dash_spec in D2 as ->.
    apply dash_spec in D3 as ->. apply dash_spec in D4 as ->.
    exists a, b, c, d, e. rewrite La, Lb, Lc, Ld, Le, Ha, Hb, Hc, Hd, He.
    split; [|done]. by rewrite append_empty_r.
  - intros (a & b & c & d & e & -> & [= La Lb Lc Ld Le] & H).
    apply andb_true_iff in H as [H He]. apply andb_true_iff in H as [H Hd].
    apply andb_true_iff in H as [H Hc]. apply andb_true_iff in H as [Ha Hb].
    rewrite (hexDigits_append 8 a) by done. cbn [mbind option_bind].
    rewrite (proj2 (dash_spec _ _) eq_refl). cbn [mbind option_bind].
    rewrite (hexDigits_append 4 b) by done. cbn [mbind option_bind].
    rewrite (proj2 (dash_spec _ _) eq_refl). cbn [mbind option_bind].
    rewrite (hexDigits_append 4 c) by done. cbn [mbind option_bind].
    rewrite (proj2 (dash_spec _ _) eq_refl). cbn [mbind option_bind].
    rewrite (hexDigits_append 4 d) by done. cbn [mbind option_bind].
    rewrite (proj2 (dash_spec _ _) eq_refl). cbn [mbind option_bind].
    rewrite <- (append_empty_r e) at 1.
    by rewrite (hexDigits_append 12 e) by done.
Qed.
